(** * LibreSpeed for Home Assistant: measurement engine and test coordinator

    A shallow embedding of [custom_components/librespeed]:
    - [const.py]: the constants;
    - [librespeed_client.py]: server directory, backend detection for custom
      servers, ping and jitter, the download and upload phases;
    - [coordinator.py]: the retry loop, the circuit breaker, the lifetime
      counters.

    Python floats are modelled by exact rationals ([Q]); the sentinel
    [float('inf')] of the latency probe is a constructor of its own.  Network
    calls, the clock and the lock are inputs of the definitions (oracles), and
    what the code does to the outside (requests, sleeps, issues) is collected
    in traces. *)

From Stdlib Require Import String Ascii DecimalString.
From Stdlib Require Import ZArith QArith Qabs Qround Qminmax.
From Stdlib Require Import List Bool Lia Lqa.
From Stdlib Require Import Sorting.Sorted Sorting.Permutation.
Import ListNotations.

Local Open Scope Q_scope.

(* ================================================================== *)
(** ** const.py *)

Module Const.

Definition SPEED_TEST_DURATION : Q := 15.
Definition DEFAULT_CHUNKS : Z := 100.
Definition PING_COUNT : nat := 10.
Definition PING_INTERVAL : Q := 1 # 10.
Definition MAX_CONCURRENT_DOWNLOADS : nat := 6.
Definition MAX_CONCURRENT_UPLOADS : nat := 3.

Definition CIRCUIT_BREAKER_WARNING_THRESHOLD : Z := 5.
Definition CIRCUIT_BREAKER_OPEN_THRESHOLD : Z := 10.

Definition SERVER_LIST_TIMEOUT : Q := 10.
Definition PING_TIMEOUT : Q := 2.
Definition GLOBAL_TEST_LOCK_TIMEOUT : Q := 300.

Definition MAX_RETRIES : nat := 3.
Definition RETRY_DELAY_BASE : Z := 5.

Definition RUST_BACKEND_THRESHOLD : Z := 5000000.
Definition CUSTOM_SERVER_ERROR_COOLDOWN : Q := 21600.
Definition HTTP_OK : Z := 200.
Definition STREAM_START_DELAY : Q := 2 # 10.
Definition MAX_LIFETIME_GB : Q := 1000000.
Definition DOWNLOAD_CHUNK_PARAM : Z := 20.
Definition PHP_BACKEND_THRESHOLD : Z := 2.

End Const.

(* ================================================================== *)
(** ** Python built-ins used by the code *)

Module Py.

(** [min(xs)] on a non-empty list: the first smallest element. *)
Definition min (first : Q) (rest : list Q) : Q :=
  fold_left (fun m x => if Qlt_le_dec x m then x else m) rest first.

(** [sum(xs)]: left to right from 0. *)
Definition sum (xs : list Q) : Q := fold_left Qplus xs 0.

(** Rounding of an exact value to the nearest integer, ties to even. *)
Definition round_half_even (x : Q) : Z :=
  let f := Qfloor x in
  match Qcompare (x - inject_Z f) (1 # 2) with
  | Lt => f
  | Gt => (f + 1)%Z
  | Eq => if Z.even f then f else (f + 1)%Z
  end.

(** [round(x, ndigits)] for a float [x]: the decimal with [ndigits] digits
    nearest to the exact value of [x], ties to even. *)
Definition round (x : Q) (ndigits : nat) : Q :=
  let scale := inject_Z (10 ^ Z.of_nat ndigits) in
  inject_Z (round_half_even (x * scale)) / scale.

(** [a / b] on floats: [None] stands for [ZeroDivisionError]. *)
Definition truediv (a b : Q) : option Q :=
  if Qeq_bool b 0 then None else Some (a / b).

(** [s.rstrip('/')]. *)
Fixpoint rstrip_slash (s : string) : string :=
  match s with
  | EmptyString => EmptyString
  | String c rest =>
      match rstrip_slash rest with
      | EmptyString => if Ascii.eqb c "/" then EmptyString else String c EmptyString
      | kept => String c kept
      end
  end.

(** [s.startswith(p)]. *)
Definition startswith (s p : string) : bool := String.prefix p s.

End Py.

(* ================================================================== *)
(** ** librespeed_client.py: ping and jitter (in [run_speed_test]) *)

Module Latency.

(** What [_test_latency] returns: milliseconds, or [float('inf')] on a
    status other than 200, a timeout or a client error. *)
Inductive latency : Type :=
| Finite (ms : Q)
| Inf.

Record ping_jitter : Type := { ping : Q; jitter : Q }.

(** The loop [for i in range(PING_COUNT)]: [probe i] is the answer of the
    i-th call of [_test_latency]. *)
Definition collect_ping_results (probe : nat -> latency) : list Q :=
  fold_left
    (fun ping_results i =>
       match probe i with
       | Finite l => ping_results ++ [l]
       | Inf => ping_results
       end)
    (seq 0 Const.PING_COUNT) [].

(** [sum(abs(r[i] - r[i-1]) for i in range(1, len(r))) / (len(r) - 1)]. *)
Definition jitter_of (r : list Q) : Q :=
  Py.sum (map (fun i => Qabs (nth i r 0 - nth (i - 1) r 0))
              (seq 1 (length r - 1)))
  / inject_Z (Z.of_nat (length r - 1)).

(** The [ping] and [jitter] fields of the result, both 0 at the start. *)
Definition ping_and_jitter (probe : nat -> latency) : ping_jitter :=
  let ping_results := collect_ping_results probe in
  match ping_results with
  | [] => {| ping := 0; jitter := 0 |}
  | first :: rest =>
      {| ping := Py.round (Py.min first rest) 2;
         jitter := if (1 <? length ping_results)%nat
                   then Py.round (jitter_of ping_results) 2
                   else 0 |}
  end.

(** The words of the specification: the finite samples among the ten, the
    differences of neighbours, their mean. *)
Definition finite_samples (probe : nat -> latency) : list Q :=
  flat_map (fun i => match probe i with Finite l => [l] | Inf => [] end)
           (seq 0 Const.PING_COUNT).

Fixpoint consecutive_abs_diffs (r : list Q) : list Q :=
  match r with
  | a :: (b :: _) as tl => Qabs (b - a) :: consecutive_abs_diffs tl
  | _ => []
  end.

Definition mean (xs : list Q) : Q :=
  Py.sum xs / inject_Z (Z.of_nat (length xs)).

Definition is_minimum (m : Q) (xs : list Q) : Prop :=
  In m xs /\ forall x, In x xs -> m <= x.

(** A run of ten answers that alternate between 10.001 ms and 10.004 ms. *)
Definition alternating (i : nat) : latency :=
  if Nat.even i then Finite (10001 # 1000) else Finite (10004 # 1000).

End Latency.

(* ================================================================== *)
(** ** librespeed_client.py: the download and upload phases *)

Module Throughput.

(** The values of [self._detected_backend_type]; the attribute does not
    exist ([None]) until the first detection. *)
Inductive backend : Type := rust | php.

Record client : Type := { _detected_backend_type : option backend }.

(** The variables of [_test_download] that the workers share. *)
Record download_state : Type :=
  { self : client; total_bytes : Z; downloads_completed : Z }.

Definition chunks : Z := Const.DEFAULT_CHUNKS.

(** The choice of [chunk_param] at the start of a request. *)
Definition chunk_param (c : client) : Z :=
  match _detected_backend_type c with
  | None => Const.DOWNLOAD_CHUNK_PARAM
  | Some rust => Const.DOWNLOAD_CHUNK_PARAM
  | Some php => chunks
  end.

(** What a worker does when [_download_chunk] returns [bytes_received]
    (0 for a failed chunk). *)
Definition chunk_received (bytes_received : Z) (s : download_state)
  : download_state :=
  if (0 <? bytes_received)%Z then
    let total := (total_bytes s + bytes_received)%Z in
    let completed := (downloads_completed s + 1)%Z in
    let detected :=
      match _detected_backend_type (self s) with
      | None =>
          if (Const.RUST_BACKEND_THRESHOLD <? bytes_received)%Z then Some rust
          else if (Const.PHP_BACKEND_THRESHOLD <? completed)%Z then Some php
          else None
      | Some b => Some b
      end in
    {| self := {| _detected_backend_type := detected |};
       total_bytes := total;
       downloads_completed := completed |}
  else s.

(** The workers interleave: a phase is a sequence of request starts and
    chunk completions, in the order in which they happen. *)
Inductive event : Type :=
| request
| received (bytes_received : Z).

(** Runs the events; the second component lists the [ckSize] parameter of
    every request, oldest first. *)
Fixpoint do_download (events : list event) (s : download_state)
  : download_state * list Z :=
  match events with
  | [] => (s, [])
  | request :: rest =>
      let '(s', params) := do_download rest s in
      (s', chunk_param (self s) :: params)
  | received n :: rest => do_download rest (chunk_received n s)
  end.

(** The end of [_test_download]: [now] is the clock when the workers are
    gone.  [None] stands for [ZeroDivisionError]. *)
Definition download_speed (total_bytes : Z) (start_time now : Q) : option Q :=
  let elapsed := now - start_time in
  if (0 <? total_bytes)%Z && negb (Qle_bool elapsed 0) then
    match Py.truediv (inject_Z (total_bytes * 8)) elapsed with
    | Some bits_per_second => Py.truediv bits_per_second 1000000
    | None => None
    end
  else Some 0.

Definition _test_download (c : client) (events : list event)
                          (start_time now : Q)
  : client * option (Q * Z) :=
  let '(s, _) := do_download events
                   {| self := c; total_bytes := 0; downloads_completed := 0 |} in
  (self s,
   match download_speed (total_bytes s) start_time now with
   | Some speed => Some (speed, total_bytes s)
   | None => None
   end).

(** The upload workers: [_upload_chunk] returns [len(data)] or 0. *)
Definition chunk_sent (bytes_sent : Z) (total_bytes : Z) : Z :=
  if (0 <? bytes_sent)%Z then (total_bytes + bytes_sent)%Z else total_bytes.

Definition do_upload (chunks_sent : list Z) : Z :=
  fold_left (fun total n => chunk_sent n total) chunks_sent 0%Z.

Definition upload_speed (total_bytes : Z) (start_time now : Q) : option Q :=
  let elapsed := now - start_time in
  if (0 <? total_bytes)%Z && negb (Qle_bool elapsed 0) then
    match Py.truediv (inject_Z (total_bytes * 8)) elapsed with
    | Some bits_per_second => Py.truediv bits_per_second 1000000
    | None => None
    end
  else Some 0.

Definition _test_upload (chunks_sent : list Z) (start_time now : Q)
  : option (Q * Z) :=
  let total := do_upload chunks_sent in
  match upload_speed total start_time now with
  | Some speed => Some (speed, total)
  | None => None
  end.

(** The formula of the specification for the speed of a phase. *)
Definition megabits_per_second (total : Z) (elapsed : Q) : Q :=
  inject_Z (total * 8) / elapsed / 1000000.

(** *** Starting the workers *)

Inductive launch : Type :=
| create_task (stream_id : nat)
| sleep (seconds : Q).

(** [for i in range(concurrent_requests): create_task(...);
     if i < concurrent_requests - 1: sleep(STREAM_START_DELAY)]. *)
Definition start_streams (concurrent_requests : nat) : list launch :=
  flat_map
    (fun i =>
       create_task i ::
       (if (i <? concurrent_requests - 1)%nat
        then [sleep Const.STREAM_START_DELAY] else []))
    (seq 0 concurrent_requests).

Definition download_concurrent_requests : nat :=
  Nat.min 3 Const.MAX_CONCURRENT_DOWNLOADS.
Definition download_semaphore : nat := Const.MAX_CONCURRENT_DOWNLOADS.

Definition upload_concurrent_requests : nat :=
  Nat.min 3 Const.MAX_CONCURRENT_UPLOADS.
Definition upload_semaphore : nat := Const.MAX_CONCURRENT_UPLOADS.

Definition is_task (l : launch) : bool :=
  match l with create_task _ => true | sleep _ => false end.

(** The number of worker streams of a phase. *)
Definition workers (schedule : list launch) : nat :=
  List.length (filter is_task schedule).

(** A worker holds one slot of the semaphore for one request at a time, so
    the requests in flight are at most this many. *)
Definition max_in_flight (schedule : list launch) (semaphore : nat) : nat :=
  Nat.min (workers schedule) semaphore.

Definition delays (schedule : list launch) : list Q :=
  flat_map (fun l => match l with sleep d => [d] | create_task _ => [] end)
           schedule.

(** A tester that has detected nothing yet, at the start of a phase. *)
Definition fresh : download_state :=
  {| self := {| _detected_backend_type := None |};
     total_bytes := 0;
     downloads_completed := 0 |}.

Definition detected (s : download_state) : option backend :=
  _detected_backend_type (self s).

(** While nothing is detected, at most two chunks have completed. *)
Definition undetected_few (s : download_state) : Prop :=
  detected s = None -> (downloads_completed s <= 2)%Z.

End Throughput.

(* ================================================================== *)
(** ** librespeed_client.py: the server directory ([get_servers]) *)

Module Directory.

Local Open Scope string_scope.

(** A server dict of the client. *)
Record server : Type :=
  { id : Z;
    name : string;
    server_url : string;   (* key "server" *)
    location : string;
    sponsor : string;
    dlURL : string;
    ulURL : string;
    pingURL : string;
    getIpURL : string }.

Definition DEFAULT_SERVERS : list server :=
  [ {| id := 1;
       name := "LibreSpeed Test Server";
       server_url := "https://librespeed.org/";
       location := "Global";
       sponsor := "LibreSpeed";
       dlURL := "backend/garbage.php";
       ulURL := "backend/empty.php";
       pingURL := "backend/empty.php";
       getIpURL := "backend/getIP.php" |} ].

(** An object of the JSON answer: each key is there or not. *)
Record json_object : Type :=
  { j_id : option Z;
    j_name : option string;
    j_server : option string;
    j_location : option string;
    j_sponsor : option string;
    j_dlURL : option string;
    j_ulURL : option string;
    j_pingURL : option string;
    j_getIpURL : option string }.

(** An element of the JSON list; only dicts are kept. *)
Inductive json : Type :=
| JObject (o : json_object)
| JOther.

(** [d.get(key, default)]. *)
Definition get {A : Type} (field : option A) (default : A) : A :=
  match field with Some v => v | None => default end.

(** The three exceptions that [get_servers] catches. *)
Inductive fetch_error : Type :=
| ClientError
| JSONDecodeError
| TimeoutError.

(** What the request of the list does: it raises (in [session.get] or in
    [response.json()], before any server is read), or answers with a status
    and, when the status is 200, a JSON list. *)
Inductive fetch : Type :=
| Raises (e : fetch_error)
| Response (status : Z) (data : list json).

(** "Ensure server URL has protocol". *)
Definition ensure_protocol (server_url : string) : string :=
  if Py.startswith server_url "//" then "https:" ++ server_url
  else if negb (Py.startswith server_url "http://"
                || Py.startswith server_url "https://")
       then "https://" ++ server_url
       else server_url.

(** The dict appended for the entry at position [idx]. *)
Definition entry (idx : nat) (o : json_object) : server :=
  let url := ensure_protocol (Py.rstrip_slash (get (j_server o) "")) in
  {| id := get (j_id o) (Z.of_nat idx + 1)%Z;
     name := get (j_name o) "Unknown Server";
     server_url := url;
     location := get (j_location o) (get (j_name o) "Unknown");
     sponsor := get (j_sponsor o) "Unknown";
     dlURL := get (j_dlURL o) "backend/garbage.php";
     ulURL := get (j_ulURL o) "backend/empty.php";
     pingURL := get (j_pingURL o) "backend/empty.php";
     getIpURL := get (j_getIpURL o) "backend/getIP.php" |}.

(** [for idx, server in enumerate(data)]. *)
Fixpoint parse_from (idx : nat) (data : list json) (servers : list server)
  : list server :=
  match data with
  | [] => servers
  | JObject o :: rest => parse_from (S idx) rest (servers ++ [entry idx o])
  | JOther :: rest => parse_from (S idx) rest servers
  end.

(** [servers.sort(key=lambda x: x["id"])]: a stable sort. *)
Fixpoint insert_by_id (s : server) (sorted : list server) : list server :=
  match sorted with
  | [] => [s]
  | t :: rest =>
      if (id s <=? id t)%Z then s :: sorted
      else t :: insert_by_id s rest
  end.

Definition sort_by_id (servers : list server) : list server :=
  fold_right insert_by_id [] servers.

Definition get_servers (answer : fetch) : list server :=
  let servers :=
    match answer with
    | Response status data =>
        if (status =? Const.HTTP_OK)%Z
        then sort_by_id (parse_from 0 data [])
        else []
    | Raises _ => []
    end in
  match servers with
  | [] => DEFAULT_SERVERS
  | _ => servers
  end.


(** The endpoint suffixes of [s] are those of [o], the legacy ones where
    [o] has none. *)
Definition suffixes_from (o : json_object) (s : server) : Prop :=
  dlURL s = get (j_dlURL o) "backend/garbage.php" /\
  ulURL s = get (j_ulURL o) "backend/empty.php" /\
  pingURL s = get (j_pingURL o) "backend/empty.php" /\
  getIpURL s = get (j_getIpURL o) "backend/getIP.php".



End Directory.

(* ================================================================== *)
(** ** librespeed_client.py: custom servers
     ([_create_custom_server], [_detect_backend_type]) *)

Module Adapter.

Local Open Scope string_scope.

Import Throughput.

(** *** [urllib.parse.urlparse(url).path]

    The steps of [urlsplit] that decide the path: the scheme before the
    first colon, the network location after [//], then the fragment and the
    query are cut off.  The [;parameters] of the last segment and the
    stripping of control characters are left out. *)

Definition is_alpha (c : ascii) : bool :=
  let n := nat_of_ascii c in
  ((65 <=? n) && (n <=? 90) || (97 <=? n) && (n <=? 122))%nat.

Definition is_scheme_char (c : ascii) : bool :=
  let n := nat_of_ascii c in
  (is_alpha c || (48 <=? n) && (n <=? 57)
   || (n =? 43) || (n =? 45) || (n =? 46))%nat.

(** The part before the first character satisfying [stop], and the part
    from that character on ([None] when there is none). *)
Fixpoint split_at (stop : ascii -> bool) (s : string)
  : string * option string :=
  match s with
  | EmptyString => (EmptyString, None)
  | String c rest =>
      if stop c then (EmptyString, Some s)
      else let '(before, from) := split_at stop rest in
           (String c before, from)
  end.

Fixpoint all_chars (p : ascii -> bool) (s : string) : bool :=
  match s with
  | EmptyString => true
  | String c rest => p c && all_chars p rest
  end.

Definition tail (s : string) : string :=
  match s with EmptyString => EmptyString | String _ rest => rest end.

Definition strip_scheme (url : string) : string :=
  match split_at (Ascii.eqb ":") url with
  | (String c before, Some from) =>
      if is_alpha c && all_chars is_scheme_char (String c before)
      then tail from else url
  | _ => url
  end.

Definition strip_netloc (url : string) : string :=
  if Py.startswith url "//" then
    match split_at (fun c => Ascii.eqb c "/" || Ascii.eqb c "?" || Ascii.eqb c "#")
                   (tail (tail url)) with
    | (_, Some from) => from
    | (_, None) => EmptyString
    end
  else url.

Definition urlparse_path (url : string) : string :=
  let url := strip_netloc (strip_scheme url) in
  let url := fst (split_at (Ascii.eqb "#") url) in
  fst (split_at (Ascii.eqb "?") url).

(** *** The probes *)

(** What [session.get(url)] does under [async_timeout.timeout]: a status,
    or one of the two exceptions that the code catches. *)
Inductive answer : Type :=
| Status (code : Z)
| RaisesClientError
| RaisesTimeoutError.

(** A request as it leaves: the URL and the timeout around it. *)
Record probe : Type := { url : string; timeout : Q }.

(** The result of the detection, the requests made, and whether the
    warning "Could not detect backend type, defaulting to PHP" was logged. *)
Record detection : Type :=
  { backend_type : backend; probes : list probe; defaulted : bool }.

Definition _detect_backend_type (http_get : string -> answer)
    (server_url : string) (has_backend_path : bool) : detection :=
  let server_url := Py.rstrip_slash server_url in
  let rust_test := if has_backend_path then server_url ++ "/empty"
                   else server_url ++ "/backend/empty" in
  let php_test := if has_backend_path then server_url ++ "/empty.php"
                  else server_url ++ "/backend/empty.php" in
  let first := {| url := rust_test; timeout := Const.PING_TIMEOUT |} in
  let second := {| url := php_test; timeout := Const.PING_TIMEOUT |} in
  let try_php :=
    match http_get php_test with
    | Status code =>
        if (code =? Const.HTTP_OK)%Z
        then {| backend_type := php; probes := [first; second];
                defaulted := false |}
        else {| backend_type := php; probes := [first; second];
                defaulted := true |}
    | RaisesClientError | RaisesTimeoutError =>
        {| backend_type := php; probes := [first; second];
           defaulted := true |}
    end in
  match http_get rust_test with
  | Status code =>
      if (code =? Const.HTTP_OK)%Z
      then {| backend_type := rust; probes := [first]; defaulted := false |}
      else try_php
  | RaisesClientError | RaisesTimeoutError => try_php
  end.

(** The custom server dict: the keys of the base object and the four
    endpoint suffixes. *)
Definition custom_server (server_url dl ul ping getIp : string)
  : Directory.server :=
  {| Directory.id := 0;
     Directory.name := "Custom Server";
     Directory.server_url := server_url;
     Directory.location := "Custom";
     Directory.sponsor := "User Defined";
     Directory.dlURL := dl;
     Directory.ulURL := ul;
     Directory.pingURL := ping;
     Directory.getIpURL := getIp |}.

Definition _create_custom_server (http_get : string -> answer)
    (custom_server_url : string)
  : Directory.server * list probe :=
  let path := urlparse_path (Py.rstrip_slash custom_server_url) in
  let has_backend_path :=
    negb (String.eqb path "") && negb (String.eqb path "/") in
  let base := Py.rstrip_slash custom_server_url in
  let detected :=
    _detect_backend_type http_get custom_server_url has_backend_path in
  (match backend_type detected with
   | rust =>
       if has_backend_path
       then custom_server base "garbage" "empty" "empty" "getIP"
       else custom_server base "backend/garbage" "backend/empty"
                          "backend/empty" "backend/getIP"
   | php =>
       if has_backend_path
       then custom_server base "garbage.php" "empty.php" "empty.php"
                          "getIP.php"
       else custom_server base "backend/garbage.php" "backend/empty.php"
                          "backend/empty.php" "backend/getIP.php"
   end, probes detected).

(** The answer of a probe counts as a success. *)
Definition succeeds (a : answer) : bool :=
  match a with
  | Status code => (code =? Const.HTTP_OK)%Z
  | _ => false
  end.


End Adapter.

(* ================================================================== *)
(** ** exceptions.py, and the exceptions of asyncio and aiohttp that the
     coordinator tells apart *)

Module Exc.

Inductive class : Type :=
(* asyncio, aiohttp, built-ins *)
| AsyncioTimeoutError
| AiohttpClientError
| AiohttpServerTimeoutError   (* a ClientError and a TimeoutError *)
| CancelledError
| ValueError
| TypeError
| KeyError
| AttributeError
(* exceptions.py *)
| LibreSpeedError
| ServerNotFoundError
| NetworkError
| SpeedTestError
| SpeedTestTimeoutError
| CLIError
| CLINotFoundError
| CLIExecutionError
| CLIOutputError.

Definition class_eqb (a b : class) : bool :=
  match a, b with
  | AsyncioTimeoutError, AsyncioTimeoutError
  | AiohttpClientError, AiohttpClientError
  | AiohttpServerTimeoutError, AiohttpServerTimeoutError
  | CancelledError, CancelledError
  | ValueError, ValueError
  | TypeError, TypeError
  | KeyError, KeyError
  | AttributeError, AttributeError
  | LibreSpeedError, LibreSpeedError
  | ServerNotFoundError, ServerNotFoundError
  | NetworkError, NetworkError
  | SpeedTestError, SpeedTestError
  | SpeedTestTimeoutError, SpeedTestTimeoutError
  | CLIError, CLIError
  | CLINotFoundError, CLINotFoundError
  | CLIExecutionError, CLIExecutionError
  | CLIOutputError, CLIOutputError => true
  | _, _ => false
  end.

(** The direct base classes (below [Exception] and [BaseException]). *)
Definition bases (c : class) : list class :=
  match c with
  | AiohttpServerTimeoutError => [AiohttpClientError; AsyncioTimeoutError]
  | ServerNotFoundError | NetworkError | SpeedTestError | CLIError =>
      [LibreSpeedError]
  | SpeedTestTimeoutError => [SpeedTestError]
  | CLINotFoundError | CLIExecutionError | CLIOutputError => [CLIError]
  | _ => []
  end.

(** [issubclass(c, d)]; the hierarchy is three levels deep. *)
Definition issubclass (c d : class) : bool :=
  class_eqb c d
  || existsb (fun b => class_eqb b d
                       || existsb (fun b' => class_eqb b' d) (bases b))
             (bases c).

Record exn : Type := { cls : class; message : string }.

Definition isinstance (e : exn) (d : class) : bool := issubclass (cls e) d.

End Exc.

(* ================================================================== *)
(** ** coordinator.py *)

Module Coordinator.

Local Open Scope string_scope.

Import Exc.

(** The dict returned by the client's [run_speed_test] (either backend). *)
Record speed_result : Type :=
  { r_download : Q;
    r_upload : Q;
    r_ping : Q;
    r_jitter : Q;
    r_bytes_sent : Z;
    r_bytes_received : Z }.

(** The dict built by [_parse_result], with the two lifetime keys that
    [_run_speed_test] adds. *)
Record parsed_result : Type :=
  { download : Q;
    upload : Q;
    ping : Q;
    jitter : Q;
    bytes_sent : Z;
    bytes_received : Z;
    ATTR_LIFETIME_DOWNLOAD : Q;
    ATTR_LIFETIME_UPLOAD : Q }.

(** The attributes of the coordinator that the update path reads or
    writes. *)
Record coordinator : Type :=
  { custom_server : option string;
    data : option parsed_result;
    is_running : bool;
    is_waiting : bool;
    lifetime_download : Q;
    lifetime_upload : Q;
    _consecutive_failures : Z;
    _last_custom_server_error : Q }.

(** [__init__]. *)
Definition init (custom : option string) : coordinator :=
  {| custom_server := custom;
     data := None;
     is_running := false;
     is_waiting := false;
     lifetime_download := 0;
     lifetime_upload := 0;
     _consecutive_failures := 0;
     _last_custom_server_error := 0 |}.

Definition set_is_running (b : bool) (c : coordinator) : coordinator :=
  {| custom_server := custom_server c; data := data c;
     is_running := b; is_waiting := is_waiting c;
     lifetime_download := lifetime_download c;
     lifetime_upload := lifetime_upload c;
     _consecutive_failures := _consecutive_failures c;
     _last_custom_server_error := _last_custom_server_error c |}.

Definition set_is_waiting (b : bool) (c : coordinator) : coordinator :=
  {| custom_server := custom_server c; data := data c;
     is_running := is_running c; is_waiting := b;
     lifetime_download := lifetime_download c;
     lifetime_upload := lifetime_upload c;
     _consecutive_failures := _consecutive_failures c;
     _last_custom_server_error := _last_custom_server_error c |}.

Definition set_lifetime (down up : Q) (c : coordinator) : coordinator :=
  {| custom_server := custom_server c; data := data c;
     is_running := is_running c; is_waiting := is_waiting c;
     lifetime_download := down;
     lifetime_upload := up;
     _consecutive_failures := _consecutive_failures c;
     _last_custom_server_error := _last_custom_server_error c |}.

Definition set_consecutive_failures (n : Z) (c : coordinator) : coordinator :=
  {| custom_server := custom_server c; data := data c;
     is_running := is_running c; is_waiting := is_waiting c;
     lifetime_download := lifetime_download c;
     lifetime_upload := lifetime_upload c;
     _consecutive_failures := n;
     _last_custom_server_error := _last_custom_server_error c |}.

Definition set_last_custom_server_error (t : Q) (c : coordinator)
  : coordinator :=
  {| custom_server := custom_server c; data := data c;
     is_running := is_running c; is_waiting := is_waiting c;
     lifetime_download := lifetime_download c;
     lifetime_upload := lifetime_upload c;
     _consecutive_failures := _consecutive_failures c;
     _last_custom_server_error := t |}.

Definition set_data (d : option parsed_result) (c : coordinator)
  : coordinator :=
  {| custom_server := custom_server c; data := d;
     is_running := is_running c; is_waiting := is_waiting c;
     lifetime_download := lifetime_download c;
     lifetime_upload := lifetime_upload c;
     _consecutive_failures := _consecutive_failures c;
     _last_custom_server_error := _last_custom_server_error c |}.

(** What the coordinator does to the outside. *)
Inductive effect : Type :=
| client_run_speed_test (attempt : nat)   (* the measurement: network I/O *)
| asyncio_sleep (delay : Z)
| store_save (download upload : Q)
| issue_delete (issue_id : string)
| issue_create (issue_id : string)
| update_listeners.

(** What the client's [run_speed_test] does in one attempt. *)
Inductive attempt_outcome : Type :=
| result (r : speed_result)
| raises (e : exn).

(** Waiting for the global lock under [asyncio.timeout]: the lock is not
    obtained in time; or it is, and the run fits in what is left of the
    300 seconds; or it is, and the time runs out during the client call of
    attempt [k] (the task is cancelled there). *)
Inductive lock_wait : Type :=
| wait_times_out
| acquired
| acquired_late (k : nat).

Record environment : Type :=
  { client : nat -> attempt_outcome;
    lock_locked : bool;        (* [self._global_lock.locked()] *)
    wait : lock_wait;
    current_time : Q }.        (* [time.time()] *)

(** How a call ends. *)
Inductive failure : Type :=
| UpdateFailed (msg : string) (cause : option exn)
| propagated (e : exn).

Inductive outcome : Type :=
| Return (r : parsed_result)
| ReturnNone
| Raise (f : failure).

(** The [except] clause that catches [e] in the loop: the first one, in
    the order of the source, whose classes [e] is an instance of. *)
Inductive clause : Type :=
| except_timeout
| except_client_error
| except_known
| except_data
| uncaught.

Definition except_clause (e : exn) : clause :=
  if isinstance e AsyncioTimeoutError then except_timeout
  else if isinstance e AiohttpClientError then except_client_error
  else if isinstance e SpeedTestError || isinstance e NetworkError
          || isinstance e CLIError then except_known
  else if isinstance e ValueError || isinstance e TypeError
          || isinstance e KeyError || isinstance e AttributeError
       then except_data
  else uncaught.

Definition _parse_result (r : speed_result) : parsed_result :=
  {| download := r_download r;
     upload := r_upload r;
     ping := r_ping r;
     jitter := r_jitter r;
     bytes_sent := r_bytes_sent r;
     bytes_received := r_bytes_received r;
     ATTR_LIFETIME_DOWNLOAD := 0;
     ATTR_LIFETIME_UPLOAD := 0 |}.

Definition with_lifetime (down up : Q) (p : parsed_result) : parsed_result :=
  {| download := download p; upload := upload p; ping := ping p;
     jitter := jitter p; bytes_sent := bytes_sent p;
     bytes_received := bytes_received p;
     ATTR_LIFETIME_DOWNLOAD := down;
     ATTR_LIFETIME_UPLOAD := up |}.

(** [min(a, b)] of two numbers. *)
Definition min2 (a b : Q) : Q := if Qlt_le_dec b a then b else a.

(** The body of the [try] after the client has returned. *)
Definition on_result (r : speed_result) (self : coordinator)
  : coordinator * parsed_result * list effect :=
  let parsed := _parse_result r in
  let new_download :=
    (lifetime_download self + inject_Z (bytes_received parsed) / 1000000000)%Q in
  let down := min2 new_download Const.MAX_LIFETIME_GB in
  let new_upload :=
    (lifetime_upload self + inject_Z (bytes_sent parsed) / 1000000000)%Q in
  let up := min2 new_upload Const.MAX_LIFETIME_GB in
  let self := set_lifetime down up self in
  let parsed := with_lifetime down up parsed in
  let self := set_consecutive_failures 0 self in
  (self, parsed,
   [store_save down up;
    issue_delete "custom_server_unreachable";
    issue_delete "repeated_test_failures"]).

(** How the loop [for attempt in range(MAX_RETRIES)] is left. *)
Inductive loop_exit : Type :=
| returned (r : parsed_result)
| raised (f : failure)
| exhausted (last_error : option exn).

Definition backoff (attempt : nat) : Z :=
  (Const.RETRY_DELAY_BASE * 2 ^ Z.of_nat attempt)%Z.

Fixpoint attempts (client : nat -> attempt_outcome) (todo : list nat)
    (self : coordinator) (last_error : option exn)
  : coordinator * loop_exit * list effect :=
  match todo with
  | [] => (self, exhausted last_error, [])
  | attempt :: rest =>
      match client attempt with
      | result r =>
          let '(self', parsed, effects) := on_result r self in
          (self', returned parsed, client_run_speed_test attempt :: effects)
      | raises err =>
          match except_clause err with
          | except_timeout | except_client_error =>
              let '(self', exit, effects) :=
                attempts client rest self (Some err) in
              (self', exit,
               client_run_speed_test attempt ::
               (if (attempt <? Const.MAX_RETRIES - 1)%nat
                then asyncio_sleep (backoff attempt) :: effects
                else effects))
          | except_known =>
              (self,
               raised (UpdateFailed ("Speed test error: " ++ message err)
                                    (Some err)),
               [client_run_speed_test attempt])
          | except_data =>
              (self,
               raised (UpdateFailed ("Data processing error: " ++ message err)
                                    (Some err)),
               [client_run_speed_test attempt])
          | uncaught =>
              (self, raised (propagated err), [client_run_speed_test attempt])
          end
      end
  end.

Definition is_instance_of (last_error : option exn) (d : class) : bool :=
  match last_error with
  | Some e => isinstance e d
  | None => false
  end.

Definition truthy (s : option string) : bool :=
  match s with
  | Some EmptyString | None => false
  | Some _ => true
  end.

(** The code after the loop: "all retries failed". *)
Definition after_retries (now : Q) (last_error : option exn)
    (self : coordinator)
  : coordinator * outcome * list effect :=
  let self :=
    set_consecutive_failures (_consecutive_failures self + 1)%Z self in
  let '(self, custom_issue) :=
    if truthy (custom_server self)
       && (is_instance_of last_error AiohttpClientError
           || is_instance_of last_error NetworkError)
    then
      if negb (Qle_bool (now - _last_custom_server_error self)
                        Const.CUSTOM_SERVER_ERROR_COOLDOWN)
      then (set_last_custom_server_error now self,
            [issue_create "custom_server_unreachable"])
      else (self, [])
    else (self, []) in
  let repeated_issue :=
    if (_consecutive_failures self
        =? Const.CIRCUIT_BREAKER_WARNING_THRESHOLD)%Z
    then [issue_create "repeated_test_failures"]
    else if (_consecutive_failures self
             =? Const.CIRCUIT_BREAKER_OPEN_THRESHOLD)%Z
    then [issue_create "circuit_breaker_open"]
    else [] in
  let out :=
    match last_error with
    | Some e =>
        if isinstance e AsyncioTimeoutError
        then Raise (UpdateFailed
                      "Speed test timed out after multiple attempts"
                      last_error)
        else if isinstance e AiohttpClientError
        then Raise (UpdateFailed
                      ("Network error after multiple attempts: " ++ message e)
                      last_error)
        else ReturnNone
    | None => ReturnNone
    end in
  (self, out, (custom_issue ++ repeated_issue)%list).

(** [_run_speed_test]: the flag [is_running] is set around the loop and
    reset in the [finally] clause. *)
Definition _run_speed_test (client : nat -> attempt_outcome) (now : Q)
    (self : coordinator)
  : coordinator * outcome * list effect :=
  let self := set_is_running true self in
  let '(self, exit, effects) :=
    attempts client (seq 0 Const.MAX_RETRIES) self None in
  let '(self, out, effects) :=
    match exit with
    | returned r => (self, Return r, effects)
    | raised f => (self, Raise f, effects)
    | exhausted last_error =>
        let '(self, out, more) := after_retries now last_error self in
        (self, out, (effects ++ more)%list)
    end in
  (set_is_running false self, out,
   (update_listeners :: effects ++ [update_listeners])%list).

(** [return self.data] when there is data, [raise UpdateFailed] when not. *)
Definition data_or_fail (msg : string) (self : coordinator) : outcome :=
  match data self with
  | Some d => Return d
  | None => Raise (UpdateFailed msg None)
  end.

Definition deadline_cancel : exn :=
  {| cls := CancelledError; message := "" |}.

Definition started (attempt : nat) (effects : list effect) : bool :=
  existsb (fun e => match e with
                    | client_run_speed_test a => (a =? attempt)%nat
                    | _ => false
                    end) effects.

Definition _async_update_data (env : environment) (self : coordinator)
  : coordinator * outcome * list effect :=
  if (Const.CIRCUIT_BREAKER_OPEN_THRESHOLD <=? _consecutive_failures self)%Z
  then
    (self,
     data_or_fail
       "Circuit breaker open - service unavailable after 10 consecutive failures"
       self,
     [])
  else if lock_locked env then
    let self := set_is_waiting true self in
    match wait env with
    | wait_times_out =>
        let self := set_is_waiting false self in
        (self, data_or_fail "Timed out waiting for other speed test" self,
         [update_listeners])
    | acquired =>
        let self := set_is_waiting false self in
        let '(self, out, effects) :=
          _run_speed_test (client env) (current_time env) self in
        (self, out, update_listeners :: effects)
    | acquired_late k =>
        let self := set_is_waiting false self in
        let cut := fun attempt => if (attempt =? k)%nat
                                  then raises deadline_cancel
                                  else client env attempt in
        let '(self, out, effects) :=
          _run_speed_test cut (current_time env) self in
        if started k effects
        then (self, data_or_fail "Timed out waiting for other speed test" self,
              update_listeners :: effects)
        else (self, out, update_listeners :: effects)
    end
  else _run_speed_test (client env) (current_time env) self.

(** [DataUpdateCoordinator.async_refresh] of Home Assistant, as far as the
    coordinator relies on it: the value returned by [_async_update_data]
    becomes [self.data]; a failure is logged and the old data stays. *)
Definition async_refresh (env : environment) (self : coordinator)
  : coordinator * outcome * list effect :=
  let '(self, out, effects) := _async_update_data env self in
  match out with
  | Return r => (set_data (Some r) self, out, effects)
  | ReturnNone => (set_data None self, out, effects)
  | Raise _ => (self, out, effects)
  end.

(** [async_run_speedtest], the manual trigger: "Reset circuit breaker on
    manual test", then the refresh. *)
Definition after_trigger (self : coordinator) : coordinator :=
  if (Const.CIRCUIT_BREAKER_OPEN_THRESHOLD <=? _consecutive_failures self)%Z
  then set_consecutive_failures (Const.CIRCUIT_BREAKER_OPEN_THRESHOLD - 1)%Z
                                self
  else self.

Definition async_run_speedtest (env : environment) (self : coordinator)
  : coordinator * outcome * list effect :=
  async_refresh env (after_trigger self).

(** The measurement requests among the effects. *)
Definition network_io (effects : list effect) : list effect :=
  filter (fun e => match e with
                   | client_run_speed_test _ => true
                   | _ => false
                   end) effects.

Definition sleeps (effects : list effect) : list Z :=
  flat_map (fun e => match e with
                     | asyncio_sleep d => [d]
                     | _ => []
                     end) effects.

Definition attempts_and_sleeps (effects : list effect) : list effect :=
  filter (fun e => match e with
                   | client_run_speed_test _ | asyncio_sleep _ => true
                   | _ => false
                   end) effects.

(** The error is one that the loop retries. *)
Definition retryable (e : exn) : bool :=
  match except_clause e with
  | except_timeout | except_client_error => true
  | _ => false
  end.

(** *** [_async_load_lifetime_data] *)

(** What the store holds: each key is there or not. *)
Record stored_data : Type :=
  { stored_lifetime_download : option Q;
    stored_lifetime_upload : option Q;
    last_test_data : option parsed_result }.

(** [stored] is [None] when the store is empty or cannot be read (the
    exception is logged and dropped). *)
Definition _async_load_lifetime_data (stored : option stored_data)
    (self : coordinator) : coordinator :=
  match stored with
  | None => self
  | Some d =>
      let down := Directory.get (stored_lifetime_download d) 0 in
      let up := Directory.get (stored_lifetime_upload d) 0 in
      let self := set_lifetime down up self in
      match last_test_data d with
      | Some t => set_data (Some (with_lifetime down up t)) self
      | None => self
      end
  end.

(** *** The operations, and the states that they reach *)

Inductive operation : Type :=
| update      (* [_async_update_data] *)
| refresh     (* [async_refresh] *)
| manual.     (* [async_run_speedtest] *)

Definition perform (op : operation)
  : environment -> coordinator -> coordinator * outcome * list effect :=
  match op with
  | update => _async_update_data
  | refresh => async_refresh
  | manual => async_run_speedtest
  end.

Definition state_after (x : coordinator * outcome * list effect)
  : coordinator := fst (fst x).
Definition outcome_of (x : coordinator * outcome * list effect)
  : outcome := snd (fst x).
Definition effects_of (x : coordinator * outcome * list effect)
  : list effect := snd x.






Definition same_counters (self self' : coordinator) : Prop :=
  lifetime_download self' = lifetime_download self /\
  lifetime_upload self' = lifetime_upload self.

(** *** Words for the course of a run *)

(** The attempt ends in an error that the loop retries. *)
Definition retried (o : attempt_outcome) : bool :=
  match o with
  | raises e => retryable e
  | result _ => false
  end.

(** The first attempt among [todo] that is not retried. *)
Definition decisive (client : nat -> attempt_outcome) (todo : list nat)
  : option nat :=
  find (fun attempt => negb (retried (client attempt))) todo.

Definition all_retried (client : nat -> attempt_outcome) : bool :=
  match decisive client (seq 0 Const.MAX_RETRIES) with
  | None => true
  | Some _ => false
  end.

Definition succeeds (client : nat -> attempt_outcome) : bool :=
  match decisive client (seq 0 Const.MAX_RETRIES) with
  | Some attempt =>
      match client attempt with result _ => true | raises _ => false end
  | None => false
  end.

(** The call gets to [_run_speed_test]: the circuit is closed and the
    wait for the lock does not time out. *)
Definition runs (env : environment) (self : coordinator) : bool :=
  negb (Const.CIRCUIT_BREAKER_OPEN_THRESHOLD <=? _consecutive_failures self)%Z
  && negb (lock_locked env
           && match wait env with wait_times_out => true | _ => false end).

(** The client as the run sees it. *)
Definition seen (env : environment) : nat -> attempt_outcome :=
  if lock_locked env then
    match wait env with
    | acquired_late k =>
        fun attempt => if (attempt =? k)%nat then raises deadline_cancel
                       else client env attempt
    | _ => client env
    end
  else client env.


(** The two messages of [UpdateFailed] when no test is run. *)
Definition circuit_open_message : string :=
  "Circuit breaker open - service unavailable after 10 consecutive failures".
Definition lock_timeout_message : string :=
  "Timed out waiting for other speed test".

(** *** Sample inputs *)

Definition timeout_error : exn :=
  {| cls := AsyncioTimeoutError; message := "" |}.

Definition always_times_out : nat -> attempt_outcome :=
  fun _ => raises timeout_error.

Definition sample_result : speed_result :=
  {| r_download := 100; r_upload := 20; r_ping := 10; r_jitter := 1;
     r_bytes_sent := 40000000; r_bytes_received := 190000000 |}.

Definition quiet (client : nat -> attempt_outcome) : environment :=
  {| client := client; lock_locked := false; wait := acquired;
     current_time := 0 |}.

Definition busy (client : nat -> attempt_outcome) : environment :=
  {| client := client; lock_locked := true; wait := wait_times_out;
     current_time := 0 |}.

End Coordinator.

(* ================================================================== *)
(** ** repairs.py and __init__.py: who else writes the failure counter *)

Module Repairs.

Local Open Scope string_scope.

Import Coordinator.

(** The values kept in [hass.data[DOMAIN]]. *)
Inductive domain_value : Type :=
| test_lock
| runtime_data (coordinator : Coordinator.coordinator).

Definition is_key (key : string) (item : string * domain_value) : bool :=
  String.eqb (fst item) key.

(** [async_setup_entry]: the lock is created once; the coordinator is put
    in [entry.runtime_data], not in [hass.data]. *)
Definition async_setup_entry (domain : list (string * domain_value))
  : list (string * domain_value) :=
  if existsb (is_key "test_lock") domain then domain
  else (domain ++ [("test_lock", test_lock)])%list.

(** [RepeatedFailuresRepairFlow.async_step_confirm] with user input: the
    first coordinator at or above the warning threshold is reset, and the
    flow returns. *)
Fixpoint repeated_failures_confirm (domain : list (string * domain_value))
  : list (string * domain_value) :=
  match domain with
  | [] => []
  | (key, runtime_data c) :: rest =>
      if (Const.CIRCUIT_BREAKER_WARNING_THRESHOLD
          <=? _consecutive_failures c)%Z
      then (key, runtime_data (set_consecutive_failures 0 c)) :: rest
      else (key, runtime_data c) :: repeated_failures_confirm rest
  | item :: rest => item :: repeated_failures_confirm rest
  end.

(** [CircuitBreakerRepairFlow.async_step_confirm] with user input: every
    coordinator at or above the open threshold is reset. *)
Definition circuit_breaker_confirm (domain : list (string * domain_value))
  : list (string * domain_value) :=
  map (fun item =>
         match item with
         | (key, runtime_data c) =>
             if (Const.CIRCUIT_BREAKER_OPEN_THRESHOLD
                 <=? _consecutive_failures c)%Z
             then (key, runtime_data (set_consecutive_failures 0 c))
             else item
         | _ => item
         end) domain.

(** [hass.data[DOMAIN]] after the setup of so many config entries. *)
Fixpoint after_setups (entries : nat) : list (string * domain_value) :=
  match entries with
  | O => []
  | S k => async_setup_entry (after_setups k)
  end.

Definition only_locks (domain : list (string * domain_value)) : Prop :=
  Forall (fun item => snd item = test_lock) domain.

End Repairs.

(* ================================================================== *)
(** ** librespeed_client.py: the rest of the native client *)

Module Native.

Local Open Scope string_scope.

Import Directory.

(** const.py *)
Definition UPLOAD_CHUNK_SIZE : Z := 1024 * 1024.

(** [str(n)] for an integer. *)
Definition str_int (n : Z) : string := NilZero.string_of_int (Z.to_int n).

(** The URL that [_test_latency], [_test_download] and [_upload_chunk] build
    from the [server] key of a server and one of its endpoint suffixes. *)
Definition endpoint_url (server_url path : string) : string :=
  Py.rstrip_slash (ensure_protocol server_url) ++ "/" ++ path.

(** *** [_test_latency] *)

(** What the ping request does: a status with the time it took, in
    milliseconds, or one of the two exceptions that are caught. *)
Inductive ping_answer : Type :=
| pong (status : Z) (elapsed_ms : Q)
| ping_client_error
| ping_timeout.

Definition latency_of (a : ping_answer) : Latency.latency :=
  match a with
  | pong status elapsed_ms =>
      if (status =? Const.HTTP_OK)%Z then Latency.Finite elapsed_ms
      else Latency.Inf
  | ping_client_error | ping_timeout => Latency.Inf
  end.

Definition _test_latency (http_get : string -> ping_answer) (s : server)
  : Latency.latency :=
  latency_of (http_get (endpoint_url (server_url s) (pingURL s))).

(** *** [get_best_server] *)

Definition CONCURRENCY : nat := 6.

(** [servers[i:i + CONCURRENCY] for i in range(0, len(servers), CONCURRENCY)];
    [fuel] bounds the number of batches. *)
Fixpoint batches_from (fuel : nat) (servers : list server)
  : list (list server) :=
  match fuel with
  | O => []
  | S fuel' =>
      match servers with
      | [] => []
      | _ => firstn CONCURRENCY servers
             :: batches_from fuel' (skipn CONCURRENCY servers)
      end
  end.

Definition batches (servers : list server) : list (list server) :=
  batches_from (List.length servers) servers.

(** The update of [best_server] and [best_latency] for one result; [None]
    stands for [best_server = None], [best_latency = inf]. *)
Definition better (best : option (server * Q)) (s : server)
    (l : Latency.latency) : option (server * Q) :=
  match l with
  | Latency.Inf => best
  | Latency.Finite ms =>
      match best with
      | None => Some (s, ms)
      | Some (_, best_latency) =>
          if Qlt_le_dec ms best_latency then Some (s, ms) else best
      end
  end.

(** The results of a batch come back in the order of the batch
    ([asyncio.gather]). *)
Definition test_batch (http_get : string -> ping_answer)
    (best : option (server * Q)) (batch : list server)
  : option (server * Q) :=
  fold_left (fun best s => better best s (_test_latency http_get s)) batch best.

Definition best_of (http_get : string -> ping_answer) (servers : list server)
  : option (server * Q) :=
  fold_left (test_batch http_get) (batches servers) None.

(** [return best_server or self.servers[0]], and [DEFAULT_SERVERS[0]] when
    there is no server at all; [None] stands for the [IndexError] of an
    index into an empty list. *)
Definition get_best_server (http_get : string -> ping_answer)
    (servers : list server) : option server :=
  match servers with
  | [] => hd_error DEFAULT_SERVERS
  | _ =>
      match best_of http_get servers with
      | Some (s, _) => Some s
      | None => hd_error servers
      end
  end.

(** What is known of the best server after the servers [done]. *)
Definition first_fastest (http_get : string -> ping_answer)
    (done : list server) (best : option (server * Q)) : Prop :=
  match best with
  | None => forall t, In t done -> _test_latency http_get t = Latency.Inf
  | Some (s, ms) =>
      exists before after,
        done = (before ++ s :: after)%list /\
        _test_latency http_get s = Latency.Finite ms /\
        (forall t ms', In t before ->
           _test_latency http_get t = Latency.Finite ms' -> ms < ms') /\
        (forall t ms', In t after ->
           _test_latency http_get t = Latency.Finite ms' -> ms <= ms')
  end.

(** Two servers, the second one faster. *)
Definition two_servers : list server :=
  [ Adapter.custom_server "https://slow.example" "dl" "ul" "ping" "ip";
    Adapter.custom_server "https://fast.example" "dl" "ul" "ping" "ip" ].

Definition fast_answers (url : string) : ping_answer :=
  if String.eqb url "https://fast.example/ping" then pong 200 (12 # 1)
  else pong 200 (80 # 1).

(** *** [_download_chunk] and [_upload_chunk] *)

(** How the reading of a body ends. *)
Inductive ending : Type :=
| complete
| read_timeout
| read_client_error
| read_other_error.

(** What a chunk request does: it fails before an answer, or answers with a
    status; the body then comes in pieces ([iter_chunked]) until it ends. *)
Inductive chunk_answer : Type :=
| no_answer (e : ending)
| answered (status : Z) (pieces : list nat) (e : ending).

Definition _download_chunk (a : chunk_answer) : Z :=
  match a with
  | no_answer _ => 0%Z
  | answered status pieces e =>
      if negb (status =? Const.HTTP_OK)%Z then 0%Z
      else match e with
           | complete =>
               fold_left (fun total_bytes n => (total_bytes + Z.of_nat n)%Z)
                         pieces 0%Z
           | _ => 0%Z
           end
  end.

(** The upload does not read the body: only the status counts. *)
Definition _upload_chunk (data_length : Z) (a : chunk_answer) : Z :=
  match a with
  | no_answer _ => 0%Z
  | answered status _ _ =>
      if (status =? 200)%Z || (status =? 201)%Z || (status =? 204)%Z
      then data_length else 0%Z
  end.

Definition upload_accepted (a : chunk_answer) : bool :=
  match a with
  | answered status _ _ =>
      (status =? 200)%Z || (status =? 201)%Z || (status =? 204)%Z
  | no_answer _ => false
  end.

Definition download_counted (a : chunk_answer) : Z :=
  match a with
  | answered 200 pieces complete => Z.of_nat (list_sum pieces)
  | _ => 0%Z
  end.

(** *** [run_speed_test] *)

Import Exc.

(** The download phase as the workers live it: a request starts, a chunk
    request ends with an answer. *)
Inductive download_step : Type :=
| starts
| ends_with (a : chunk_answer).

Definition download_event (step : download_step) : Throughput.event :=
  match step with
  | starts => Throughput.request
  | ends_with a => Throughput.received (_download_chunk a)
  end.

(** The bytes that the steps of a download phase add up to. *)
Fixpoint counted_total (steps : list download_step) : Z :=
  match steps with
  | [] => 0%Z
  | starts :: rest => counted_total rest
  | ends_with a :: rest => (download_counted a + counted_total rest)%Z
  end.

(** Everything outside the client that a test depends on. *)
Record world : Type :=
  { directory : fetch;                       (* the answer to [get_servers] *)
    detect : string -> Adapter.answer;       (* the probes of a custom server *)
    latency_get : string -> ping_answer;     (* the pings of the selection *)
    pings : nat -> ping_answer;              (* the ten pings of the test *)
    interrupted : option exn;                (* an exception in the [try] *)
    download_steps : list download_step;
    download_clock : Q * Q;                  (* start and end of the phase *)
    upload_answers : list chunk_answer;
    upload_clock : Q * Q }.

(** [self.servers], fetched when it is empty. *)
Definition known_servers (w : world) (cached : list server) : list server :=
  match cached with
  | [] => get_servers (directory w)
  | _ => cached
  end.

Inductive choice : Type :=
| use (s : server)
| not_found (server_id : Z)
| index_error.

(** "Determine which server to use", when there is no custom URL. *)
Definition choose_listed (w : world) (cached : list server)
    (given : option server) (server_id : option Z) : choice :=
  match server_id with
  | Some wanted =>
      match find (fun s => (id s =? wanted)%Z) (known_servers w cached) with
      | Some s => use s
      | None => not_found wanted
      end
  | None =>
      match given with
      | Some s => use s
      | None =>
          match get_best_server (latency_get w) (known_servers w cached) with
          | Some s => use s
          | None => index_error
          end
      end
  end.

(** [if custom_server_url:] holds for a string that is not empty. *)
Definition choose_server (w : world) (cached : list server)
    (given : option server) (server_id : option Z)
    (custom_server_url : option string) : choice :=
  match custom_server_url with
  | Some (String c rest) =>
      use (fst (Adapter._create_custom_server (detect w) (String c rest)))
  | Some EmptyString | None => choose_listed w cached given server_id
  end.

(** The [except] clauses around the test, in their order. *)
Definition convert (timeout : Z) (e : exn) : exn :=
  if isinstance e SpeedTestError || isinstance e ServerNotFoundError then e
  else if isinstance e AsyncioTimeoutError then
    {| cls := NetworkError;
       message := "Speed test timed out after " ++ str_int timeout
                  ++ " seconds" |}
  else if isinstance e CancelledError then e
  else if isinstance e AiohttpClientError then
    {| cls := NetworkError;
       message := "Speed test network error: " ++ message e |}
  else if isinstance e ValueError || isinstance e TypeError
          || isinstance e KeyError || isinstance e AttributeError then
    {| cls := SpeedTestError;
       message := "Speed test data error: " ++ message e |}
  else e.

(** The three phases, when nothing interrupts them; [None] stands for a
    [ZeroDivisionError]. *)
Definition measure (w : world) (tester : Throughput.client)
  : option Coordinator.speed_result :=
  let latency := Latency.ping_and_jitter (fun i => latency_of (pings w i)) in
  match snd (Throughput._test_download tester
               (map download_event (download_steps w))
               (fst (download_clock w)) (snd (download_clock w))) with
  | None => None
  | Some (download_speed, bytes_received) =>
      match Throughput._test_upload
              (map (_upload_chunk UPLOAD_CHUNK_SIZE) (upload_answers w))
              (fst (upload_clock w)) (snd (upload_clock w)) with
      | None => None
      | Some (upload_speed, bytes_sent) =>
          Some {| Coordinator.r_download := Py.round download_speed 2;
                  Coordinator.r_upload := Py.round upload_speed 2;
                  Coordinator.r_ping := Latency.ping latency;
                  Coordinator.r_jitter := Latency.jitter latency;
                  Coordinator.r_bytes_sent := bytes_sent;
                  Coordinator.r_bytes_received := bytes_received |}
      end
  end.

(** How a call of the client ends, for the coordinator. *)
Inductive ended : Type :=
| outcome (o : Coordinator.attempt_outcome)
| zero_division
| list_index_error.

Definition run_speed_test (w : world) (tester : Throughput.client)
    (cached : list server) (given : option server) (server_id : option Z)
    (custom_server_url : option string) (timeout : Z) : ended :=
  match choose_server w cached given server_id custom_server_url with
  | not_found wanted =>
      outcome (Coordinator.raises
                 {| cls := ServerNotFoundError;
                    message := "Server ID " ++ str_int wanted
                               ++ " not found" |})
  | index_error => list_index_error
  | use _ =>
      match interrupted w with
      | Some e => outcome (Coordinator.raises (convert timeout e))
      | None =>
          match measure w tester with
          | Some r => outcome (Coordinator.result r)
          | None => zero_division
          end
      end
  end.

End Native.

(* ================================================================== *)
(** ** librespeed_cli.py: [run_speed_test] of the CLI backend *)

Module CLI.

Local Open Scope string_scope.

Import Exc.

(** const.py *)
Definition MIN_SERVER_ID : Z := 0.
Definition MAX_SERVER_ID : Z := 10000.
Definition PROCESS_SUCCESS : Z := 0.

(** The text under the key "timestamp", as [datetime.fromisoformat] takes
    it. *)
Inductive timestamp : Type :=
| iso_format
| not_iso_format (text : string).

(** An object of the JSON array that the binary prints: each key is there
    or not. *)
Record json_result : Type :=
  { j_download : option Q;
    j_upload : option Q;
    j_ping : option Q;
    j_jitter : option Q;
    j_timestamp : option timestamp;
    j_bytes_sent : option Z;
    j_bytes_received : option Z }.

Inductive stdout : Type :=
| malformed (error : string)            (* [json.JSONDecodeError] *)
| results (rs : list json_result).

(** What the subprocess does under the timeout. *)
Inductive process : Type :=
| timed_out
| os_error (error : string)
| exited (returncode : Z) (stderr : string) (out : stdout).

(** The machine: the path of the binary and whether it exists, the answers
    of [_validate_url] and [_create_custom_server_json_string] (neither is
    embedded here), and the subprocess for a command line and its input. *)
Record host : Type :=
  { cli_path : string;
    cli_exists : bool;
    url_is_valid : string -> bool;
    custom_server_json : string -> option string;
    subprocess : list string -> option string -> process }.

(** The command line, or the exception of the validation. *)
Inductive prepared : Type :=
| ready (cmd : list string) (stdin_data : option string)
| invalid (e : exn).

Definition skip_flag (skip_cert_verify : bool) : list string :=
  if skip_cert_verify then ["--skip-cert-verify"] else [].

Definition prepare (h : host) (server_id : option Z)
    (custom_server : option string) (skip_cert_verify : bool) : prepared :=
  let cmd := [cli_path h; "--json"] in
  match server_id with
  | Some n =>
      if (n <? MIN_SERVER_ID)%Z || (MAX_SERVER_ID <? n)%Z then
        invalid {| cls := ValueError;
                   message := "Invalid server_id: " ++ Native.str_int n
                              ++ " (must be 0-10000)" |}
      else ready (cmd ++ ["--server"; Native.str_int n]
                      ++ skip_flag skip_cert_verify)%list None
  | None =>
      match custom_server with
      | Some (String c rest) =>
          let url := String c rest in
          if negb (url_is_valid h url) then
            invalid {| cls := ValueError;
                       message := "Invalid custom server URL: " ++ url |}
          else
            match custom_server_json h url with
            | Some (String c' rest') =>
                ready (cmd ++ ["--local-json"; "-"; "--server"; "1"]
                           ++ skip_flag skip_cert_verify)%list
                      (Some (String c' rest'))
            | Some EmptyString | None =>
                invalid {| cls := CLIError;
                           message :=
                             "Failed to create custom server configuration" |}
            end
      | Some EmptyString | None =>
          ready (cmd ++ skip_flag skip_cert_verify)%list None
      end
  end.

(** "Convert to our format". *)
Definition convert_result (r : json_result) : Coordinator.speed_result :=
  {| Coordinator.r_download := Directory.get (j_download r) 0;
     Coordinator.r_upload := Directory.get (j_upload r) 0;
     Coordinator.r_ping := Directory.get (j_ping r) 0;
     Coordinator.r_jitter := Directory.get (j_jitter r) 0;
     Coordinator.r_bytes_sent := Directory.get (j_bytes_sent r) 0%Z;
     Coordinator.r_bytes_received := Directory.get (j_bytes_received r) 0%Z |}.

Definition run_speed_test (h : host) (server_id : option Z)
    (custom_server : option string) (skip_cert_verify : bool) (timeout : Z)
  : Coordinator.attempt_outcome :=
  if negb (cli_exists h) then
    Coordinator.raises
      {| cls := CLINotFoundError;
         message := "LibreSpeed CLI not available at " ++ cli_path h |}
  else
    match prepare h server_id custom_server skip_cert_verify with
    | invalid e => Coordinator.raises e
    | ready cmd stdin_data =>
        match subprocess h cmd stdin_data with
        | timed_out =>
            Coordinator.raises
              {| cls := SpeedTestTimeoutError;
                 message := "Speed test timed out after 120 seconds" |}
        | os_error error =>
            Coordinator.raises
              {| cls := CLIExecutionError;
                 message := "Failed to run CLI: " ++ error |}
        | exited returncode stderr out =>
            if negb (returncode =? PROCESS_SUCCESS)%Z then
              Coordinator.raises
                {| cls := CLIExecutionError;
                   message := "CLI failed with code "
                              ++ Native.str_int returncode ++ ": "
                              ++ match stderr with
                                 | EmptyString => "Unknown error"
                                 | _ => stderr
                                 end |}
            else
              match out with
              | malformed error =>
                  Coordinator.raises
                    {| cls := CLIOutputError;
                       message := "Invalid CLI output: " ++ error |}
              | results [] =>
                  Coordinator.raises
                    {| cls := CLIOutputError;
                       message := "No results from CLI" |}
              | results (r :: _) =>
                  match j_timestamp r with
                  | Some (not_iso_format text) =>
                      Coordinator.raises
                        {| cls := ValueError;
                           message := "Invalid isoformat string: '"
                                      ++ text ++ "'" |}
                  | Some iso_format | None =>
                      Coordinator.result (convert_result r)
                  end
              end
        end
    end.

End CLI.

(* ================================================================== *)
(** ** The two backends as the coordinator's client *)

Module Backends.

Import Coordinator.

(** The coordinator's call of the native client and of the CLI backend:
    [server_id] and the custom server go to both, in this order of
    arguments. *)
Definition native_call (w : Native.world) (tester : Throughput.client)
    (cached : list Directory.server) (server_id : option Z)
    (custom_server : option string) (test_timeout : Z) : Native.ended :=
  Native.run_speed_test w tester cached None server_id custom_server
                        test_timeout.

Definition cli_call (h : CLI.host) (server_id : option Z)
    (custom_server : option string) (skip_cert_verify : bool)
    (test_timeout : Z) : attempt_outcome :=
  CLI.run_speed_test h server_id custom_server skip_cert_verify test_timeout.

(** The outcome of an attempt comes from one of the two backends. *)
Definition from_native (o : attempt_outcome) : Prop :=
  exists w tester cached server_id custom_server test_timeout,
    native_call w tester cached server_id custom_server test_timeout
    = Native.outcome o.

Definition from_cli (o : attempt_outcome) : Prop :=
  exists h server_id custom_server skip_cert_verify test_timeout,
    cli_call h server_id custom_server skip_cert_verify test_timeout = o.

(** A world in which the directory cannot be fetched and the test itself
    hits its timeout. *)
Definition offline : Native.world :=
  {| Native.directory := Directory.Raises Directory.TimeoutError;
     Native.detect := fun _ => Adapter.RaisesTimeoutError;
     Native.latency_get := fun _ => Native.ping_timeout;
     Native.pings := fun _ => Native.ping_timeout;
     Native.interrupted := Some timeout_error;
     Native.download_steps := [];
     Native.download_clock := (0, 15);
     Native.upload_answers := [];
     Native.upload_clock := (15, 30) |}.

Definition no_tester : Throughput.client :=
  {| Throughput._detected_backend_type := None |}.

(** A machine with the binary, on which every run times out. *)
Definition slow_host : CLI.host :=
  {| CLI.cli_path := "/config/custom_components/librespeed/bin/librespeed-cli";
     CLI.cli_exists := true;
     CLI.url_is_valid := fun _ => true;
     CLI.custom_server_json := fun _ => Some "[]"%string;
     CLI.subprocess := fun _ _ => CLI.timed_out |}.

End Backends.

(* ================================================================== *)
(** ** coordinator.py and __init__.py: saving, unloading, restarting *)

Module Lifecycle.

Import Coordinator.

(** The record that [_async_save_lifetime_data] writes. *)
Definition save_data (self : coordinator) : stored_data :=
  {| stored_lifetime_download := Some (lifetime_download self);
     stored_lifetime_upload := Some (lifetime_upload self);
     last_test_data := data self |}.


(** The record saved in [_run_speed_test] after the result [r]: the counters
    are the new ones; [self.data] is assigned by the refresh only after
    [_run_speed_test] has returned. *)
Definition saved_by_run (r : speed_result) (self : coordinator)
  : stored_data :=
  save_data (fst (fst (on_result r self))).


(** [async_setup_entry]: a new coordinator, loaded from the store. *)
Definition async_setup_entry (custom : option string)
    (store : option stored_data) : coordinator :=
  _async_load_lifetime_data store (init custom).

(** A series of automatic updates, oldest first, with all their effects. *)
Fixpoint refreshes (envs : list environment) (self : coordinator)
  : coordinator * list effect :=
  match envs with
  | [] => (self, [])
  | env :: later =>
      let '(self', _, effects) := async_refresh env self in
      let '(final, more) := refreshes later self' in
      (final, (effects ++ more)%list)
  end.

(** An update in which every attempt ends in a retried error, and which does
    not time out waiting for the lock. *)
Definition fails (env : environment) : Prop :=
  all_retried (seen env) = true /\
  (lock_locked env = true -> wait env <> wait_times_out).

(** The bytes of a result, in GB, as the counters take them. *)
Definition gigabytes (bytes : Z) : Q := inject_Z bytes / 1000000000.

(** A series of accepted results, oldest first. *)
Definition accept_all (rs : list speed_result) (self : coordinator)
  : coordinator :=
  fold_left (fun self r => fst (fst (on_result r self))) rs self.

Definition received_total (rs : list speed_result) (start : Q) : Q :=
  fold_left (fun total r => total + gigabytes (r_bytes_received r)) rs start.

Definition sent_total (rs : list speed_result) (start : Q) : Q :=
  fold_left (fun total r => total + gigabytes (r_bytes_sent r)) rs start.

(** The fields of a coordinator that the update path only reads. *)
Definition same_settings (self self' : coordinator) : Prop :=
  custom_server self' = custom_server self /\
  data self' = data self /\
  is_waiting self' = is_waiting self.

End Lifecycle.

(* ================================================================== *)
(** ** button.py, binary_sensor.py, device_action.py *)

Module Entities.

Local Open Scope string_scope.

Import Coordinator.


(** [LibreSpeedButton.async_press]: the press is ignored while the
    coordinator runs a test; otherwise the coordinator is refreshed, with
    [async_refresh], which logs a failure of the update and raises
    nothing. *)
Definition async_press (env : environment) (self : coordinator)
  : coordinator * list effect :=
  if is_running self then (self, [])
  else let '(self', _, effects) := async_refresh env self in (self', effects).


(** *** [async_call_action_from_config] *)

Definition ACTION_TYPES : list string := ["run_speed_test"].

Inductive action_result : Type :=
| ran (x : coordinator * outcome * list effect)
| InvalidDeviceAutomationConfig (msg : string).

(** The loop over [hass.data[DOMAIN]]: the first coordinator whose device
    is the one of the action; [of_device] is the test on the device
    registry. *)
Fixpoint find_coordinator (of_device : coordinator -> bool)
    (domain : list (string * Repairs.domain_value)) : option coordinator :=
  match domain with
  | [] => None
  | (_, Repairs.runtime_data c) :: rest =>
      if of_device c then Some c else find_coordinator of_device rest
  | (_, Repairs.test_lock) :: rest => find_coordinator of_device rest
  end.

Definition async_call_action_from_config (action_type device_id : string)
    (of_device : coordinator -> bool)
    (domain : list (string * Repairs.domain_value)) (env : environment)
  : action_result :=
  if negb (existsb (String.eqb action_type) ACTION_TYPES) then
    InvalidDeviceAutomationConfig ("Unsupported action type " ++ action_type)
  else
    match find_coordinator of_device domain with
    | Some c => ran (async_run_speedtest env c)
    | None =>
        InvalidDeviceAutomationConfig
          ("Could not find LibreSpeed instance for device " ++ device_id)
    end.

End Entities.

(* ================================================================== *)
(** ** config_flow.py, and [get_config_value] of __init__.py *)

Module ConfigFlow.

Local Open Scope string_scope.

(** const.py *)
Definition DOMAIN : string := "librespeed".
Definition DEFAULT_UPDATE_INTERVAL : Z := 60.

(** A configuration dict (the data or the options of an entry, or the input
    of a form): each key is there or not; the values under "server_id" and
    "custom_server" may be [None]. *)
Record config : Type :=
  { CONF_SERVER_ID : option (option Z);
    CONF_CUSTOM_SERVER : option (option string);
    CONF_SKIP_CERT_VERIFY : option bool;
    CONF_AUTO_UPDATE : option bool;
    CONF_SCAN_INTERVAL : option Z;
    CONF_BACKEND_TYPE : option string }.

Definition empty : config :=
  {| CONF_SERVER_ID := None; CONF_CUSTOM_SERVER := None;
     CONF_SKIP_CERT_VERIFY := None; CONF_AUTO_UPDATE := None;
     CONF_SCAN_INTERVAL := None; CONF_BACKEND_TYPE := None |}.

Record ConfigEntry : Type :=
  { data : config;
    options : config }.

(** [get_config_value(entry, key, default)]: [field] reads the key. *)
Definition get_config_value {T : Type} (field : config -> option T)
    (entry : ConfigEntry) (default : T) : T :=
  match field (options entry) with
  | Some value => value
  | None => Directory.get (field (data entry)) default
  end.

(** [_parse_server_selection]; [int] is Python's [int(text)], [None] when
    it raises [ValueError]. *)
Definition _parse_server_selection (int : string -> option Z)
    (server_selection : string) : option Z * option string :=
  if String.eqb server_selection "automatic" then (None, None)
  else if String.eqb server_selection "custom" then (None, None)
  else
    match int server_selection with
    | Some server_id =>
        if (server_id <? CLI.MIN_SERVER_ID)%Z
           || (CLI.MAX_SERVER_ID <? server_id)%Z
        then (None, None)
        else (Some server_id, None)
    | None => (None, None)
    end.

Definition _create_custom_server_data (custom_url : string)
    (skip_cert_verify : bool) (base_input : config) : config :=
  {| CONF_SERVER_ID := Some None;
     CONF_CUSTOM_SERVER := Some (Some custom_url);
     CONF_SKIP_CERT_VERIFY := Some skip_cert_verify;
     CONF_AUTO_UPDATE := Some (Directory.get (CONF_AUTO_UPDATE base_input) true);
     CONF_SCAN_INTERVAL :=
       Some (Directory.get (CONF_SCAN_INTERVAL base_input)
                           DEFAULT_UPDATE_INTERVAL);
     CONF_BACKEND_TYPE :=
       Some (Directory.get (CONF_BACKEND_TYPE base_input) "native") |}.

(** How a step of a flow ends. *)
Inductive FlowResult : Type :=
| async_create_entry (title : string) (data : config)
| async_show_form (step_id : string) (errors : list (string * string))
| abort (reason : string).

(** The input of the first form: the selection (popped from the dict) and
    the rest of the dict. *)
Definition selection_input : Type := (option string * config)%type.

(** The input of the form for the custom server: the text under
    "custom_server" after [strip()], and the key "skip_cert_verify". *)
Definition custom_input : Type := (string * option bool)%type.

(** The data that both [async_step_user] and [async_step_init] build from
    the selection. *)
Definition selected_data (server_id : option Z) (custom_server : option string)
    (user_input : config) (skip_cert_verify : option bool) : config :=
  {| CONF_SERVER_ID := Some server_id;
     CONF_CUSTOM_SERVER := Some custom_server;
     CONF_SKIP_CERT_VERIFY := skip_cert_verify;
     CONF_AUTO_UPDATE := Some (Directory.get (CONF_AUTO_UPDATE user_input) true);
     CONF_SCAN_INTERVAL :=
       Some (Directory.get (CONF_SCAN_INTERVAL user_input)
                           DEFAULT_UPDATE_INTERVAL);
     CONF_BACKEND_TYPE :=
       Some (Directory.get (CONF_BACKEND_TYPE user_input) "native") |}.

(** [async_set_unique_id] and [_abort_if_unique_id_configured], then
    [async_create_entry]; [configured] holds the unique ids of the entries
    that exist. *)
Definition create_unique (configured : list string) (unique_id title : string)
    (data : config) : FlowResult :=
  if existsb (String.eqb unique_id) configured
  then abort "already_configured"
  else async_create_entry title data.

(** The name of the server with this id in [self._servers]. *)
Definition server_name (servers : list Directory.server) (server_id : Z)
  : string :=
  match find (fun s => (Directory.id s =? server_id)%Z) servers with
  | Some s => Directory.name s
  | None => "Server " ++ Native.str_int server_id
  end.

(** [ConfigFlow.async_step_user]. *)
Definition async_step_user (int : string -> option Z)
    (servers : list Directory.server) (configured : list string)
    (user_input : option selection_input) : FlowResult :=
  match user_input with
  | None => async_show_form "user" []
  | Some (selection, user_input) =>
      let server_selection := Directory.get selection "automatic" in
      if String.eqb server_selection "custom"
      then async_show_form "custom_server" []
      else
        let '(server_id, custom_server) :=
          _parse_server_selection int server_selection in
        let data := selected_data server_id custom_server user_input None in
        match custom_server, server_id with
        | Some (String c rest), _ =>
            create_unique configured (DOMAIN ++ "_" ++ String c rest)
                          "LibreSpeed - Custom" data
        | _, Some n =>
            create_unique configured
                          (DOMAIN ++ "_server_" ++ Native.str_int n)
                          ("LibreSpeed - " ++ server_name servers n) data
        | _, None =>
            create_unique configured (DOMAIN ++ "_automatic")
                          "LibreSpeed (Automatic)" data
        end
  end.

(** [ConfigFlow.async_step_custom_server]; [netloc] is
    [urlparse(custom_url).netloc], [None] when [urlparse] raises, and
    [_user_input] what the step before has stored. *)
Definition async_step_custom_server (netloc : string -> option string)
    (configured : list string) (_user_input : config)
    (user_input : option custom_input) : FlowResult :=
  match user_input with
  | Some (String c rest, skip_cert_verify) =>
      let custom_url := String c rest in
      let data :=
        _create_custom_server_data
          custom_url (Directory.get skip_cert_verify false) _user_input in
      let domain_name :=
        match netloc custom_url with
        | Some (String c' rest') => String c' rest'
        | Some EmptyString | None => custom_url
        end in
      create_unique configured (DOMAIN ++ "_" ++ custom_url)
                    ("LibreSpeed - " ++ domain_name) data
  | Some (EmptyString, _) =>
      async_show_form "custom_server"
                      [("custom_server", "custom_server_required")]
  | None => async_show_form "custom_server" []
  end.

(** [OptionsFlow.async_step_init]. *)
Definition async_step_init (int : string -> option Z)
    (config_entry : ConfigEntry) (user_input : option selection_input)
  : FlowResult :=
  match user_input with
  | Some (selection, user_input) =>
      let server_selection := Directory.get selection "automatic" in
      if String.eqb server_selection "custom"
      then async_show_form "custom_server" []
      else
        let '(server_id, custom_server) :=
          _parse_server_selection int server_selection in
        let skip_cert_verify :=
          match CONF_SKIP_CERT_VERIFY (options config_entry) with
          | Some value => value
          | None =>
              Directory.get (CONF_SKIP_CERT_VERIFY (data config_entry)) false
          end in
        async_create_entry
          "" (selected_data server_id custom_server user_input
                            (Some skip_cert_verify))
  | None => async_show_form "init" []
  end.

(** [OptionsFlow.async_step_custom_server]. *)
Definition options_step_custom_server (_user_input : config)
    (user_input : option custom_input) : FlowResult :=
  match user_input with
  | Some (String c rest, skip_cert_verify) =>
      async_create_entry
        "" (_create_custom_server_data
              (String c rest) (Directory.get skip_cert_verify false)
              _user_input)
  | Some (EmptyString, _) =>
      async_show_form "custom_server"
                      [("custom_server", "custom_server_required")]
  | None => async_show_form "custom_server" []
  end.

(** Home Assistant: the entry that a config flow creates has the data of
    the flow and no options; the data of an options flow become the options
    of the entry. *)
Definition created (r : FlowResult) : option ConfigEntry :=
  match r with
  | async_create_entry _ d => Some {| data := d; options := empty |}
  | _ => None
  end.

Definition updated (config_entry : ConfigEntry) (r : FlowResult)
  : ConfigEntry :=
  match r with
  | async_create_entry _ d => {| data := data config_entry; options := d |}
  | _ => config_entry
  end.

(** The entries that the flows make: created by one of the two steps of the
    config flow, then changed by any number of options flows. *)
Inductive made (int : string -> option Z) : ConfigEntry -> Prop :=
| made_by_user servers configured user_input config_entry :
    created (async_step_user int servers configured user_input)
    = Some config_entry ->
    made int config_entry
| made_by_custom_server netloc configured stored user_input config_entry :
    created (async_step_custom_server netloc configured stored user_input)
    = Some config_entry ->
    made int config_entry
| changed_by_init config_entry user_input :
    made int config_entry ->
    made int (updated config_entry
                      (async_step_init int config_entry user_input))
| changed_by_custom_server config_entry stored user_input :
    made int config_entry ->
    made int (updated config_entry
                      (options_step_custom_server stored user_input)).

(** The server settings that the coordinator is created with. *)
Definition server_id_of (config_entry : ConfigEntry) : option Z :=
  get_config_value CONF_SERVER_ID config_entry None.

Definition custom_server_of (config_entry : ConfigEntry) : option string :=
  get_config_value CONF_CUSTOM_SERVER config_entry None.

(** A dict that names one server at most. *)
Definition one_server (d : config) : Prop :=
  exists server_id custom_server,
    CONF_SERVER_ID d = Some server_id /\
    CONF_CUSTOM_SERVER d = Some custom_server /\
    (server_id = None \/ custom_server = None) /\
    custom_server <> Some "" /\
    (forall n, server_id = Some n ->
               (CLI.MIN_SERVER_ID <= n <= CLI.MAX_SERVER_ID)%Z).

(** [int] on the texts of the examples. *)
Definition sample_int (text : string) : option Z :=
  if String.eqb text "7" then Some 7%Z
  else if String.eqb text "20000" then Some 20000%Z
  else None.

End ConfigFlow.

(* ================================================================== *)
(** ** sensor.py *)

Module Sensor.

Local Open Scope string_scope.

Import Coordinator.

(** The values of the dict [coordinator.data]. *)
Inductive value : Type :=
| float (x : Q)
| int (n : Z)
| str (text : string)
| datetime (isoformat : string).

(** [LibreSpeedSensorEntityDescription], as far as [native_value] reads
    it. *)
Record description : Type :=
  { key : string;
    attribute : option string }.

Definition SENSOR_TYPES : list description :=
  [ {| key := "download"; attribute := Some "download" |};
    {| key := "upload"; attribute := Some "upload" |};
    {| key := "ping"; attribute := Some "ping" |};
    {| key := "jitter"; attribute := Some "jitter" |};
    {| key := "data_downloaded"; attribute := Some "bytes_received" |};
    {| key := "data_uploaded"; attribute := Some "bytes_sent" |};
    {| key := "server_name"; attribute := Some "server_name" |};
    {| key := "last_test"; attribute := Some "timestamp" |};
    {| key := "lifetime_download"; attribute := Some "lifetime_download" |};
    {| key := "lifetime_upload"; attribute := Some "lifetime_upload" |} ].

(** [coordinator.data.get(attribute)]: the keys that [parsed_result] holds,
    and in [rest] the other keys of the dict (the server and the
    timestamp). *)
Definition data_get (p : parsed_result) (rest : string -> option value)
    (attribute : string) : option value :=
  if String.eqb attribute "download" then Some (float (download p))
  else if String.eqb attribute "upload" then Some (float (upload p))
  else if String.eqb attribute "ping" then Some (float (ping p))
  else if String.eqb attribute "jitter" then Some (float (jitter p))
  else if String.eqb attribute "bytes_sent" then Some (int (bytes_sent p))
  else if String.eqb attribute "bytes_received"
       then Some (int (bytes_received p))
  else if String.eqb attribute "lifetime_download"
       then Some (float (ATTR_LIFETIME_DOWNLOAD p))
  else if String.eqb attribute "lifetime_upload"
       then Some (float (ATTR_LIFETIME_UPLOAD p))
  else rest attribute.

(** What the property returns; [TypeError] when the division meets a value
    that is no number. *)
Inductive state : Type :=
| shows (v : option value)
| TypeError.

(** [LibreSpeedSensor.native_value]. *)
Definition native_value (d : description) (data : option parsed_result)
    (rest : string -> option value) : state :=
  match data with
  | None => shows None
  | Some p =>
      match attribute d with
      | Some (String c a) =>
          let value := data_get p rest (String c a) in
          if String.eqb (key d) "data_downloaded"
             || String.eqb (key d) "data_uploaded"
          then
            match value with
            | Some (int n) =>
                shows (Some (float (Py.round (inject_Z n / 1000000) 2)))
            | Some (float x) =>
                shows (Some (float (Py.round (x / 1000000) 2)))
            | Some (str _) | Some (datetime _) => TypeError
            | None => shows None
            end
          else shows value
      | Some EmptyString | None => shows None
      end
  end.

(** The description of the sensor with this key. *)
Definition sensor (k : string) : option description :=
  find (fun d => String.eqb (key d) k) SENSOR_TYPES.



End Sensor.

(* ================================================================== *)
(** * Properties *)

(** ** Ping and jitter *)

Section PingJitter.

Import Latency.

Lemma collect_from (probe : nat -> latency) (todo : list nat) (acc : list Q) :
  fold_left
    (fun ping_results i =>
       match probe i with
       | Finite l => ping_results ++ [l]
       | Inf => ping_results
       end) todo acc
  = acc ++ flat_map (fun i => match probe i with
                              | Finite l => [l]
                              | Inf => []
                              end) todo.
Proof.
  revert acc; induction todo as [|i todo IH]; intros acc; simpl.
  - now rewrite app_nil_r.
  - rewrite IH. destruct (probe i); [now rewrite <- app_assoc | reflexivity].
Qed.

Lemma collect_ping_results_finite (probe : nat -> latency) :
  collect_ping_results probe = finite_samples probe.
Proof. apply collect_from. Qed.

Lemma py_min_is_minimum (rest : list Q) (first : Q) :
  is_minimum (Py.min first rest) (first :: rest).
Proof.
  unfold Py.min.
  revert first; induction rest as [|x rest IH]; intros first; simpl.
  - split; [now left | intros y [<-|[]]; apply Qle_refl].
  - destruct (Qlt_le_dec x first) as [Hlt|Hle].
    + destruct (IH x) as [Hin Hmin]. split.
      * destruct Hin as [Heq|Hin]; [right; left; exact Heq | right; right; exact Hin].
      * intros y [<-|[<-|Hy]].
        -- apply Qle_trans with x; [apply Hmin; now left | now apply Qlt_le_weak].
        -- apply Hmin; now left.
        -- apply Hmin; now right.
    + destruct (IH first) as [Hin Hmin]. split.
      * destruct Hin as [Heq|Hin]; [left; exact Heq | right; right; exact Hin].
      * intros y [<-|[<-|Hy]].
        -- apply Hmin; now left.
        -- apply Qle_trans with first; [apply Hmin; now left | exact Hle].
        -- apply Hmin; now right.
Qed.

Lemma indexed_diffs (r : list Q) :
  map (fun i => Qabs (nth i r 0 - nth (i - 1) r 0)) (seq 1 (length r - 1))
  = consecutive_abs_diffs r.
Proof.
  induction r as [|a [|b tl] IH]; try reflexivity.
  replace (length (a :: b :: tl) - 1)%nat with (S (length (b :: tl) - 1))
    by (cbn [length]; lia).
  rewrite <- cons_seq. cbn [map].
  change (consecutive_abs_diffs (a :: b :: tl))
    with (Qabs (b - a) :: consecutive_abs_diffs (b :: tl)).
  rewrite <- seq_shift, map_map, <- IH. f_equal. apply map_ext_in. intros i Hi.
  apply in_seq in Hi.
  destruct i as [|i]; [lia|].
  replace (S (S i) - 1)%nat with (S i) by lia.
  replace (S i - 1)%nat with i by lia.
  reflexivity.
Qed.

Lemma length_consecutive_abs_diffs (r : list Q) :
  length (consecutive_abs_diffs r) = (length r - 1)%nat.
Proof.
  induction r as [|a [|b tl] IH]; try reflexivity.
  cbn [consecutive_abs_diffs length] in *. lia.
Qed.

Lemma jitter_of_mean (r : list Q) :
  jitter_of r = mean (consecutive_abs_diffs r).
Proof.
  unfold jitter_of, mean.
  now rewrite indexed_diffs, length_consecutive_abs_diffs.
Qed.

(** C1, as amended.  Both figures are rounded to two decimals: with at
    least one finite sample the reported ping is the smallest finite sample
    rounded to two decimals; with at least two, the reported jitter is the
    mean of the absolute differences of consecutive finite samples, rounded
    to two decimals; with one finite sample or none the jitter is 0, and
    with none the ping is 0. *)
Theorem ping_jitter_rounded (probe : nat -> latency) :
  let finite := finite_samples probe in
  let reported := ping_and_jitter probe in
  (finite <> [] ->
   exists m, is_minimum m finite /\ ping reported = Py.round m 2) /\
  ((1 < length finite)%nat ->
   jitter reported = Py.round (mean (consecutive_abs_diffs finite)) 2) /\
  ((length finite <= 1)%nat -> jitter reported = 0) /\
  (finite = [] -> ping reported = 0).
Proof.
  cbv zeta. unfold ping_and_jitter.
  rewrite collect_ping_results_finite.
  destruct (finite_samples probe) as [|first rest] eqn:E.
  - repeat split; try reflexivity; try (cbn; lia). now intros [].
  - repeat split.
    + intros _. exists (Py.min first rest). split; [apply py_min_is_minimum | reflexivity].
    + intros Hlen. cbn [jitter].
      apply Nat.ltb_lt in Hlen. rewrite Hlen.
      now rewrite jitter_of_mean.
    + intros Hlen. cbn [jitter].
      destruct (1 <? length (first :: rest))%nat eqn:H1; [|reflexivity].
      apply Nat.ltb_lt in H1. lia.
    + discriminate.
Qed.

Lemma ping_jitter_rounded_witness :
  (exists m, is_minimum m (finite_samples alternating)
             /\ ping (ping_and_jitter alternating) = Py.round m 2)
  /\ jitter (ping_and_jitter alternating)
     = Py.round (mean (consecutive_abs_diffs (finite_samples alternating))) 2.
Proof.
  destruct (ping_jitter_rounded alternating) as (Hping & Hjitter & _).
  split.
  - apply Hping. vm_compute. discriminate.
  - apply Hjitter. vm_compute. lia.
Defined.

(** C1 as stated fails: ten samples alternating between 10.001 ms and
    10.004 ms have minimum 10.001 and mean difference 0.003, and the
    reported figures are 10.0 and 0.0. *)
Lemma ping_jitter_not_exact :
  let finite := finite_samples alternating in
  let reported := ping_and_jitter alternating in
  is_minimum (10001 # 1000) finite /\
  mean (consecutive_abs_diffs finite) == 3 # 1000 /\
  ping reported == 10 /\
  jitter reported == 0 /\
  ~ ping reported == 10001 # 1000 /\
  ~ jitter reported == mean (consecutive_abs_diffs finite).
Proof.
  cbv zeta. repeat split.
  - vm_compute. now left.
  - intros x Hx. vm_compute in Hx.
    repeat (destruct Hx as [<-|Hx]; [vm_compute; discriminate|]). destruct Hx.
  - vm_compute. discriminate.
  - vm_compute. discriminate.
Qed.

End PingJitter.

(** ** Throughput *)

Section Speed.

Import Throughput.

Lemma chunk_received_total (n : Z) (s : download_state) :
  (0 <= total_bytes s)%Z -> (0 <= total_bytes (chunk_received n s))%Z.
Proof.
  intros H. unfold chunk_received.
  destruct (0 <? n)%Z eqn:E; [|exact H].
  apply Z.ltb_lt in E. cbn [total_bytes]. lia.
Qed.

Lemma do_download_total (events : list event) (s : download_state) :
  (0 <= total_bytes s)%Z -> (0 <= total_bytes (fst (do_download events s)))%Z.
Proof.
  revert s; induction events as [|[|n] events IH]; intros s H; cbn [do_download].
  - exact H.
  - specialize (IH s H). destruct (do_download events s). exact IH.
  - apply IH. now apply chunk_received_total.
Qed.



Lemma guarded_speed (total : Z) (start_time now : Q) :
  (0 <= total)%Z ->
  exists speed,
    (if (0 <? total)%Z && negb (Qle_bool (now - start_time) 0) then
       match Py.truediv (inject_Z (total * 8)) (now - start_time) with
       | Some bits_per_second => Py.truediv bits_per_second 1000000
       | None => None
       end
     else Some 0) = Some speed
    /\ 0 <= speed
    /\ (total = 0%Z -> speed = 0)
    /\ ((0 < total)%Z -> start_time < now ->
        speed = megabits_per_second total (now - start_time)).
Proof.
  intros Hnonneg.
  destruct (0 <? total)%Z eqn:Hpos; cbn [andb].
  - apply Z.ltb_lt in Hpos.
    destruct (Qle_bool (now - start_time) 0) eqn:Hel; cbn [negb].
    + exists 0. repeat split; try apply Qle_refl.
      intros _ Hclock. apply Qle_bool_iff in Hel. lra.
    + assert (Helapsed : 0 < now - start_time).
      { apply Qnot_le_lt. intros H. apply Qle_bool_iff in H. congruence. }
      unfold Py.truediv.
      destruct (Qeq_bool (now - start_time) 0) eqn:Hz.
      { apply Qeq_bool_iff in Hz. lra. }
      change (Qeq_bool 1000000 0) with false. cbv iota.
      exists (megabits_per_second total (now - start_time)).
      repeat split.
      * unfold megabits_per_second.
        apply Qle_shift_div_l; [reflexivity|]. rewrite Qmult_0_l.
        apply Qle_shift_div_l; [exact Helapsed|]. rewrite Qmult_0_l.
        change 0 with (inject_Z 0). rewrite <- Zle_Qle. lia.
      * intros ->. discriminate.
  - apply Z.ltb_ge in Hpos. exists 0.
    repeat split; try apply Qle_refl. intros H. lia.
Qed.



End Speed.

(** ** The pool of workers *)

Section Workers.

Import Throughput.

Lemma workers_from (m a k : nat) :
  workers (flat_map
             (fun i => create_task i ::
                       (if (i <? m)%nat then [sleep Const.STREAM_START_DELAY]
                        else []))
             (seq a k)) = k.
Proof.
  unfold workers. revert a; induction k as [|k IH]; intros a; [reflexivity|].
  cbn [seq flat_map].
  rewrite filter_app, length_app, (IH (S a)).
  destruct (a <? m)%nat; reflexivity.
Qed.

Lemma delays_from (m a k : nat) :
  delays (flat_map
            (fun i => create_task i ::
                      (if (i <? m)%nat then [sleep Const.STREAM_START_DELAY]
                       else []))
            (seq a k))
  = repeat Const.STREAM_START_DELAY (Nat.min (a + k) m - Nat.min a m).
Proof.
  unfold delays. revert a; induction k as [|k IH]; intros a.
  - cbn [seq flat_map]. now replace (Nat.min (a + 0) m - Nat.min a m)%nat with 0%nat by lia.
  - cbn [seq flat_map]. rewrite flat_map_app.
    change (flat_map _ (flat_map _ (seq (S a) k)))
      with (delays (flat_map
            (fun i => create_task i ::
                      (if (i <? m)%nat then [sleep Const.STREAM_START_DELAY]
                       else []))
            (seq (S a) k))) in *.
    unfold delays. rewrite IH.
    destruct (a <? m)%nat eqn:E.
    + apply Nat.ltb_lt in E. cbn [app flat_map].
      replace (Nat.min (a + S k) m - Nat.min a m)%nat
        with (S (Nat.min (S a + k) m - Nat.min (S a) m)) by lia.
      reflexivity.
    + apply Nat.ltb_ge in E. cbn [app flat_map].
      replace (Nat.min (a + S k) m - Nat.min a m)%nat
        with (Nat.min (S a + k) m - Nat.min (S a) m)%nat by lia.
      reflexivity.
Qed.

(** C6, as amended.  Either phase starts min(3, maximum) worker streams:
    three for the download (under a semaphore of 6) and three for the
    upload (under a semaphore of 3); 200 ms pass between two launches and
    none after the last; a download phase therefore runs with 3 concurrent
    workers. *)
Theorem worker_pool :
  (forall n, workers (start_streams n) = n
             /\ delays (start_streams n)
                = repeat Const.STREAM_START_DELAY (n - 1)) /\
  download_concurrent_requests = 3%nat /\
  upload_concurrent_requests = 3%nat /\
  start_streams download_concurrent_requests
  = [create_task 0; sleep (2 # 10); create_task 1; sleep (2 # 10);
     create_task 2] /\
  start_streams upload_concurrent_requests
  = start_streams download_concurrent_requests /\
  max_in_flight (start_streams download_concurrent_requests)
                download_semaphore = 3%nat /\
  max_in_flight (start_streams upload_concurrent_requests)
                upload_semaphore = 3%nat /\
  download_semaphore = 6%nat /\ upload_semaphore = 3%nat.
Proof.
  split; [|repeat split].
  intros n. unfold start_streams. split.
  - apply workers_from.
  - rewrite delays_from. f_equal. lia.
Qed.

(** C6 as stated fails: the download phase does not run with 6 workers. *)
Lemma download_workers_not_six :
  workers (start_streams download_concurrent_requests) = 3%nat /\
  workers (start_streams download_concurrent_requests) <> 6%nat /\
  max_in_flight (start_streams download_concurrent_requests)
                download_semaphore <> 6%nat.
Proof. repeat split; vm_compute; discriminate. Qed.

End Workers.

(** ** Detection of the backend during the download phase *)

Section Detection.

Import Throughput.

Lemma chunk_received_keeps (n : Z) (s : download_state) (b : backend) :
  detected s = Some b -> detected (chunk_received n s) = Some b.
Proof.
  unfold detected, chunk_received. intros H.
  destruct (0 <? n)%Z; [|exact H]. cbn. now rewrite H.
Qed.

Lemma chunk_param_detected (c c' : client) :
  _detected_backend_type c = _detected_backend_type c' ->
  chunk_param c = chunk_param c'.
Proof. unfold chunk_param. now intros ->. Qed.

Lemma do_download_keeps (events : list event) (s : download_state)
      (b : backend) :
  detected s = Some b ->
  detected (fst (do_download events s)) = Some b
  /\ Forall (eq (chunk_param (self s))) (snd (do_download events s)).
Proof.
  revert s; induction events as [|[|n] events IH]; intros s H;
    cbn [do_download].
  - split; [exact H | constructor].
  - destruct (IH s H) as [Hd Hp].
    destruct (do_download events s) as [s' params]. cbn [fst snd] in *.
    split; [exact Hd | now constructor].
  - destruct (IH (chunk_received n s) (chunk_received_keeps n s b H))
      as [Hd Hp].
    split; [exact Hd|].
    rewrite (chunk_param_detected (self s) (self (chunk_received n s)));
      [exact Hp|].
    pose proof (chunk_received_keeps n s b H) as H'.
    unfold detected in *. congruence.
Qed.

Lemma chunk_received_few (n : Z) (s : download_state) :
  undetected_few s -> undetected_few (chunk_received n s).
Proof.
  unfold undetected_few, detected, chunk_received. intros H.
  destruct (0 <? n)%Z; [|exact H]. cbn.
  destruct (_detected_backend_type (self s)); [discriminate|].
  destruct (Const.RUST_BACKEND_THRESHOLD <? n)%Z; [discriminate|].
  destruct (Const.PHP_BACKEND_THRESHOLD <? downloads_completed s + 1)%Z eqn:E;
    [discriminate|].
  intros _. apply Z.ltb_ge in E. exact E.
Qed.

Lemma do_download_few (events : list event) (s : download_state) :
  undetected_few s -> undetected_few (fst (do_download events s)).
Proof.
  revert s; induction events as [|[|n] events IH]; intros s H;
    cbn [do_download].
  - exact H.
  - specialize (IH s H). now destruct (do_download events s).
  - apply IH. now apply chunk_received_few.
Qed.

(** C7, as amended.  While the backend is unknown a request asks for 20
    chunks.  A completed chunk (one with bytes) that arrives while the
    backend is unknown sets it to rust when it has more than 5,000,000
    bytes, and otherwise to php when it is the third or a later completed
    chunk of the phase; after the first two completed chunks with at most
    5,000,000 bytes each the backend is still unknown.  Once set the
    backend never changes, and every later request asks for 20 (rust) or
    100 (php) chunks.  In a phase that starts with nothing detected the
    backend is known by the third completed chunk. *)
Theorem backend_detection :
  (forall c, _detected_backend_type c = None ->
             chunk_param c = Const.DOWNLOAD_CHUNK_PARAM) /\
  (forall n s, detected s = None -> (5000000 < n)%Z ->
     detected (chunk_received n s) = Some rust /\
     chunk_param (self (chunk_received n s)) = Const.DOWNLOAD_CHUNK_PARAM) /\
  (forall n s, detected s = None -> (0 < n <= 5000000)%Z ->
     ((2 <= downloads_completed s)%Z ->
      detected (chunk_received n s) = Some php /\
      chunk_param (self (chunk_received n s)) = Const.DEFAULT_CHUNKS) /\
     ((downloads_completed s < 2)%Z ->
      detected (chunk_received n s) = None)) /\
  (forall n s, (n <= 0)%Z -> chunk_received n s = s) /\
  (forall events s b, detected s = Some b ->
     detected (fst (do_download events s)) = Some b /\
     Forall (eq (match b with
                 | rust => Const.DOWNLOAD_CHUNK_PARAM
                 | php => Const.DEFAULT_CHUNKS
                 end))
            (snd (do_download events s))) /\
  (forall events,
     detected (fst (do_download events fresh)) = None ->
     (downloads_completed (fst (do_download events fresh)) <= 2)%Z).
Proof.
  split; [|split; [|split; [|split; [|split]]]].
  - intros c H. unfold chunk_param. now rewrite H.
  - intros n s H Hn. unfold detected, chunk_received, chunk_param in *.
    assert (E0 : (0 <? n)%Z = true) by (apply Z.ltb_lt; lia).
    assert (E1 : (Const.RUST_BACKEND_THRESHOLD <? n)%Z = true)
      by (apply Z.ltb_lt; unfold Const.RUST_BACKEND_THRESHOLD; lia).
    rewrite E0. cbn. rewrite H, E1. split; reflexivity.
  - intros n s H [Hpos Hsmall]. unfold detected, chunk_received, chunk_param in *.
    assert (E0 : (0 <? n)%Z = true) by (apply Z.ltb_lt; lia).
    assert (E1 : (Const.RUST_BACKEND_THRESHOLD <? n)%Z = false)
      by (apply Z.ltb_ge; unfold Const.RUST_BACKEND_THRESHOLD; lia).
    rewrite E0. cbn. rewrite H, E1. split; intros Hc.
    + assert (E2 : (Const.PHP_BACKEND_THRESHOLD <? downloads_completed s + 1)%Z
                   = true)
        by (apply Z.ltb_lt; unfold Const.PHP_BACKEND_THRESHOLD; lia).
      rewrite E2. split; reflexivity.
    + assert (E2 : (Const.PHP_BACKEND_THRESHOLD <? downloads_completed s + 1)%Z
                   = false)
        by (apply Z.ltb_ge; unfold Const.PHP_BACKEND_THRESHOLD; lia).
      now rewrite E2.
  - intros n s Hn. unfold chunk_received.
    assert (E0 : (0 <? n)%Z = false) by (apply Z.ltb_ge; lia).
    now rewrite E0.
  - intros events s b H.
    destruct (do_download_keeps events s b H) as [Hd Hp].
    split; [exact Hd|].
    replace (match b with
             | rust => Const.DOWNLOAD_CHUNK_PARAM
             | php => Const.DEFAULT_CHUNKS
             end) with (chunk_param (self s)); [exact Hp|].
    unfold detected in H. unfold chunk_param. rewrite H. now destruct b.
  - intros events. apply do_download_few.
    unfold undetected_few. cbn. lia.
Qed.

Lemma backend_detection_witness :
  let two := fst (do_download [request; received 1000; request; received 1000]
                              fresh) in
  let three := chunk_received 1000 two in
  detected three = Some php /\
  detected (fst (do_download [request; received 6000000; request] three))
  = Some php /\
  snd (do_download [request; received 6000000; request] three) = [100; 100]%Z /\
  detected (chunk_received 6000000 two) = Some rust.
Proof.
  cbv zeta.
  destruct backend_detection as (_ & Hrust & Hphp & _ & Hkeep & _).
  set (two := fst (do_download [request; received 1000; request; received 1000]
                               fresh)).
  assert (H3 : detected (chunk_received 1000 two) = Some php).
  { apply (Hphp 1000%Z two); [reflexivity | lia | vm_compute; discriminate]. }
  split; [exact H3|].
  destruct (Hkeep [request; received 6000000; request]
                  (chunk_received 1000 two) php H3) as [Hd Hp].
  split; [exact Hd|]. split; [reflexivity|].
  apply (Hrust 6000000%Z two); [reflexivity | lia].
Defined.

(** C7 as stated fails: after two completed chunks of 1000 bytes the
    backend is still unknown, the next request still asks for 20 chunks,
    and a third chunk of 6,000,000 bytes sets it to rust, not php. *)
Lemma two_chunks_leave_backend_unknown :
  let two := fst (do_download [request; received 1000; request; received 1000]
                              fresh) in
  downloads_completed two = 2%Z /\
  detected two = None /\
  detected two <> Some php /\
  snd (do_download [request] two) = [20%Z] /\
  detected (fst (do_download [request; received 6000000] two)) = Some rust.
Proof. cbv zeta. repeat split; vm_compute; discriminate. Qed.

End Detection.

(** ** The server directory *)

Section ServerDirectory.

Import Directory.
Local Open Scope string_scope.









Lemma entry_suffixes (idx : nat) (o : json_object) :
  suffixes_from o (entry idx o).
Proof. repeat split. Qed.



End ServerDirectory.

(** ** Custom servers *)

Section CustomServer.

Import Throughput Adapter.
Local Open Scope string_scope.



End CustomServer.

(** ** The coordinator *)

Section CoordinatorRuns.

Import Exc Coordinator.
Local Open Scope string_scope.

(** *** The retry loop *)

Lemma attempts_course (client : nat -> attempt_outcome) (todo : list nat)
      (self : coordinator) (last_error : option exn) :
  let x := attempts client todo self last_error in
  match decisive client todo with
  | None => fst (fst x) = self /\ exists last, snd (fst x) = exhausted last
  | Some attempt =>
      In (client_run_speed_test attempt) (snd x) /\
      match client attempt with
      | result r =>
          fst (fst x) = fst (fst (on_result r self)) /\
          snd (fst x) = returned (snd (fst (on_result r self))) /\
          In (store_save (lifetime_download (fst (fst x)))
                         (lifetime_upload (fst (fst x)))) (snd x)
      | raises e =>
          fst (fst x) = self /\
          exists f, snd (fst x) = raised f /\
                    (f = propagated e \/ exists msg, f = UpdateFailed msg (Some e))
      end
  end.
Proof.
  cbv zeta. revert last_error.
  induction todo as [|attempt rest IH]; intros last_error.
  - cbn. eauto.
  - cbn [attempts decisive find]. unfold retried at 1.
    destruct (client attempt) as [r|e] eqn:E.
    + cbn [negb]. rewrite E.
      destruct (on_result r self) as [[self' parsed] effects] eqn:R.
      cbn [fst snd]. split; [now left|]. split; [reflexivity|].
      split; [reflexivity|]. right.
      unfold on_result in R. injection R as <- _ <-. now left.
    + unfold retryable.
      destruct (except_clause e) eqn:C; cbn [negb find].
      1,2: specialize (IH (Some e)); fold (decisive client rest);
        destruct (attempts client rest self (Some e)) as [[self' exit] effects];
        cbn [fst snd] in *;
        assert (Hsub : forall ev, In ev effects ->
                  In ev (client_run_speed_test attempt
                         :: (if (attempt <? Const.MAX_RETRIES - 1)%nat
                             then asyncio_sleep (backoff attempt) :: effects
                             else effects)))
          by (intros ev Hev; right;
              destruct (attempt <? Const.MAX_RETRIES - 1)%nat;
              [right; exact Hev | exact Hev]);
        destruct (decisive client rest) as [a|];
        [ destruct IH as [Hin IH]; split; [apply Hsub, Hin|];
          destruct (client a);
          [ destruct IH as (H1 & H2 & H3); repeat split;
            [exact H1 | exact H2 | apply Hsub, H3]
          | exact IH ]
        | exact IH ].
      all: rewrite E; cbn [fst snd]; split; [now left|]; split; [reflexivity|];
        eexists; split; [reflexivity|]; eauto.
Qed.

Lemma on_result_failures (r : speed_result) (self : coordinator) :
  _consecutive_failures (fst (fst (on_result r self))) = 0%Z.
Proof. reflexivity. Qed.

Lemma after_retries_state (now : Q) (last_error : option exn)
      (self : coordinator) :
  let x := after_retries now last_error self in
  _consecutive_failures (fst (fst x)) = (_consecutive_failures self + 1)%Z /\
  same_counters self (fst (fst x)) /\
  forall p, snd (fst x) <> Return p.
Proof.
  cbv zeta. unfold after_retries, same_counters.
  destruct (truthy _ && _); [destruct (negb _)|];
    (repeat split; cbn; try reflexivity;
     intros p; destruct last_error as [e|]; [|discriminate];
     destruct (isinstance e AsyncioTimeoutError); [discriminate|];
     destruct (isinstance e AiohttpClientError); discriminate).
Qed.

(** How [_run_speed_test] leaves the coordinator, by the course of the
    attempts. *)
Lemma run_course (client : nat -> attempt_outcome) (now : Q)
      (self : coordinator) :
  let x := _run_speed_test client now self in
  match decisive client (seq 0 Const.MAX_RETRIES) with
  | None =>
      _consecutive_failures (state_after x)
      = (_consecutive_failures self + 1)%Z /\
      same_counters self (state_after x) /\
      forall p, outcome_of x <> Return p
  | Some attempt =>
      In (client_run_speed_test attempt) (effects_of x) /\
      match client attempt with
      | result r =>
          _consecutive_failures (state_after x) = 0%Z /\
          lifetime_download (state_after x)
          = min2 (lifetime_download self
                  + inject_Z (r_bytes_received r) / 1000000000)
                 Const.MAX_LIFETIME_GB /\
          lifetime_upload (state_after x)
          = min2 (lifetime_upload self
                  + inject_Z (r_bytes_sent r) / 1000000000)
                 Const.MAX_LIFETIME_GB /\
          outcome_of x = Return (snd (fst (on_result r self))) /\
          In (store_save (lifetime_download (state_after x))
                         (lifetime_upload (state_after x))) (effects_of x)
      | raises e =>
          _consecutive_failures (state_after x) = _consecutive_failures self /\
          same_counters self (state_after x) /\
          exists f, outcome_of x = Raise f /\
                    (f = propagated e \/ exists msg, f = UpdateFailed msg (Some e))
      end
  end.
Proof.
  cbv zeta. unfold _run_speed_test, state_after, outcome_of, effects_of.
  pose proof (attempts_course client (seq 0 Const.MAX_RETRIES)
                (set_is_running true self) None) as H.
  cbv zeta in H.
  destruct (attempts client (seq 0 Const.MAX_RETRIES)
                     (set_is_running true self) None)
    as [[self' exit] effects].
  cbn [fst snd] in H.
  destruct (decisive client (seq 0 Const.MAX_RETRIES)) as [attempt|].
  - destruct H as [Hin H].
    destruct (client attempt) as [r|e].
    + destruct H as (-> & -> & Hsave). cbn [fst snd].
      split; [right; apply in_or_app; now left|].
      repeat split. right. apply in_or_app. left. exact Hsave.
    + destruct H as (-> & f & -> & Hf). cbn [fst snd].
      split; [right; apply in_or_app; now left|].
      repeat split. exists f. split; [reflexivity | exact Hf].
  - destruct H as (-> & last & ->).
    pose proof (after_retries_state now last (set_is_running true self)) as A.
    cbv zeta in A.
    destruct (after_retries now last (set_is_running true self))
      as [[self'' out] more].
    cbn [fst snd] in *. destruct A as (A1 & [A2 A3] & A4).
    repeat split; cbn; assumption.
Qed.

(** An attempt that was started and is not retried is the decisive one. *)
Lemma attempts_started (client : nat -> attempt_outcome) (todo : list nat)
      (self : coordinator) (last_error : option exn) (a : nat) :
  In (client_run_speed_test a) (snd (attempts client todo self last_error)) ->
  retried (client a) = false ->
  decisive client todo = Some a.
Proof.
  revert last_error.
  induction todo as [|attempt rest IH]; intros last_error Hin Hnot.
  - destruct Hin.
  - cbn [attempts decisive find] in *. unfold retried at 1.
    destruct (client attempt) as [r|e] eqn:E.
    + cbn [negb]. unfold on_result in Hin. cbn in Hin.
      destruct Hin as [Heq|[Heq|[Heq|[Heq|[]]]]]; try discriminate.
      now injection Heq as ->.
    + unfold retryable.
      destruct (except_clause e) eqn:C; cbn [negb].
      1,2: specialize (IH (Some e));
        destruct (attempts client rest self (Some e)) as [[self' exit] effects];
        cbn [fst snd] in *;
        destruct Hin as [Heq|Hin];
        [ injection Heq as ->; unfold retried, retryable in Hnot;
          rewrite E, C in Hnot; discriminate
        | apply IH; [|exact Hnot];
          destruct (attempt <? Const.MAX_RETRIES - 1)%nat;
          [destruct Hin as [Heq|Hin]; [discriminate | exact Hin] | exact Hin] ].
      all: cbn in Hin; destruct Hin as [Heq|[]]; now injection Heq as ->.
Qed.

Lemma run_started (client : nat -> attempt_outcome) (now : Q)
      (self : coordinator) (a : nat) :
  started a (effects_of (_run_speed_test client now self)) = true ->
  retried (client a) = false ->
  decisive client (seq 0 Const.MAX_RETRIES) = Some a.
Proof.
  unfold _run_speed_test, effects_of, started. intros H Hnot.
  pose proof (attempts_started client (seq 0 Const.MAX_RETRIES)
                (set_is_running true self) None a) as A.
  destruct (attempts client (seq 0 Const.MAX_RETRIES)
                     (set_is_running true self) None)
    as [[self' exit] effects].
  cbn [fst snd] in A. apply A; [|exact Hnot]. clear A.
  assert (Hmore : forall now last s,
             ~ In (client_run_speed_test a)
                  (snd (after_retries now last s))).
  { intros now' last s. unfold after_retries.
    destruct (truthy _ && _); [destruct (negb _)|];
      cbn [snd];
      (destruct (_ =? Const.CIRCUIT_BREAKER_WARNING_THRESHOLD)%Z;
       [|destruct (_ =? Const.CIRCUIT_BREAKER_OPEN_THRESHOLD)%Z]);
      cbn; intros Hin; repeat (destruct Hin as [Hin|Hin]; [discriminate|]);
      exact Hin. }
  assert (Hin : In (client_run_speed_test a)
                   (update_listeners :: effects ++ [update_listeners])
                -> In (client_run_speed_test a) effects).
  { intros [Heq|Hin]; [discriminate|].
    apply in_app_or in Hin. destruct Hin as [Hin|[Heq|[]]];
      [exact Hin | discriminate]. }
  apply existsb_exists in H. destruct H as (ev & Hev & Hattempt).
  destruct ev; try discriminate. apply Nat.eqb_eq in Hattempt. subst attempt.
  destruct exit as [p|f|last].
  - cbn [snd] in Hev. now apply Hin.
  - cbn [snd] in Hev. now apply Hin.
  - specialize (Hmore now last self').
    destruct (after_retries now last self') as [[self'' out] more].
    cbn [snd] in *. destruct Hev as [Heq|Hev]; [discriminate|].
    apply in_app_or in Hev. destruct Hev as [Hev|[Heq|[]]]; [|discriminate].
    apply in_app_or in Hev. destruct Hev as [Hev|Hev]; [exact Hev|].
    contradiction.
Qed.

(** *** [_async_update_data] *)

(** What an update does, by the course of the attempts that it sees. *)
Lemma update_course (env : environment) (self : coordinator) :
  let x := _async_update_data env self in
  if runs env self then
    match decisive (seen env) (seq 0 Const.MAX_RETRIES) with
    | None =>
        _consecutive_failures (state_after x)
        = (_consecutive_failures self + 1)%Z /\
        same_counters self (state_after x)
    | Some attempt =>
        In (client_run_speed_test attempt) (effects_of x) /\
        match seen env attempt with
        | result r =>
            _consecutive_failures (state_after x) = 0%Z /\
            lifetime_download (state_after x)
            = min2 (lifetime_download self
                    + inject_Z (r_bytes_received r) / 1000000000)
                   Const.MAX_LIFETIME_GB /\
            lifetime_upload (state_after x)
            = min2 (lifetime_upload self
                    + inject_Z (r_bytes_sent r) / 1000000000)
                   Const.MAX_LIFETIME_GB /\
            (exists p, outcome_of x = Return p
                       /\ ATTR_LIFETIME_DOWNLOAD p
                          = lifetime_download (state_after x)
                       /\ ATTR_LIFETIME_UPLOAD p
                          = lifetime_upload (state_after x)) /\
            In (store_save (lifetime_download (state_after x))
                           (lifetime_upload (state_after x))) (effects_of x)
        | raises e =>
            _consecutive_failures (state_after x)
            = _consecutive_failures self /\
            same_counters self (state_after x)
        end
    end
  else
    _consecutive_failures (state_after x) = _consecutive_failures self /\
    same_counters self (state_after x) /\
    network_io (effects_of x) = [] /\
    outcome_of x
    = data_or_fail
        (if (Const.CIRCUIT_BREAKER_OPEN_THRESHOLD
             <=? _consecutive_failures self)%Z
         then circuit_open_message else lock_timeout_message) self.
Proof.
  cbv zeta. unfold _async_update_data, runs, seen.
  destruct (Const.CIRCUIT_BREAKER_OPEN_THRESHOLD <=? _consecutive_failures self)%Z
    eqn:Hopen; cbn [negb andb].
  { repeat split. }
  destruct (lock_locked env) eqn:Hlocked; cbn [andb].
  2: { cbn [negb].
       pose proof (run_course (client env) (current_time env) self) as R.
       cbv zeta in R.
       destruct (decisive (client env) (seq 0 Const.MAX_RETRIES)) as [a|].
       - destruct R as [Hin R]. split; [exact Hin|].
         destruct (client env a) as [r|e].
         + destruct R as (R1 & R2 & R3 & R4 & R5).
           repeat split; try assumption.
           eexists. split; [exact R4|]. split; [rewrite R2|rewrite R3]; reflexivity.
         + destruct R as (R1 & R2 & _). split; assumption.
       - destruct R as (R1 & R2 & _). split; assumption. }
  destruct (wait env) as [| |k] eqn:Hwait; cbn [negb].
  - repeat split.
  - pose proof (run_course (client env) (current_time env)
                  (set_is_waiting false (set_is_waiting true self))) as R.
    cbv zeta in R. unfold state_after, outcome_of, effects_of in *.
    destruct (_run_speed_test (client env) (current_time env)
                (set_is_waiting false (set_is_waiting true self)))
      as [[self' out] effects].
    cbn [fst snd] in *.
    destruct (decisive (client env) (seq 0 Const.MAX_RETRIES)) as [a|].
    + destruct R as [Hin R]. split; [right; exact Hin|].
      destruct (client env a) as [r|e].
      * destruct R as (R1 & R2 & R3 & R4 & R5).
        repeat split; try assumption; [|right; exact R5].
        eexists. split; [exact R4|]. split; [rewrite R2|rewrite R3]; reflexivity.
      * destruct R as (R1 & R2 & _). split; assumption.
    + destruct R as (R1 & R2 & _). split; assumption.
  - set (cut := fun attempt : nat =>
                  if (attempt =? k)%nat then raises deadline_cancel
                  else client env attempt).
    pose proof (run_course cut (current_time env)
                  (set_is_waiting false (set_is_waiting true self))) as R.
    pose proof (run_started cut (current_time env)
                  (set_is_waiting false (set_is_waiting true self)) k) as S.
    cbv zeta in R. unfold state_after, outcome_of, effects_of in *.
    destruct (_run_speed_test cut (current_time env)
                (set_is_waiting false (set_is_waiting true self)))
      as [[self' out] effects].
    cbn [fst snd] in *.
    assert (Hk : retried (cut k) = false).
    { unfold cut. now rewrite Nat.eqb_refl. }
    destruct (decisive cut (seq 0 Const.MAX_RETRIES)) as [a|].
    + destruct R as [Hin R].
      split; [destruct (started k effects); right; exact Hin|].
      change (if (a =? k)%nat then raises deadline_cancel else client env a)
        with (cut a).
      destruct (cut a) as [r|e] eqn:Ea.
      * destruct R as (R1 & R2 & R3 & R4 & R5).
        destruct (started k effects) eqn:Hs.
        { specialize (S eq_refl Hk). injection S as ->.
          unfold cut in Ea. rewrite Nat.eqb_refl in Ea. discriminate. }
        cbn [fst snd].
        repeat split; try assumption; [|right; exact R5].
        eexists. split; [exact R4|]. split; [rewrite R2|rewrite R3]; reflexivity.
      * destruct R as (R1 & R2 & _).
        destruct (started k effects); split; assumption.
    + destruct R as (R1 & R2 & _).
      destruct (started k effects); split; assumption.
Qed.

(** C4.  When the failure counter has reached 10, or the lock is held and
    the wait for it times out, the coordinator makes no measurement
    request; it returns the data it has, if any, and otherwise raises
    [UpdateFailed], with the "service unavailable" message when the circuit
    is open and another message when the wait timed out.  The counters are
    as before. *)
Theorem unable_to_run (env : environment) (self : coordinator) :
  (Const.CIRCUIT_BREAKER_OPEN_THRESHOLD <= _consecutive_failures self)%Z
  \/ (lock_locked env = true /\ wait env = wait_times_out) ->
  let x := _async_update_data env self in
  network_io (effects_of x) = [] /\
  outcome_of x
  = match data self with
    | Some last_good => Return last_good
    | None =>
        Raise (UpdateFailed
                 (if (Const.CIRCUIT_BREAKER_OPEN_THRESHOLD
                      <=? _consecutive_failures self)%Z
                  then circuit_open_message else lock_timeout_message)
                 None)
    end /\
  circuit_open_message <> lock_timeout_message /\
  Const.CIRCUIT_BREAKER_OPEN_THRESHOLD = 10%Z /\
  Const.GLOBAL_TEST_LOCK_TIMEOUT = 300%Q /\
  same_counters self (state_after x) /\
  _consecutive_failures (state_after x) = _consecutive_failures self.
Proof.
  intros H. cbv zeta.
  pose proof (update_course env self) as U. cbv zeta in U.
  assert (Hruns : runs env self = false).
  { unfold runs. destruct H as [H|[-> ->]].
    - apply Z.leb_le in H. now rewrite H.
    - cbn. apply andb_false_r. }
  rewrite Hruns in U. destruct U as (U1 & U2 & U3 & U4).
  split; [exact U3|]. split; [exact U4|].
  split; [discriminate|]. repeat split; try assumption; apply U2.
Qed.

Lemma unable_to_run_witness :
  let self := set_consecutive_failures 10 (init None) in
  outcome_of (_async_update_data (quiet always_times_out) self)
  = Raise (UpdateFailed circuit_open_message None)
  /\ outcome_of (_async_update_data (busy always_times_out) (init None))
     = Raise (UpdateFailed lock_timeout_message None).
Proof.
  cbv zeta. split.
  - destruct (unable_to_run (quiet always_times_out)
                (set_consecutive_failures 10 (init None)))
      as (_ & H & _); [left; vm_compute; discriminate | exact H].
  - destruct (unable_to_run (busy always_times_out) (init None))
      as (_ & H & _); [right; split; reflexivity | exact H].
Defined.

(** *** Retries *)

Lemma retryable_clause (e : exn) :
  retryable e = true ->
  (except_clause e = except_timeout /\ isinstance e AsyncioTimeoutError = true)
  \/ (except_clause e = except_client_error
      /\ isinstance e AsyncioTimeoutError = false
      /\ isinstance e AiohttpClientError = true).
Proof.
  unfold retryable, except_clause.
  destruct (isinstance e AsyncioTimeoutError); [now left|].
  destruct (isinstance e AiohttpClientError); [now right|].
  destruct (_ || _); [discriminate|]. destruct (_ || _); discriminate.
Qed.

Lemma after_retries_quiet (now : Q) (last_error : option exn)
      (self : coordinator) :
  attempts_and_sleeps (snd (after_retries now last_error self)) = [].
Proof.
  unfold after_retries.
  destruct (truthy _ && _); [destruct (negb _)|]; cbn [snd];
    (destruct (_ =? Const.CIRCUIT_BREAKER_WARNING_THRESHOLD)%Z;
     [|destruct (_ =? Const.CIRCUIT_BREAKER_OPEN_THRESHOLD)%Z]);
    reflexivity.
Qed.

Lemma sleeps_of_attempts_and_sleeps (effects : list effect) :
  sleeps (attempts_and_sleeps effects) = sleeps effects.
Proof.
  unfold sleeps, attempts_and_sleeps.
  induction effects as [|ev effects IH]; [reflexivity|].
  destruct ev; cbn [filter flat_map app]; now rewrite IH.
Qed.

(** C5.  When each of the three attempts ends in a retryable error (a
    timeout or a client error), the coordinator sleeps 5 s after the
    first and 10 s after the second and not after the third; the delay
    after attempt [a] is 5 * 2^a.  It then raises one [UpdateFailed] whose
    cause is the last error, and the failure counter has grown by 1. *)
Theorem retries_exhausted (client : nat -> attempt_outcome) (now : Q)
        (self : coordinator) (e0 e1 e2 : exn) :
  client 0%nat = raises e0 -> client 1%nat = raises e1 ->
  client 2%nat = raises e2 ->
  retryable e0 = true -> retryable e1 = true -> retryable e2 = true ->
  let x := _run_speed_test client now self in
  attempts_and_sleeps (effects_of x)
  = [client_run_speed_test 0; asyncio_sleep 5;
     client_run_speed_test 1; asyncio_sleep 10;
     client_run_speed_test 2] /\
  sleeps (effects_of x) = [backoff 0; backoff 1] /\
  (forall a, backoff a = (Const.RETRY_DELAY_BASE * 2 ^ Z.of_nat a)%Z) /\
  Const.RETRY_DELAY_BASE = 5%Z /\
  outcome_of x
  = Raise (UpdateFailed
             (if isinstance e2 AsyncioTimeoutError
              then "Speed test timed out after multiple attempts"
              else "Network error after multiple attempts: " ++ message e2)
             (Some e2)) /\
  _consecutive_failures (state_after x) = (_consecutive_failures self + 1)%Z.
Proof.
  intros H0 H1 H2 R0 R1 R2. cbv zeta.
  assert (Hloop : attempts client (seq 0 Const.MAX_RETRIES)
                           (set_is_running true self) None
                  = (set_is_running true self, exhausted (Some e2),
                     [client_run_speed_test 0; asyncio_sleep (backoff 0);
                      client_run_speed_test 1; asyncio_sleep (backoff 1);
                      client_run_speed_test 2])).
  { cbn [seq Const.MAX_RETRIES attempts]. rewrite H0, H1, H2.
    destruct (retryable_clause e0 R0) as [[-> _]|[-> _]];
      destruct (retryable_clause e1 R1) as [[-> _]|[-> _]];
      destruct (retryable_clause e2 R2) as [[-> _]|[-> _]]; reflexivity. }
  unfold _run_speed_test, state_after, outcome_of, effects_of.
  rewrite Hloop.
  pose proof (after_retries_state now (Some e2) (set_is_running true self)) as A.
  pose proof (after_retries_quiet now (Some e2) (set_is_running true self)) as Q.
  assert (Hout : snd (fst (after_retries now (Some e2)
                                         (set_is_running true self)))
                 = Raise (UpdateFailed
                   (if isinstance e2 AsyncioTimeoutError
                    then "Speed test timed out after multiple attempts"
                    else "Network error after multiple attempts: " ++ message e2)
                   (Some e2))).
  { unfold after_retries.
    destruct (truthy _ && _); [destruct (negb _)|]; cbn [fst snd];
      (destruct (retryable_clause e2 R2) as [[_ ->]|(_ & -> & ->)];
       reflexivity). }
  cbv zeta in A.
  destruct (after_retries now (Some e2) (set_is_running true self))
    as [[self' out] more].
  cbn [fst snd] in *. destruct A as (A1 & _ & _).
  assert (Hfilter : attempts_and_sleeps
             (update_listeners
              :: ([client_run_speed_test 0; asyncio_sleep (backoff 0);
                   client_run_speed_test 1; asyncio_sleep (backoff 1);
                   client_run_speed_test 2] ++ more) ++ [update_listeners])
           = [client_run_speed_test 0; asyncio_sleep 5;
              client_run_speed_test 1; asyncio_sleep 10;
              client_run_speed_test 2]).
  { unfold attempts_and_sleeps in *. cbn [filter].
    rewrite !filter_app. cbn [filter]. rewrite Q. reflexivity. }
  split; [exact Hfilter|].
  split; [rewrite <- sleeps_of_attempts_and_sleeps, Hfilter; reflexivity|].
  split; [reflexivity|]. split; [reflexivity|].
  split; [exact Hout | exact A1].
Qed.

Lemma retries_exhausted_witness :
  sleeps (effects_of (_run_speed_test always_times_out 0 (init None)))
  = [5; 10]%Z /\
  outcome_of (_run_speed_test always_times_out 0 (init None))
  = Raise (UpdateFailed "Speed test timed out after multiple attempts"
                        (Some timeout_error)) /\
  _consecutive_failures
    (state_after (_run_speed_test always_times_out 0 (init None))) = 1%Z.
Proof.
  destruct (retries_exhausted always_times_out 0 (init None)
              timeout_error timeout_error timeout_error
              eq_refl eq_refl eq_refl eq_refl eq_refl eq_refl)
    as (_ & Hs & _ & _ & Ho & Hf).
  split; [exact Hs|]. split; [exact Ho | exact Hf].
Defined.

(** *** The failure counter *)

Lemma refresh_state (env : environment) (self : coordinator) :
  _consecutive_failures (state_after (async_refresh env self))
  = _consecutive_failures (state_after (_async_update_data env self))
  /\ same_counters (state_after (_async_update_data env self))
                   (state_after (async_refresh env self))
  /\ outcome_of (async_refresh env self)
     = outcome_of (_async_update_data env self)
  /\ effects_of (async_refresh env self)
     = effects_of (_async_update_data env self).
Proof.
  unfold async_refresh, state_after, outcome_of, effects_of, same_counters.
  destruct (_async_update_data env self) as [[self' out] effects].
  destruct out; repeat split.
Qed.

Lemma decisive_not_retried (client : nat -> attempt_outcome)
      (todo : list nat) (attempt : nat) :
  decisive client todo = Some attempt -> retried (client attempt) = false.
Proof.
  unfold decisive. intros H. apply find_some in H. destruct H as [_ H].
  now apply negb_true_iff in H.
Qed.

(** The repair flows change nothing in a [hass.data] that holds no
    coordinator. *)
Lemma repairs_idle (domain : list (string * Repairs.domain_value)) :
  Repairs.only_locks domain ->
  Repairs.repeated_failures_confirm domain = domain
  /\ Repairs.circuit_breaker_confirm domain = domain.
Proof.
  unfold Repairs.only_locks, Repairs.circuit_breaker_confirm.
  induction 1 as [|[key value] domain Hv _ [IH1 IH2]]; [now split|].
  cbn [snd] in Hv. subst value.
  cbn [Repairs.repeated_failures_confirm map]. now rewrite IH1, IH2.
Qed.

(** C10.  An update leaves the failure counter at n + 1 exactly when it
    gets to run and all three attempts end in retryable errors, at 0 when
    it gets to run and an attempt succeeds, and at n in every other case:
    with the circuit open, when the wait for the lock times out, and when
    an attempt ends in an error that is not retried.  [async_refresh]
    does the same, and the manual trigger first lowers a counter that has
    reached 10 to 9 and then does the same.  The repair flows, which
    would reset the counter of a coordinator found in [hass.data], find
    none there: only the lock is ever stored in it. *)
Theorem consecutive_failures_changes (env : environment)
        (self : coordinator) :
  let n := _consecutive_failures self in
  let after op self :=
    _consecutive_failures (state_after (perform op env self)) in
  after update self
  = (if runs env self
     then if all_retried (seen env) then n + 1
          else if succeeds (seen env) then 0 else n
     else n)%Z /\
  after refresh self = after update self /\
  after manual self = after update (after_trigger self) /\
  _consecutive_failures (after_trigger self)
  = (if (10 <=? n)%Z then 9 else n)%Z /\
  ((Const.CIRCUIT_BREAKER_OPEN_THRESHOLD <= n)%Z -> after update self = n) /\
  (lock_locked env = true -> wait env = wait_times_out ->
   after update self = n) /\
  (forall attempt e,
     decisive (seen env) (seq 0 Const.MAX_RETRIES) = Some attempt ->
     seen env attempt = raises e ->
     retryable e = false /\ after update self = n) /\
  (forall entries,
     let domain := Repairs.after_setups entries in
     Repairs.only_locks domain /\
     Repairs.repeated_failures_confirm domain = domain /\
     Repairs.circuit_breaker_confirm domain = domain).
Proof.
  cbv zeta. cbn [perform].
  assert (Hrepairs : forall entries,
     Repairs.only_locks (Repairs.after_setups entries) /\
     Repairs.repeated_failures_confirm
       (Repairs.after_setups entries)
     = Repairs.after_setups entries /\
     Repairs.circuit_breaker_confirm
       (Repairs.after_setups entries)
     = Repairs.after_setups entries).
  { intros entries.
    assert (Hlocks : Repairs.only_locks
                       (Repairs.after_setups entries)).
    { induction entries as [|k IH]; [constructor|].
      cbn [Repairs.after_setups]. unfold Repairs.async_setup_entry.
      destruct (existsb (Repairs.is_key "test_lock")
                        (Repairs.after_setups k)); [exact IH|].
      apply Forall_app. split; [exact IH | repeat constructor]. }
    split; [exact Hlocks|]. now apply repairs_idle. }
  revert Hrepairs.
  intros Hrepairs.
  pose proof (update_course env self) as U. cbv zeta in U.
  assert (Hformula :
    _consecutive_failures (state_after (_async_update_data env self))
    = (if runs env self
       then if all_retried (seen env)
            then _consecutive_failures self + 1
            else if succeeds (seen env) then 0
                 else _consecutive_failures self
       else _consecutive_failures self)%Z).
  { unfold all_retried, succeeds.
    destruct (runs env self); [|apply U].
    destruct (decisive (seen env) (seq 0 Const.MAX_RETRIES)) as [a|];
      [|apply U].
    destruct U as [_ U]. destruct (seen env a); apply U. }
  split; [exact Hformula|].
  split; [apply refresh_state|].
  split.
  { unfold async_run_speedtest, after_trigger.
    destruct (Const.CIRCUIT_BREAKER_OPEN_THRESHOLD
              <=? _consecutive_failures self)%Z; apply refresh_state. }
  split.
  { unfold after_trigger.
    change Const.CIRCUIT_BREAKER_OPEN_THRESHOLD with 10%Z.
    destruct (10 <=? _consecutive_failures self)%Z; reflexivity. }
  split.
  { intros H. rewrite Hformula. unfold runs.
    apply Z.leb_le in H. now rewrite H. }
  split.
  { intros Hl Hw. rewrite Hformula. unfold runs. rewrite Hl, Hw.
    cbn. now rewrite andb_false_r. }
  split; [|exact Hrepairs].
  intros attempt e Hd He.
  pose proof (decisive_not_retried _ _ _ Hd) as Hr.
  rewrite He in Hr. split; [exact Hr|].
  rewrite Hformula. unfold all_retried, succeeds. rewrite Hd, He.
  now destruct (runs env self).
Qed.

Lemma consecutive_failures_changes_witness :
  _consecutive_failures
    (state_after (_async_update_data
                    (quiet (fun _ => raises {| cls := CLIError;
                                               message := "no output" |}))
                    (set_consecutive_failures 4 (init None)))) = 4%Z
  /\ _consecutive_failures
       (state_after (_async_update_data
                       (busy always_times_out)
                       (set_consecutive_failures 4 (init None)))) = 4%Z
  /\ _consecutive_failures
       (state_after (_async_update_data
                       (quiet always_times_out)
                       (set_consecutive_failures 12 (init None)))) = 12%Z.
Proof.
  split; [|split].
  - destruct (consecutive_failures_changes
                (quiet (fun _ => raises {| cls := CLIError;
                                           message := "no output" |}))
                (set_consecutive_failures 4 (init None)))
      as (_ & _ & _ & _ & _ & _ & H & _).
    apply (H 0%nat {| cls := CLIError; message := "no output" |});
      reflexivity.
  - destruct (consecutive_failures_changes
                (busy always_times_out)
                (set_consecutive_failures 4 (init None)))
      as (_ & _ & _ & _ & _ & H & _).
    apply H; reflexivity.
  - destruct (consecutive_failures_changes
                (quiet always_times_out)
                (set_consecutive_failures 12 (init None)))
      as (_ & _ & _ & _ & H & _).
    apply H. vm_compute. discriminate.
Defined.

(** *** The lifetime counters *)

Lemma gigabytes_nonneg (bytes : Z) :
  (0 <= bytes)%Z -> 0 <= inject_Z bytes / 1000000000.
Proof.
  intros H. apply Qle_shift_div_l; [reflexivity|]. rewrite Qmult_0_l.
  change 0 with (inject_Z 0). now rewrite <- Zle_Qle.
Qed.










End CoordinatorRuns.

(* ================================================================== *)
(** * Further properties of the code *)

(** ** The selection of the best server *)

Section BestServer.

Import Directory Native.

Lemma batches_from_concat (fuel : nat) (servers : list server) :
  (List.length servers <= fuel)%nat ->
  concat (batches_from fuel servers) = servers.
Proof.
  revert servers; induction fuel as [|fuel IH]; intros servers Hlen.
  - destruct servers; [reflexivity | cbn in Hlen; lia].
  - destruct servers as [|s rest]; [reflexivity|].
    cbn [batches_from concat]. rewrite IH.
    + apply firstn_skipn.
    + rewrite length_skipn. cbn [List.length] in *. unfold CONCURRENCY. lia.
Qed.

Lemma fold_left_concat {A B : Type} (f : A -> B -> A) (ls : list (list B))
      (a : A) :
  fold_left (fun acc l => fold_left f l acc) ls a = fold_left f (concat ls) a.
Proof.
  revert a; induction ls as [|l ls IH]; intros a; [reflexivity|].
  cbn [fold_left concat]. now rewrite fold_left_app, IH.
Qed.

(** The batches do not change the choice. *)
Lemma best_of_whole_list (http_get : string -> ping_answer)
      (servers : list server) :
  best_of http_get servers
  = fold_left (fun best s => better best s (_test_latency http_get s))
              servers None.
Proof.
  unfold best_of, test_batch.
  rewrite (fold_left_concat
             (fun best s => better best s (_test_latency http_get s))).
  unfold batches. now rewrite batches_from_concat.
Qed.

Lemma better_first_fastest (http_get : string -> ping_answer)
      (done : list server) (best : option (server * Q)) (s : server) :
  first_fastest http_get done best ->
  first_fastest http_get (done ++ [s])
                (better best s (_test_latency http_get s)).
Proof.
  unfold first_fastest, better. intros H.
  destruct (_test_latency http_get s) as [ms|] eqn:E.
  - destruct best as [[b best_ms]|].
    + destruct H as (before & after & -> & Hb & Hbefore & Hafter).
      destruct (Qlt_le_dec ms best_ms) as [Hlt|Hle].
      * exists (before ++ b :: after)%list, []. repeat split.
        -- exact E.
        -- intros t ms' Ht Hms. apply in_app_or in Ht.
           destruct Ht as [Ht|[<-|Ht]].
           ++ apply Qlt_trans with best_ms; [exact Hlt | eauto].
           ++ rewrite Hb in Hms. injection Hms as <-. exact Hlt.
           ++ apply Qlt_le_trans with best_ms; [exact Hlt | eauto].
        -- intros t ms' [].
      * exists before, (after ++ [s])%list. repeat split.
        -- now rewrite <- app_assoc.
        -- exact Hb.
        -- exact Hbefore.
        -- intros t ms' Ht Hms. apply in_app_or in Ht.
           destruct Ht as [Ht|[<-|[]]]; [eauto|].
           rewrite E in Hms. injection Hms as <-. exact Hle.
    + exists done, []. repeat split.
      * exact E.
      * intros t ms' Ht Hms. rewrite (H t Ht) in Hms. discriminate.
      * intros t ms' [].
  - destruct best as [[b best_ms]|].
    + destruct H as (before & after & -> & Hb & Hbefore & Hafter).
      exists before, (after ++ [s])%list. repeat split.
      * now rewrite <- app_assoc.
      * exact Hb.
      * exact Hbefore.
      * intros t ms' Ht Hms. apply in_app_or in Ht.
        destruct Ht as [Ht|[<-|[]]]; [eauto|]. congruence.
    + intros t Ht. apply in_app_or in Ht.
      destruct Ht as [Ht|[<-|[]]]; [auto | exact E].
Qed.

Lemma fold_first_fastest (http_get : string -> ping_answer)
      (todo done : list server) (best : option (server * Q)) :
  first_fastest http_get done best ->
  first_fastest http_get (done ++ todo)
    (fold_left (fun best s => better best s (_test_latency http_get s))
               todo best).
Proof.
  revert done best; induction todo as [|s todo IH]; intros done best H.
  - now rewrite app_nil_r.
  - cbn [fold_left].
    replace (done ++ s :: todo)%list with ((done ++ [s]) ++ todo)%list
      by now rewrite <- app_assoc.
    apply IH. now apply better_first_fastest.
Qed.

(** X1.  [get_best_server] answers with the first of the fastest servers:
    the list splits around the chosen server so that every reachable server
    before it is strictly slower and none after it is faster.  When no
    server answers, the first server of the list is chosen. *)
Theorem best_server_choice (http_get : string -> ping_answer)
        (servers : list server) :
  servers <> [] ->
  exists s,
    get_best_server http_get servers = Some s /\
    In s servers /\
    ((forall t, In t servers -> _test_latency http_get t = Latency.Inf) ->
     hd_error servers = Some s) /\
    ((exists t, In t servers /\ _test_latency http_get t <> Latency.Inf) ->
     exists before after ms,
       servers = (before ++ s :: after)%list /\
       _test_latency http_get s = Latency.Finite ms /\
       (forall t ms', In t before ->
          _test_latency http_get t = Latency.Finite ms' -> ms < ms') /\
       (forall t ms', In t after ->
          _test_latency http_get t = Latency.Finite ms' -> ms <= ms')).
Proof.
  intros Hne. unfold get_best_server.
  destruct servers as [|s0 rest]; [contradiction|].
  rewrite best_of_whole_list.
  pose proof (fold_first_fastest http_get (s0 :: rest) [] None) as H.
  cbn [app] in H.
  assert (H0 : first_fastest http_get [] None) by (intros t []).
  specialize (H H0). unfold first_fastest in H.
  destruct (fold_left _ (s0 :: rest) None) as [[s ms]|].
  - destruct H as (before & after & Heq & Hs & Hb & Ha).
    exists s. split; [reflexivity|]. split; [rewrite Heq; apply in_elt|].
    split.
    + intros Hall. rewrite (Hall s) in Hs; [discriminate|].
      rewrite Heq. apply in_elt.
    + intros _. exists before, after, ms. repeat split; assumption.
  - exists s0. split; [reflexivity|]. split; [now left|]. split.
    + reflexivity.
    + intros (t & Ht & Hfinite). now destruct (Hfinite (H t Ht)).
Qed.

Lemma best_server_choice_witness :
  exists s, get_best_server fast_answers two_servers = Some s
            /\ server_url s = "https://fast.example"%string.
Proof.
  destruct (best_server_choice fast_answers two_servers) as (s & Hs & _);
    [discriminate|].
  exists s. split; [exact Hs|].
  vm_compute in Hs. now injection Hs as <-.
Defined.

End BestServer.

(** ** Request URLs and transfer totals *)

Section Requests.

Import Directory Native Throughput.
Local Open Scope string_scope.









Lemma sum_pieces (pieces : list nat) (start : Z) :
  fold_left (fun total_bytes n => (total_bytes + Z.of_nat n)%Z) pieces start
  = (start + Z.of_nat (list_sum pieces))%Z.
Proof.
  revert start; induction pieces as [|n pieces IH]; intros start.
  - cbn. lia.
  - cbn [fold_left list_sum fold_right]. rewrite IH.
    change (fold_right Nat.add 0%nat pieces) with (list_sum pieces). lia.
Qed.

Lemma download_chunk_counted (a : chunk_answer) :
  _download_chunk a = download_counted a /\ (0 <= download_counted a)%Z.
Proof.
  destruct a as [e|status pieces e]; cbn [_download_chunk]; [split; [reflexivity|cbn; lia]|].
  destruct (Z.eqb_spec status Const.HTTP_OK) as [->|Hne]; cbn [negb].
  - destruct e; cbn; try (split; [reflexivity | lia]).
    rewrite sum_pieces. split; lia.
  - assert (Hzero : download_counted (answered status pieces e) = 0%Z).
    { unfold download_counted, Const.HTTP_OK in *.
      destruct status as [|q|q]; try reflexivity.
      repeat (destruct q as [q|q|]; try reflexivity). now destruct Hne. }
    rewrite Hzero. split; [reflexivity | lia].
Qed.

Lemma do_download_counted (steps : list download_step) (s : download_state) :
  total_bytes (fst (do_download (map download_event steps) s))
  = (total_bytes s + counted_total steps)%Z.
Proof.
  revert s; induction steps as [|[|a] steps IH]; intros s;
    cbn [map download_event do_download counted_total].
  - cbn. lia.
  - specialize (IH s). destruct (do_download (map download_event steps) s).
    exact IH.
  - rewrite IH. destruct (download_chunk_counted a) as [-> Hpos].
    unfold chunk_received.
    destruct (0 <? download_counted a)%Z eqn:E; cbn [total_bytes]; [lia|].
    apply Z.ltb_ge in E. lia.
Qed.

Lemma do_upload_counted (answers : list chunk_answer) (start : Z) :
  fold_left (fun total n => chunk_sent n total)
            (map (_upload_chunk UPLOAD_CHUNK_SIZE) answers) start
  = (start + UPLOAD_CHUNK_SIZE
             * Z.of_nat (List.length (filter upload_accepted answers)))%Z.
Proof.
  revert start; induction answers as [|a answers IH]; intros start.
  - cbn. lia.
  - cbn [map fold_left filter]. rewrite IH.
    unfold chunk_sent, _upload_chunk, upload_accepted.
    destruct a as [e|status pieces e]; [cbn; lia|].
    destruct ((status =? 200)%Z || (status =? 201)%Z || (status =? 204)%Z).
    + cbn [List.length]. change (0 <? UPLOAD_CHUNK_SIZE)%Z with true.
      cbv iota. lia.
    + cbn. lia.
Qed.

Lemma download_phase_total (steps : list download_step) (c : client)
      (start_time now : Q) :
  exists speed,
    snd (_test_download c (map download_event steps) start_time now)
    = Some (speed, counted_total steps)
    /\ (0 <= counted_total steps)%Z.
Proof.
  unfold _test_download.
  pose proof (do_download_counted steps
                {| self := c; total_bytes := 0; downloads_completed := 0 |})
    as Htotal.
  pose proof (do_download_total (map download_event steps)
                {| self := c; total_bytes := 0; downloads_completed := 0 |}
                (Z.le_refl 0)) as Hpos.
  destruct (do_download (map download_event steps) _) as [s params].
  cbn [fst snd total_bytes] in *.
  rewrite Z.add_0_l in Htotal. rewrite Htotal in *.
  destruct (guarded_speed (counted_total steps) start_time now Hpos)
    as (speed & Heq & _).
  exists speed. unfold download_speed. rewrite Heq. now split.
Qed.

Lemma upload_phase_total (answers : list chunk_answer) (start_time now : Q) :
  exists speed,
    _test_upload (map (_upload_chunk UPLOAD_CHUNK_SIZE) answers)
                 start_time now
    = Some (speed,
            (1048576
             * Z.of_nat (List.length (filter upload_accepted answers)))%Z).
Proof.
  unfold _test_upload, do_upload.
  rewrite do_upload_counted. rewrite Z.add_0_l.
  change UPLOAD_CHUNK_SIZE with 1048576%Z.
  set (total := (1048576 * _)%Z).
  assert (Hpos : (0 <= total)%Z) by (unfold total; lia).
  destruct (guarded_speed total start_time now Hpos) as (speed & Heq & _).
  exists speed. unfold upload_speed. now rewrite Heq.
Qed.

(** X3.  The bytes of a download phase are the bodies that were read to
    the end from answers with status 200, and nothing from any other chunk;
    the bytes of an upload phase are 1,048,576 for every chunk answered
    with 200, 201 or 204.  Neither total is negative. *)
Theorem transfer_totals :
  (forall steps c start_time now,
     exists speed,
       snd (_test_download c (map download_event steps) start_time now)
       = Some (speed, counted_total steps)
       /\ (0 <= counted_total steps)%Z) /\
  (forall answers start_time now,
     exists speed,
       _test_upload (map (_upload_chunk UPLOAD_CHUNK_SIZE) answers)
                    start_time now
       = Some (speed,
               (1048576
                * Z.of_nat (List.length (filter upload_accepted answers)))%Z)).
Proof.
  split.
  - intros steps c start_time now. apply download_phase_total.
  - intros answers start_time now. apply upload_phase_total.
Qed.

End Requests.

(** ** The backends under the coordinator *)

Section BackendOutcomes.

Import Exc Coordinator Backends.
Local Open Scope string_scope.

Lemma get_servers_nonempty (answer : Directory.fetch) :
  Directory.get_servers answer <> [].
Proof.
  unfold Directory.get_servers.
  destruct answer as [e|status data]; [discriminate|].
  destruct (status =? Const.HTTP_OK)%Z; [|discriminate].
  destruct (Directory.sort_by_id _); discriminate.
Qed.

Lemma known_servers_nonempty (w : Native.world)
      (cached : list Directory.server) :
  Native.known_servers w cached <> [].
Proof.
  unfold Native.known_servers. destruct cached; [|discriminate].
  apply get_servers_nonempty.
Qed.

Lemma get_best_server_some (http_get : string -> Native.ping_answer)
      (servers : list Directory.server) :
  servers <> [] -> Native.get_best_server http_get servers <> None.
Proof.
  unfold Native.get_best_server. destruct servers as [|s rest]; [contradiction|].
  intros _. destruct (Native.best_of http_get (s :: rest)) as [[b ms]|];
    discriminate.
Qed.

Lemma convert_not_retried (timeout : Z) (e : exn) :
  retryable (Native.convert timeout e) = false.
Proof.
  unfold Native.convert, retryable, except_clause, isinstance.
  destruct e as [c msg]. cbn [cls message]. destruct c; reflexivity.
Qed.

Lemma measure_some (w : Native.world) (tester : Throughput.client) :
  exists r,
    Native.measure w tester = Some r /\
    r_bytes_received r = Native.counted_total (Native.download_steps w) /\
    r_bytes_sent r
    = (1048576 * Z.of_nat (List.length (filter Native.upload_accepted
                                               (Native.upload_answers w))))%Z /\
    (0 <= r_bytes_received r)%Z /\ (0 <= r_bytes_sent r)%Z.
Proof.
  unfold Native.measure.
  destruct (download_phase_total (Native.download_steps w) tester
              (fst (Native.download_clock w)) (snd (Native.download_clock w)))
    as (dspeed & -> & Hdpos).
  destruct (upload_phase_total (Native.upload_answers w)
              (fst (Native.upload_clock w)) (snd (Native.upload_clock w)))
    as (uspeed & ->).
  eexists. split; [reflexivity|]. cbn [r_bytes_sent r_bytes_received].
  repeat split; try assumption. lia.
Qed.

Lemma native_raises_not_retried (w : Native.world)
      (tester : Throughput.client) (cached : list Directory.server)
      (given : option Directory.server) (server_id : option Z)
      (custom_server_url : option string) (timeout : Z) (e : exn) :
  Native.run_speed_test w tester cached given server_id custom_server_url
                        timeout = Native.outcome (raises e) ->
  retryable e = false.
Proof.
  unfold Native.run_speed_test.
  destruct (Native.choose_server _ _ _ _ _) as [s|wanted|];
    [|now intros [= <-]|discriminate].
  destruct (Native.interrupted w) as [e'|].
  - intros [= <-]. apply convert_not_retried.
  - destruct (Native.measure w tester); discriminate.
Qed.

(** X4.  A call of the native client never ends in an [IndexError] or a
    [ZeroDivisionError]: it returns a result, whose byte counts are the
    totals of the two phases and are not negative, or it raises an exception
    that the coordinator does not retry (a timeout or a client error inside
    the test has become a [NetworkError]). *)
Theorem native_client_ends (w : Native.world) (tester : Throughput.client)
        (cached : list Directory.server) (given : option Directory.server)
        (server_id : option Z) (custom_server_url : option string)
        (timeout : Z) :
  exists o,
    Native.run_speed_test w tester cached given server_id custom_server_url
                          timeout = Native.outcome o /\
    match o with
    | result r =>
        r_bytes_received r = Native.counted_total (Native.download_steps w) /\
        r_bytes_sent r
        = (1048576
           * Z.of_nat (List.length (filter Native.upload_accepted
                                           (Native.upload_answers w))))%Z /\
        (0 <= r_bytes_received r)%Z /\ (0 <= r_bytes_sent r)%Z
    | raises e => retryable e = false
    end.
Proof.
  unfold Native.run_speed_test.
  assert (Hbody : forall s : Directory.server,
    exists o,
      match Native.interrupted w with
      | Some e => Native.outcome (raises (Native.convert timeout e))
      | None => match Native.measure w tester with
                | Some r => Native.outcome (result r)
                | None => Native.zero_division
                end
      end = Native.outcome o /\
      match o with
      | result r =>
          r_bytes_received r = Native.counted_total (Native.download_steps w) /\
          r_bytes_sent r
          = (1048576
             * Z.of_nat (List.length (filter Native.upload_accepted
                                             (Native.upload_answers w))))%Z /\
          (0 <= r_bytes_received r)%Z /\ (0 <= r_bytes_sent r)%Z
      | raises e => retryable e = false
      end).
  { intros _. destruct (Native.interrupted w) as [e|].
    - eexists. split; [reflexivity|]. apply convert_not_retried.
    - destruct (measure_some w tester) as (r & -> & H).
      eexists. split; [reflexivity | exact H]. }
  assert (Hlisted :
    match Native.choose_listed w cached given server_id with
    | Native.index_error => False
    | _ => True
    end).
  { unfold Native.choose_listed. destruct server_id as [wanted|].
    - destruct (find _ _); exact I.
    - destruct given; [exact I|].
      pose proof (get_best_server_some (Native.latency_get w) _
                    (known_servers_nonempty w cached)) as Hbest.
      destruct (Native.get_best_server _ _); [exact I | now destruct Hbest]. }
  unfold Native.choose_server.
  destruct custom_server_url as [[|c rest]|].
  2: apply (Hbody (fst (Adapter._create_custom_server
                         (Native.detect w) (String c rest)))).
  all: destruct (Native.choose_listed w cached given server_id) as [s|wanted|];
    [ apply (Hbody s)
    | eexists; split; [reflexivity | reflexivity]
    | destruct Hlisted ].
Qed.

Lemma prepare_not_retried (h : CLI.host) (server_id : option Z)
      (custom_server : option string) (skip : bool) (e : exn) :
  CLI.prepare h server_id custom_server skip = CLI.invalid e ->
  retryable e = false.
Proof.
  unfold CLI.prepare. destruct server_id as [n|].
  - destruct (_ || _); [|discriminate]. now intros [= <-].
  - destruct custom_server as [[|c rest]|]; try discriminate.
    destruct (negb _); [now intros [= <-]|].
    destruct (CLI.custom_server_json h _) as [[|c' rest']|];
      try discriminate; now intros [= <-].
Qed.

Lemma cli_outcome_not_retried (h : CLI.host) (server_id : option Z)
      (custom_server : option string) (skip_cert_verify : bool)
      (timeout : Z) (e : exn) :
  CLI.run_speed_test h server_id custom_server skip_cert_verify timeout
  = raises e -> retryable e = false.
Proof.
  unfold CLI.run_speed_test.
  destruct (CLI.cli_exists h); cbn [negb]; [|now intros [= <-]].
  destruct (CLI.prepare h server_id custom_server skip_cert_verify)
    as [cmd stdin_data|e'] eqn:P.
  - destruct (CLI.subprocess h cmd stdin_data) as [|error|code stderr out];
      try (now intros [= <-]).
    destruct (negb _); [now intros [= <-]|].
    destruct out as [error|[|r rs]]; try (now intros [= <-]).
    destruct (CLI.j_timestamp r) as [[|text]|]; try discriminate.
    now intros [= <-].
  - intros [= <-]. exact (prepare_not_retried _ _ _ _ _ P).
Qed.

(** X5.  Whatever the binary does, an exception that leaves the CLI
    backend is one that the coordinator does not retry; a run that times out
    raises [SpeedTestTimeoutError] with a message that names 120 seconds
    whatever timeout was asked for. *)
Theorem cli_errors_not_retried (h : CLI.host) (server_id : option Z)
        (custom_server : option string) (skip_cert_verify : bool)
        (timeout : Z) :
  (forall e,
     CLI.run_speed_test h server_id custom_server skip_cert_verify timeout
     = raises e -> retryable e = false) /\
  (forall cmd stdin_data,
     CLI.cli_exists h = true ->
     CLI.prepare h server_id custom_server skip_cert_verify
     = CLI.ready cmd stdin_data ->
     CLI.subprocess h cmd stdin_data = CLI.timed_out ->
     CLI.run_speed_test h server_id custom_server skip_cert_verify timeout
     = raises {| cls := SpeedTestTimeoutError;
                 message := "Speed test timed out after 120 seconds" |}).
Proof.
  split.
  - intros e. apply cli_outcome_not_retried.
  - intros cmd stdin_data Hexists Hready Hrun. unfold CLI.run_speed_test.
    now rewrite Hexists, Hready, Hrun.
Qed.

Lemma cli_errors_not_retried_witness :
  CLI.run_speed_test slow_host (Some 7%Z) None false 240
  = raises {| cls := SpeedTestTimeoutError;
              message := "Speed test timed out after 120 seconds" |}
  /\ retryable {| cls := SpeedTestTimeoutError;
                  message := "Speed test timed out after 120 seconds" |}
     = false.
Proof.
  destruct (cli_errors_not_retried slow_host (Some 7%Z) None false 240)
    as [Hnot Htimeout].
  assert (H : CLI.run_speed_test slow_host (Some 7%Z) None false 240
              = raises {| cls := SpeedTestTimeoutError;
                          message := "Speed test timed out after 120 seconds" |})
    by (eapply Htimeout; reflexivity).
  split; [exact H | exact (Hnot _ H)].
Defined.

End BackendOutcomes.

(** ** Updates with the two backends *)

Section BackendRuns.

Import Exc Coordinator Backends.
Local Open Scope string_scope.

(** When the first attempt is not retried, there is no second one. *)
Lemma run_unretried (client : nat -> attempt_outcome) (now : Q)
      (self : coordinator) :
  retried (client 0%nat) = false ->
  let x := _run_speed_test client now self in
  sleeps (effects_of x) = [] /\
  network_io (effects_of x) = [client_run_speed_test 0] /\
  (_consecutive_failures (state_after x) = 0%Z
   \/ _consecutive_failures (state_after x) = _consecutive_failures self) /\
  match client 0%nat with
  | result r => exists p, outcome_of x = Return p
  | raises e =>
      match except_clause e with
      | uncaught => outcome_of x = Raise (propagated e)
      | _ => exists msg, outcome_of x = Raise (UpdateFailed msg (Some e))
      end
  end.
Proof.
  intros H. cbv zeta.
  unfold _run_speed_test, state_after, outcome_of, effects_of.
  cbn [seq Const.MAX_RETRIES attempts].
  destruct (client 0%nat) as [r|e].
  - unfold on_result. cbn. repeat split; eauto.
  - unfold retried, retryable in H.
    destruct (except_clause e); try discriminate; cbn; repeat split; eauto.
Qed.

Lemma update_unretried (env : environment) (self : coordinator) :
  (forall attempt, retried (client env attempt) = false) ->
  let x := _async_update_data env self in
  sleeps (effects_of x) = [] /\
  (List.length (network_io (effects_of x)) <= 1)%nat /\
  (_consecutive_failures (state_after x) = 0%Z
   \/ _consecutive_failures (state_after x) = _consecutive_failures self).
Proof.
  intros H. cbv zeta. unfold _async_update_data.
  destruct (Const.CIRCUIT_BREAKER_OPEN_THRESHOLD <=? _consecutive_failures self)%Z.
  { cbn. repeat split; auto. }
  assert (Hrun : forall client s,
            retried (client 0%nat) = false ->
            _consecutive_failures s = _consecutive_failures self ->
            let x := _run_speed_test client (current_time env) s in
            sleeps (update_listeners :: effects_of x) = [] /\
            (List.length (network_io (update_listeners :: effects_of x)) <= 1)%nat /\
            (_consecutive_failures (state_after x) = 0%Z
             \/ _consecutive_failures (state_after x)
                = _consecutive_failures self)).
  { intros client s Hc Hs.
    destruct (run_unretried client (current_time env) s Hc) as (R1 & R2 & R3 & _).
    cbv zeta. change (sleeps (update_listeners :: ?l)) with (sleeps l).
    change (network_io (update_listeners :: ?l)) with (network_io l).
    rewrite R1, R2, <- Hs. repeat split; [cbn; lia | exact R3]. }
  destruct (lock_locked env).
  - destruct (wait env) as [| |k].
    + cbn. repeat split; auto.
    + specialize (Hrun (client env)
                       (set_is_waiting false (set_is_waiting true self))
                       (H 0%nat) eq_refl).
      cbv zeta in Hrun. unfold state_after, effects_of in *.
      destruct (_run_speed_test _ _ _) as [[s o] effects]. exact Hrun.
    + set (cut := fun attempt : nat =>
                    if (attempt =? k)%nat then raises deadline_cancel
                    else client env attempt).
      assert (Hcut : retried (cut 0%nat) = false).
      { unfold cut. destruct (0 =? k)%nat; [reflexivity | apply H]. }
      specialize (Hrun cut (set_is_waiting false (set_is_waiting true self))
                       Hcut eq_refl).
      cbv zeta in Hrun. unfold state_after, effects_of in *.
      destruct (_run_speed_test cut _ _) as [[s o] effects].
      destruct (started k effects); exact Hrun.
  - destruct (run_unretried (client env) (current_time env) self (H 0%nat))
      as (R1 & R2 & R3 & _).
    rewrite R1, R2. repeat split; [cbn; lia | exact R3].
Qed.

Lemma backend_not_retried (o : attempt_outcome) :
  from_native o \/ from_cli o -> retried o = false.
Proof.
  intros [(w & tester & cached & server_id & custom & t & H)
         |(h & server_id & custom & skip & t & H)].
  - unfold native_call in H.
    destruct o as [r|e]; [reflexivity|].
    exact (native_raises_not_retried _ _ _ _ _ _ _ _ H).
  - unfold cli_call in H. destruct o as [r|e]; [reflexivity|].
    exact (cli_outcome_not_retried _ _ _ _ _ _ H).
Qed.

(** X6.  With either backend as the client, an update never reaches a second
    attempt: it makes at most one call of the client and never sleeps, and
    it leaves the failure counter as it was or at 0; the counter is never
    increased. *)
Theorem backends_never_retried (env : environment) (self : coordinator) :
  (forall attempt, from_native (client env attempt)
                   \/ from_cli (client env attempt)) ->
  let x := _async_update_data env self in
  sleeps (effects_of x) = [] /\
  (List.length (network_io (effects_of x)) <= 1)%nat /\
  (_consecutive_failures (state_after x) = 0%Z
   \/ _consecutive_failures (state_after x) = _consecutive_failures self).
Proof.
  intros H. apply update_unretried.
  intros attempt. apply backend_not_retried, H.
Qed.

Lemma backends_never_retried_witness :
  sleeps (effects_of
            (_async_update_data
               (quiet (fun _ => raises (Native.convert 240 timeout_error)))
               (init None))) = [].
Proof.
  destruct (backends_never_retried
              (quiet (fun _ => raises (Native.convert 240 timeout_error)))
              (init None)) as [H _].
  - intros attempt. left.
    exists offline, no_tester, [], None, None, 240%Z. reflexivity.
  - exact H.
Defined.

Lemma find_nothing {A : Type} (f : A -> bool) (l : list A) :
  (forall x, In x l -> f x = false) -> find f l = None.
Proof.
  induction l as [|a l IH]; intros H; [reflexivity|].
  cbn [find]. rewrite (H a (or_introl eq_refl)).
  apply IH. intros x Hx. apply H. now right.
Qed.

(** X7.  When no server of the directory has the wanted id, the native
    client raises [ServerNotFoundError] before any measurement, and the
    coordinator lets that exception through as it is: one call of the
    client, no sleep, no [UpdateFailed], the failure counter unchanged. *)
Theorem unknown_server_id (w : Native.world) (tester : Throughput.client)
        (cached : list Directory.server) (wanted timeout : Z)
        (env : environment) (self : coordinator) :
  (forall s, In s (Native.known_servers w cached) -> Directory.id s <> wanted) ->
  let e := {| cls := ServerNotFoundError;
              message := "Server ID " ++ Native.str_int wanted
                         ++ " not found" |} in
  native_call w tester cached (Some wanted) None timeout
  = Native.outcome (raises e) /\
  (client env 0%nat = raises e ->
   lock_locked env = false ->
   (_consecutive_failures self < Const.CIRCUIT_BREAKER_OPEN_THRESHOLD)%Z ->
   let x := _async_update_data env self in
   outcome_of x = Raise (propagated e) /\
   network_io (effects_of x) = [client_run_speed_test 0] /\
   sleeps (effects_of x) = [] /\
   _consecutive_failures (state_after x) = _consecutive_failures self /\
   same_counters self (state_after x)).
Proof.
  intros Hnone. cbv zeta. split.
  - unfold native_call, Native.run_speed_test, Native.choose_server,
      Native.choose_listed.
    rewrite find_nothing; [reflexivity|].
    intros s Hs. apply Z.eqb_neq. now apply Hnone.
  - intros Hclient Hlock Hclosed.
    unfold _async_update_data.
    apply Z.leb_gt in Hclosed. rewrite Hclosed, Hlock.
    unfold _run_speed_test, state_after, outcome_of, effects_of.
    cbn [seq Const.MAX_RETRIES attempts]. rewrite Hclient.
    cbn. repeat split.
Qed.

Lemma unknown_server_id_witness :
  native_call offline no_tester [] (Some 7%Z) None 240
  = Native.outcome (raises {| cls := ServerNotFoundError;
                              message := "Server ID 7 not found" |}).
Proof.
  destruct (unknown_server_id offline no_tester [] 7 240
              (quiet always_times_out) (init None)) as [H _].
  - intros s [<-|[]]. discriminate.
  - exact H.
Defined.



End BackendRuns.

(** ** Flags, data and the store *)

Section CoordinatorLifecycle.

Import Exc Coordinator Lifecycle.
Local Open Scope string_scope.

Lemma attempts_keep (client : nat -> attempt_outcome) (todo : list nat)
      (self : coordinator) (last_error : option exn) :
  let s := fst (fst (attempts client todo self last_error)) in
  same_settings self s /\ is_running s = is_running self.
Proof.
  cbv zeta. revert last_error.
  induction todo as [|attempt rest IH]; intros last_error;
    cbn [attempts]; [repeat split|].
  destruct (client attempt) as [r|e]; [repeat split|].
  destruct (except_clause e).
  1,2: specialize (IH (Some e));
    destruct (attempts client rest self (Some e)) as [[s exit] effects];
    exact IH.
  all: repeat split.
Qed.

Lemma after_retries_keep (now : Q) (last_error : option exn)
      (self : coordinator) :
  let s := fst (fst (after_retries now last_error self)) in
  same_settings self s /\ is_running s = is_running self.
Proof.
  cbv zeta. unfold after_retries.
  destruct (truthy _ && _); [destruct (negb _)|]; repeat split.
Qed.

Lemma run_keep (client : nat -> attempt_outcome) (now : Q)
      (self : coordinator) :
  let s := state_after (_run_speed_test client now self) in
  same_settings self s /\ is_running s = false.
Proof.
  cbv zeta. unfold _run_speed_test, state_after.
  pose proof (attempts_keep client (seq 0 Const.MAX_RETRIES)
                (set_is_running true self) None) as A. cbv zeta in A.
  destruct (attempts client (seq 0 Const.MAX_RETRIES)
                     (set_is_running true self) None) as [[s exit] effects].
  unfold same_settings in *.
  cbn [fst snd custom_server data is_waiting set_is_running] in A.
  destruct A as [(A1 & A2 & A3) _].
  destruct exit as [p|f|last]; cbn [fst snd].
  1,2: repeat split; assumption.
  pose proof (after_retries_keep now last s) as B. cbv zeta in B.
  unfold same_settings in B.
  destruct (after_retries now last s) as [[s' out] more].
  cbn [fst snd] in *. destruct B as [(B1 & B2 & B3) _].
  cbn [custom_server data is_waiting is_running set_is_running].
  repeat split; congruence.
Qed.

Lemma update_keep (env : environment) (self : coordinator) :
  let s := state_after (_async_update_data env self) in
  custom_server s = custom_server self /\
  data s = data self /\
  (is_waiting self = false -> is_waiting s = false) /\
  (is_running self = false -> is_running s = false).
Proof.
  cbv zeta. unfold _async_update_data.
  destruct (Const.CIRCUIT_BREAKER_OPEN_THRESHOLD <=? _consecutive_failures self)%Z;
    [repeat split; trivial|].
  assert (Hrun : forall client,
            let s := state_after
                       (_run_speed_test client (current_time env)
                          (set_is_waiting false (set_is_waiting true self))) in
            custom_server s = custom_server self /\ data s = data self /\
            is_waiting s = false /\ is_running s = false).
  { intros client.
    destruct (run_keep client (current_time env)
                (set_is_waiting false (set_is_waiting true self)))
      as [(R1 & R2 & R3) R4].
    repeat split; assumption. }
  destruct (lock_locked env).
  - destruct (wait env) as [| |k].
    + repeat split; trivial.
    + specialize (Hrun (client env)). cbv zeta in Hrun. unfold state_after in *.
      destruct (_run_speed_test _ _ _) as [[s o] effects].
      cbn [fst] in *. destruct Hrun as (H1 & H2 & H3 & H4). repeat split; trivial.
    + set (cut := fun attempt : nat =>
                    if (attempt =? k)%nat then raises deadline_cancel
                    else client env attempt).
      specialize (Hrun cut). cbv zeta in Hrun. unfold state_after in *.
      destruct (_run_speed_test cut _ _) as [[s o] effects].
      cbn [fst] in *. destruct Hrun as (H1 & H2 & H3 & H4).
      destruct (started k effects); repeat split; trivial.
  - destruct (run_keep (client env) (current_time env) self)
      as [(R1 & R2 & R3) R4].
    repeat split; trivial. intros H. now rewrite R3.
Qed.





(** X11.  The record that a successful run saves holds the new counters
    but the result of the run before: [self.data] is not touched by
    [_async_update_data].  A coordinator set up from that record, without an
    unload in between, has the new counters and the older result; after the
    very first test it has counters but no result. *)
Theorem run_saves_previous_result (r : speed_result) (self : coordinator)
        (custom : option string) (env : environment) :
  let down := min2 (lifetime_download self + gigabytes (r_bytes_received r))
                   Const.MAX_LIFETIME_GB in
  let up := min2 (lifetime_upload self + gigabytes (r_bytes_sent r))
                 Const.MAX_LIFETIME_GB in
  saved_by_run r self
  = {| stored_lifetime_download := Some down;
       stored_lifetime_upload := Some up;
       last_test_data := data self |} /\
  In (store_save down up) (snd (on_result r self)) /\
  data (state_after (_async_update_data env self)) = data self /\
  lifetime_download (async_setup_entry custom (Some (saved_by_run r self)))
  = down /\
  data (async_setup_entry custom (Some (saved_by_run r self)))
  = option_map (with_lifetime down up) (data self) /\
  (data self = None ->
   data (async_setup_entry custom (Some (saved_by_run r self))) = None).
Proof.
  cbv zeta. split; [reflexivity|]. split; [now left|].
  split; [apply update_keep|].
  unfold async_setup_entry, saved_by_run, _async_load_lifetime_data, save_data.
  cbn [last_test_data stored_lifetime_download stored_lifetime_upload
       Directory.get on_result fst snd data set_consecutive_failures
       set_lifetime].
  destruct (data self); repeat split; discriminate.
Qed.

Lemma run_saves_previous_result_witness :
  data (async_setup_entry None (Some (saved_by_run sample_result (init None))))
  = None
  /\ lifetime_download
       (async_setup_entry None (Some (saved_by_run sample_result (init None))))
     == 19 # 100.
Proof.
  destruct (run_saves_previous_result sample_result (init None) None
              (quiet always_times_out)) as (_ & _ & _ & Hdown & _ & Hnone).
  split; [apply Hnone; reflexivity|].
  rewrite Hdown. reflexivity.
Defined.

(** *** The circuit breaker over a series of updates *)

Lemma update_when_open (env : environment) (self : coordinator) :
  (Const.CIRCUIT_BREAKER_OPEN_THRESHOLD <= _consecutive_failures self)%Z ->
  _async_update_data env self
  = (self, data_or_fail circuit_open_message self, []).
Proof.
  intros H. unfold _async_update_data. apply Z.leb_le in H. now rewrite H.
Qed.

Lemma fails_runs (env : environment) (self : coordinator) :
  fails env ->
  (_consecutive_failures self < Const.CIRCUIT_BREAKER_OPEN_THRESHOLD)%Z ->
  runs env self = true
  /\ decisive (seen env) (seq 0 Const.MAX_RETRIES) = None.
Proof.
  intros [Hall Hwait] Hclosed. split.
  - unfold runs. apply Z.leb_gt in Hclosed. rewrite Hclosed. cbn [negb andb].
    destruct (lock_locked env); [|reflexivity].
    destruct (wait env); try reflexivity. now destruct (Hwait eq_refl).
  - unfold all_retried in Hall.
    destruct (decisive (seen env) (seq 0 Const.MAX_RETRIES));
      [discriminate | reflexivity].
Qed.

Lemma refresh_fails (env : environment) (self : coordinator) :
  fails env ->
  (_consecutive_failures self < Const.CIRCUIT_BREAKER_OPEN_THRESHOLD)%Z ->
  _consecutive_failures (state_after (async_refresh env self))
  = (_consecutive_failures self + 1)%Z.
Proof.
  intros Hfails Hclosed.
  destruct (fails_runs env self Hfails Hclosed) as [Hruns Hnone].
  destruct (refresh_state env self) as [-> _].
  pose proof (update_course env self) as U. cbv zeta in U.
  rewrite Hruns, Hnone in U. apply U.
Qed.

Lemma refresh_when_open (env : environment) (self : coordinator) :
  (Const.CIRCUIT_BREAKER_OPEN_THRESHOLD <= _consecutive_failures self)%Z ->
  let x := async_refresh env self in
  effects_of x = [] /\
  _consecutive_failures (state_after x) = _consecutive_failures self /\
  same_counters self (state_after x) /\
  data (state_after x) = data self.
Proof.
  intros H. cbv zeta. unfold async_refresh.
  rewrite (update_when_open env self H). unfold data_or_fail.
  destruct (data self) eqn:E; cbn; repeat split; now rewrite ?E.
Qed.

(** X12.  A series of updates that all fail after three retried attempts
    raises the failure counter by one each, up to 10, where it stays: from
    [n <= 10] the counter after the series is [min(n + length, 10)]. *)
Theorem failing_streak (envs : list environment) (self : coordinator) :
  Forall fails envs ->
  (0 <= _consecutive_failures self <= Const.CIRCUIT_BREAKER_OPEN_THRESHOLD)%Z ->
  _consecutive_failures (fst (refreshes envs self))
  = Z.min (_consecutive_failures self + Z.of_nat (List.length envs))
          Const.CIRCUIT_BREAKER_OPEN_THRESHOLD.
Proof.
  intros Hall. revert self.
  induction Hall as [|env envs Hfails _ IH]; intros self Hn.
  - cbn. lia.
  - cbn [refreshes].
    destruct (async_refresh env self) as [[self' out] effects] eqn:E.
    assert (Hstep : _consecutive_failures self'
                    = Z.min (_consecutive_failures self + 1)
                            Const.CIRCUIT_BREAKER_OPEN_THRESHOLD).
    { destruct (Z.eq_dec (_consecutive_failures self)
                         Const.CIRCUIT_BREAKER_OPEN_THRESHOLD) as [Heq|Hne].
      - destruct (refresh_when_open env self) as (_ & H & _); [lia|].
        rewrite E in H. cbn in H. lia.
      - pose proof (refresh_fails env self Hfails) as H.
        rewrite E in H. cbn in H. lia. }
    specialize (IH self').
    destruct (refreshes envs self') as [final more]. cbn [fst] in *.
    rewrite IH; [|lia]. rewrite Hstep. cbn [List.length]. lia.
Qed.

Lemma failing_streak_witness :
  _consecutive_failures
    (fst (refreshes (repeat (quiet always_times_out) 12) (init None))) = 10%Z.
Proof.
  rewrite (failing_streak (repeat (quiet always_times_out) 12) (init None)).
  - reflexivity.
  - apply Forall_forall. intros env Henv. apply repeat_spec in Henv. subst env.
    split; [reflexivity | discriminate].
  - vm_compute. split; discriminate.
Defined.

(** X13.  Once the failure counter has reached 10, a series of automatic
    updates, whatever the network would do, makes the coordinator do
    nothing: no call of the client, no sleep, no save, no issue created or
    deleted, no update of the listeners of its own; the counters, the
    failure counter and the data stay as they are. *)
Theorem open_circuit_is_silent (envs : list environment)
        (self : coordinator) :
  (Const.CIRCUIT_BREAKER_OPEN_THRESHOLD <= _consecutive_failures self)%Z ->
  snd (refreshes envs self) = [] /\
  _consecutive_failures (fst (refreshes envs self))
  = _consecutive_failures self /\
  same_counters self (fst (refreshes envs self)) /\
  data (fst (refreshes envs self)) = data self.
Proof.
  revert self. induction envs as [|env envs IH]; intros self Hopen.
  - repeat split.
  - cbn [refreshes].
    destruct (refresh_when_open env self Hopen) as (H1 & H2 & [H3 H4] & H5).
    destruct (async_refresh env self) as [[self' out] effects].
    unfold effects_of, state_after in *. cbn [fst snd] in *. subst effects.
    specialize (IH self'). rewrite H2 in IH. specialize (IH Hopen).
    destruct (refreshes envs self') as [final more]. cbn [fst snd] in *.
    destruct IH as (I1 & I2 & [I3 I4] & I5).
    repeat split; cbn; congruence.
Qed.

Lemma open_circuit_is_silent_witness :
  snd (refreshes [quiet (fun _ => result sample_result)]
                 (set_consecutive_failures 10 (init None))) = [].
Proof.
  apply (open_circuit_is_silent [quiet (fun _ => result sample_result)]
           (set_consecutive_failures 10 (init None))).
  vm_compute. discriminate.
Defined.

(** *** What a failed run leaves behind *)

Lemma decisive_cons (client : nat -> attempt_outcome) (attempt : nat)
      (rest : list nat) :
  decisive client (attempt :: rest) = None ->
  (exists e, client attempt = raises e /\ retryable e = true)
  /\ decisive client rest = None.
Proof.
  unfold decisive. cbn [find].
  destruct (client attempt) as [r|e] eqn:E; cbn [retried negb];
    [discriminate|].
  destruct (retryable e) eqn:R; cbn [negb]; [|discriminate].
  intros H. split; [now exists e | exact H].
Qed.

Lemma attempts_exhausted (client : nat -> attempt_outcome) (todo : list nat)
      (self : coordinator) (last_error : option exn) :
  decisive client todo = None ->
  let x := attempts client todo self last_error in
  fst (fst x) = self /\
  (exists last,
     snd (fst x) = exhausted last /\
     (todo = [] -> last = last_error) /\
     (todo <> [] -> exists e, last = Some e /\ retryable e = true)) /\
  network_io (snd x) = map client_run_speed_test todo /\
  (forall id, ~ In (issue_create id) (snd x)).
Proof.
  revert last_error.
  induction todo as [|attempt rest IH]; intros last_error Hnone; cbv zeta.
  - cbn [attempts fst snd]. repeat split.
    + exists last_error. split; [reflexivity|]. split; [trivial|].
      intros H. now destruct H.
    + intros id [].
  - destruct (decisive_cons client attempt rest Hnone) as [(e & Hc & Hr) Hrest].
    specialize (IH (Some e) Hrest). cbv zeta in IH.
    cbn [attempts]. rewrite Hc.
    assert (Hclause : except_clause e = except_timeout
                      \/ except_clause e = except_client_error).
    { destruct (retryable_clause e Hr) as [[H _]|[H _]]; auto. }
    destruct (attempts client rest self (Some e)) as [[s ex] effects].
    cbn [fst snd] in IH. destruct IH as (I1 & (last & I2 & I3 & I4) & I5 & I6).
    assert (Hlast : exists e', last = Some e' /\ retryable e' = true).
    { destruct rest as [|b rest'].
      - exists e. split; [now apply I3 | exact Hr].
      - apply I4. discriminate. }
    destruct Hclause as [-> | ->]; cbn [fst snd];
      (repeat split;
       [ exact I1
       | exists last; split; [exact I2|]; split;
         [discriminate | intros _; exact Hlast]
       | destruct (attempt <? Const.MAX_RETRIES - 1)%nat;
         cbn [network_io filter map]; fold (network_io effects);
         now rewrite I5
       | intros id Hin;
         destruct (attempt <? Const.MAX_RETRIES - 1)%nat;
         cbn [In] in Hin;
         repeat (destruct Hin as [Hin|Hin]; [discriminate|]);
         exact (I6 id Hin) ]).
Qed.

Lemma after_retries_issues (now : Q) (last_error : option exn)
      (self : coordinator) :
  let effects := snd (after_retries now last_error self) in
  network_io effects = [] /\
  (In (issue_create "repeated_test_failures") effects
   <-> (_consecutive_failures self + 1
        = Const.CIRCUIT_BREAKER_WARNING_THRESHOLD)%Z) /\
  (In (issue_create "circuit_breaker_open") effects
   <-> (_consecutive_failures self + 1
        = Const.CIRCUIT_BREAKER_OPEN_THRESHOLD)%Z).
Proof.
  cbv zeta. unfold after_retries.
  destruct (truthy _ && _); [destruct (negb _)|];
    cbn [_consecutive_failures set_consecutive_failures
         set_last_custom_server_error snd app];
    destruct (Z.eqb_spec (_consecutive_failures self + 1)
                         Const.CIRCUIT_BREAKER_WARNING_THRESHOLD) as [H5|H5];
    try destruct (Z.eqb_spec (_consecutive_failures self + 1)
                             Const.CIRCUIT_BREAKER_OPEN_THRESHOLD) as [H10|H10];
    cbn [network_io filter In];
    (split; [reflexivity|]);
    (split; split; intros H;
     repeat match goal with
            | H : _ \/ _ |- _ => destruct H
            | H : False |- _ => destruct H
            | H : issue_create _ = issue_create _ |- _ => discriminate H
            end;
     try tauto; try (exfalso; unfold Const.CIRCUIT_BREAKER_WARNING_THRESHOLD,
                       Const.CIRCUIT_BREAKER_OPEN_THRESHOLD in *; lia)).
Qed.

Lemma run_exhausted (client : nat -> attempt_outcome) (now : Q)
      (self : coordinator) :
  decisive client (seq 0 Const.MAX_RETRIES) = None ->
  let x := _run_speed_test client now self in
  network_io (effects_of x)
  = map client_run_speed_test (seq 0 Const.MAX_RETRIES) /\
  (In (issue_create "repeated_test_failures") (effects_of x)
   <-> (_consecutive_failures self + 1
        = Const.CIRCUIT_BREAKER_WARNING_THRESHOLD)%Z) /\
  (In (issue_create "circuit_breaker_open") (effects_of x)
   <-> (_consecutive_failures self + 1
        = Const.CIRCUIT_BREAKER_OPEN_THRESHOLD)%Z) /\
  (exists f, outcome_of x = Raise f).
Proof.
  intros Hnone. cbv zeta. unfold _run_speed_test.
  pose proof (attempts_exhausted client (seq 0 Const.MAX_RETRIES)
                (set_is_running true self) None Hnone) as A.
  cbv zeta in A.
  destruct (attempts client (seq 0 Const.MAX_RETRIES)
              (set_is_running true self) None) as [[s ex] loop].
  cbn [fst snd] in A. destruct A as (-> & (last & -> & _ & Hlast) & Hio & Hno).
  destruct Hlast as (e & -> & Hr); [discriminate|].
  pose proof (after_retries_issues now (Some e) (set_is_running true self)) as I.
  cbv zeta in I.
  assert (Hout : exists f,
             snd (fst (after_retries now (Some e) (set_is_running true self)))
             = Raise f).
  { unfold after_retries.
    destruct (truthy _ && _); [destruct (negb _)|]; cbn [fst snd];
      (destruct (retryable_clause e Hr) as [[_ H]|[_ [H1 H2]]];
       [rewrite H | rewrite H1, H2]; eexists; reflexivity). }
  destruct (after_retries now (Some e) (set_is_running true self))
    as [[s out] more].
  cbn [fst snd _consecutive_failures set_is_running] in *.
  destruct I as (I0 & I5 & I10).
  unfold effects_of, outcome_of. cbn [fst snd].
  assert (Hin : forall id,
            In (issue_create id)
               (update_listeners :: (loop ++ more) ++ [update_listeners])
            <-> In (issue_create id) more).
  { intros id. split.
    - intros [H|H]; [discriminate|].
      apply in_app_or in H. destruct H as [H|[H|[]]]; [|discriminate].
      apply in_app_or in H. destruct H as [H|H]; [|exact H].
      now destruct (Hno id H).
    - intros H. right. apply in_or_app. left. apply in_or_app. now right. }
  repeat split.
  - unfold network_io in *. cbn [filter]. rewrite !filter_app.
    rewrite Hio, I0. cbn [filter]. now rewrite !app_nil_r.
  - intros H. apply I5. now apply Hin.
  - intros H. apply Hin. now apply I5.
  - intros H. apply I10. now apply Hin.
  - intros H. apply Hin. now apply I10.
  - exact Hout.
Qed.

Lemma update_runs_as (env : environment) (self : coordinator) :
  runs env self = true ->
  exists s0,
    _consecutive_failures s0 = _consecutive_failures self /\
    let r := _run_speed_test (seen env) (current_time env) s0 in
    state_after (_async_update_data env self) = state_after r /\
    (effects_of (_async_update_data env self) = effects_of r
     \/ effects_of (_async_update_data env self)
        = update_listeners :: effects_of r).
Proof.
  unfold runs, seen, _async_update_data.
  destruct (Const.CIRCUIT_BREAKER_OPEN_THRESHOLD <=? _consecutive_failures self)%Z;
    [discriminate|].
  destruct (lock_locked env).
  - destruct (wait env) as [| |k]; [discriminate| |]; intros _;
      exists (set_is_waiting false (set_is_waiting true self));
      (split; [reflexivity|]); cbv zeta.
    + destruct (_run_speed_test _ _ _) as [[s o] effects].
      split; [reflexivity | now right].
    + destruct (_run_speed_test _ _ _) as [[s o] effects].
      destruct (started k effects); (split; [reflexivity | now right]).
  - intros _. exists self. split; [reflexivity|]. cbv zeta.
    split; [reflexivity | now left].
Qed.

Lemma refresh_exhausted (env : environment) (self : coordinator) :
  fails env ->
  (_consecutive_failures self < Const.CIRCUIT_BREAKER_OPEN_THRESHOLD)%Z ->
  let x := async_refresh env self in
  network_io (effects_of x)
  = map client_run_speed_test (seq 0 Const.MAX_RETRIES) /\
  (In (issue_create "repeated_test_failures") (effects_of x)
   <-> (_consecutive_failures self + 1
        = Const.CIRCUIT_BREAKER_WARNING_THRESHOLD)%Z) /\
  (In (issue_create "circuit_breaker_open") (effects_of x)
   <-> (_consecutive_failures self + 1
        = Const.CIRCUIT_BREAKER_OPEN_THRESHOLD)%Z).
Proof.
  intros Hfails Hclosed. cbv zeta.
  destruct (fails_runs env self Hfails Hclosed) as [Hruns Hnone].
  destruct (refresh_state env self) as (_ & _ & _ & ->).
  destruct (update_runs_as env self Hruns) as (s0 & Hn & _ & Heff).
  destruct (run_exhausted (seen env) (current_time env) s0 Hnone)
    as (R0 & R5 & R10 & _).
  rewrite Hn in R5, R10.
  destruct Heff as [-> | ->].
  - repeat split; try assumption; [apply R5 | apply R5 | apply R10 | apply R10].
  - repeat split.
    + exact R0.
    + intros [H|H]; [discriminate | now apply R5].
    + intros H. right. now apply R5.
    + intros [H|H]; [discriminate | now apply R10].
    + intros H. right. now apply R10.
Qed.

(** X14.  An automatic update that fails after its three retried attempts
    creates the repair issue "repeated_test_failures" exactly when this is
    the fifth failure in a row, and the issue "circuit_breaker_open" exactly
    when it is the tenth; on every other failure neither is created. *)
Theorem issues_at_thresholds (env : environment) (self : coordinator) :
  fails env ->
  (_consecutive_failures self < Const.CIRCUIT_BREAKER_OPEN_THRESHOLD)%Z ->
  let x := async_refresh env self in
  (In (issue_create "repeated_test_failures") (effects_of x)
   <-> _consecutive_failures (state_after x) = 5%Z) /\
  (In (issue_create "circuit_breaker_open") (effects_of x)
   <-> _consecutive_failures (state_after x) = 10%Z).
Proof.
  intros Hfails Hclosed. cbv zeta.
  rewrite (refresh_fails env self Hfails Hclosed).
  destruct (refresh_exhausted env self Hfails Hclosed) as (_ & H5 & H10).
  split; assumption.
Qed.

Lemma issues_at_thresholds_witness :
  In (issue_create "repeated_test_failures")
     (effects_of (async_refresh (quiet always_times_out)
                    (set_consecutive_failures 4 (init None)))).
Proof.
  apply (issues_at_thresholds (quiet always_times_out)
           (set_consecutive_failures 4 (init None))).
  - split; [reflexivity | discriminate].
  - reflexivity.
  - reflexivity.
Defined.

(** X15.  The manual trigger on an open circuit: when the failure counter is
    at 10 or more and the test fails again after its retried attempts, the
    three attempts are made, the counter is back at exactly 10 and the issue
    "circuit_breaker_open" is created again. *)
Theorem manual_trigger_reopens (env : environment) (self : coordinator) :
  (Const.CIRCUIT_BREAKER_OPEN_THRESHOLD <= _consecutive_failures self)%Z ->
  fails env ->
  let x := async_run_speedtest env self in
  network_io (effects_of x)
  = [client_run_speed_test 0; client_run_speed_test 1;
     client_run_speed_test 2] /\
  _consecutive_failures (state_after x) = 10%Z /\
  In (issue_create "circuit_breaker_open") (effects_of x) /\
  ~ In (issue_create "repeated_test_failures") (effects_of x).
Proof.
  intros Hopen Hfails. cbv zeta. unfold async_run_speedtest.
  assert (Hnine : _consecutive_failures (after_trigger self) = 9%Z).
  { unfold after_trigger. apply Z.leb_le in Hopen. now rewrite Hopen. }
  assert (Hclosed : (_consecutive_failures (after_trigger self)
                     < Const.CIRCUIT_BREAKER_OPEN_THRESHOLD)%Z).
  { rewrite Hnine. reflexivity. }
  destruct (refresh_exhausted env (after_trigger self) Hfails Hclosed)
    as (H0 & H5 & H10).
  rewrite Hnine in H5, H10.
  repeat split.
  - exact H0.
  - rewrite (refresh_fails env (after_trigger self) Hfails Hclosed).
    now rewrite Hnine.
  - apply H10. reflexivity.
  - intros H. apply H5 in H. discriminate H.
Qed.

Lemma manual_trigger_reopens_witness :
  _consecutive_failures
    (state_after (async_run_speedtest (quiet always_times_out)
                    (set_consecutive_failures 12 (init None)))) = 10%Z.
Proof.
  apply (manual_trigger_reopens (quiet always_times_out)
           (set_consecutive_failures 12 (init None))).
  - vm_compute. discriminate.
  - split; [reflexivity | discriminate].
Defined.

(** *** The data of the coordinator *)

Lemma run_outcome (client : nat -> attempt_outcome) (now : Q)
      (self : coordinator) :
  outcome_of (_run_speed_test client now self) <> ReturnNone.
Proof.
  destruct (decisive client (seq 0 Const.MAX_RETRIES)) as [attempt|] eqn:D.
  - pose proof (run_course client now self) as C. cbv zeta in C.
    rewrite D in C. destruct C as [_ C].
    destruct (client attempt) as [r|e].
    + destruct C as (_ & _ & _ & -> & _). discriminate.
    + destruct C as (_ & _ & f & -> & _). discriminate.
  - destruct (run_exhausted client now self D) as (_ & _ & _ & f & ->).
    discriminate.
Qed.

Lemma update_outcome (env : environment) (self : coordinator) :
  outcome_of (_async_update_data env self) <> ReturnNone.
Proof.
  assert (Hdata : forall msg s, data_or_fail msg s <> ReturnNone).
  { intros msg s. unfold data_or_fail. destruct (data s); discriminate. }
  unfold _async_update_data.
  destruct (Const.CIRCUIT_BREAKER_OPEN_THRESHOLD <=? _consecutive_failures self)%Z;
    [apply Hdata|].
  destruct (lock_locked env); [|apply run_outcome].
  destruct (wait env) as [| |k]; [apply Hdata| |].
  - pose proof (run_outcome (client env) (current_time env)
                  (set_is_waiting false (set_is_waiting true self))) as R.
    destruct (_run_speed_test _ _ _) as [[s o] effects]. exact R.
  - set (cut := fun attempt : nat =>
                  if (attempt =? k)%nat then raises deadline_cancel
                  else client env attempt).
    pose proof (run_outcome cut (current_time env)
                  (set_is_waiting false (set_is_waiting true self))) as R.
    destruct (_run_speed_test cut _ _) as [[s o] effects].
    destruct (started k effects); [apply Hdata | exact R].
Qed.

(** X16.  No update, refresh or manual test ever returns [None], although
    [_run_speed_test] has a path that falls off its end: the data of the
    coordinator is replaced only by a new result, and is kept as it is when
    the test fails or is not run. *)
Theorem known_good_result_kept (op : operation) (env : environment)
        (self : coordinator) :
  let x := perform op env self in
  outcome_of x <> ReturnNone /\
  (op <> update ->
   forall p, outcome_of x = Return p -> data (state_after x) = Some p) /\
  (forall f, outcome_of x = Raise f -> data (state_after x) = data self) /\
  (data self <> None -> data (state_after x) <> None).
Proof.
  cbv zeta.
  assert (Hrefresh : forall s,
            let x := async_refresh env s in
            outcome_of x <> ReturnNone /\
            (forall p, outcome_of x = Return p
                       -> data (state_after x) = Some p) /\
            (forall f, outcome_of x = Raise f
                       -> data (state_after x) = data s)).
  { intros s. cbv zeta. unfold async_refresh.
    pose proof (update_outcome env s) as O.
    destruct (update_keep env s) as (_ & K & _).
    unfold outcome_of, state_after in *.
    destruct (_async_update_data env s) as [[s' out] effects].
    cbn [fst snd] in *.
    destruct out as [p| |f]; cbn [fst snd]; repeat split;
      try discriminate; try congruence.
    intros p' H. cbn. congruence. }
  assert (Htrigger : data (after_trigger self) = data self).
  { unfold after_trigger. now destruct (_ <=? _)%Z. }
  assert (H : outcome_of (perform op env self) <> ReturnNone /\
              (op <> update ->
               forall p, outcome_of (perform op env self) = Return p ->
                         data (state_after (perform op env self)) = Some p) /\
              (forall f, outcome_of (perform op env self) = Raise f ->
                         data (state_after (perform op env self)) = data self)).
  { destruct op; cbn [perform].
    - split; [apply update_outcome|]. split; [intros H; now destruct H|].
      intros f _. apply (update_keep env self).
    - destruct (Hrefresh self) as (R1 & R2 & R3).
      split; [exact R1|]. split; [intros _; exact R2 | exact R3].
    - unfold async_run_speedtest.
      destruct (Hrefresh (after_trigger self)) as (R1 & R2 & R3).
      split; [exact R1|]. split; [intros _; exact R2|].
      intros f Hf. rewrite (R3 f Hf). exact Htrigger. }
  destruct H as (H1 & H2 & H3).
  split; [exact H1|]. split; [exact H2|]. split; [exact H3|].
  intros Hsome.
  destruct (outcome_of (perform op env self)) as [p| |f] eqn:O.
  - destruct op.
    + cbn [perform]. destruct (update_keep env self) as (_ & K & _).
      now rewrite K.
    + rewrite (H2 ltac:(discriminate) p eq_refl). discriminate.
    + rewrite (H2 ltac:(discriminate) p eq_refl). discriminate.
  - now destruct H1.
  - now rewrite (H3 f eq_refl).
Qed.

Lemma known_good_result_kept_witness :
  data (state_after
          (perform refresh (quiet always_times_out)
             (set_data (Some (_parse_result sample_result)) (init None))))
  <> None.
Proof.
  apply (known_good_result_kept refresh (quiet always_times_out)
           (set_data (Some (_parse_result sample_result)) (init None))).
  discriminate.
Defined.

End CoordinatorLifecycle.

(* ------------------------------------------------------------------ *)
(** ** The lifetime counters over a series of results *)

Section LifetimeTotals.

Import Coordinator Lifecycle.

Lemma min2_step (counter total more : Q) :
  0 <= more ->
  counter == min2 total Const.MAX_LIFETIME_GB ->
  min2 (counter + more) Const.MAX_LIFETIME_GB
  == min2 (total + more) Const.MAX_LIFETIME_GB.
Proof.
  unfold min2. intros Hmore.
  destruct (Qlt_le_dec Const.MAX_LIFETIME_GB total);
    destruct (Qlt_le_dec Const.MAX_LIFETIME_GB (counter + more));
    destruct (Qlt_le_dec Const.MAX_LIFETIME_GB (total + more));
    intros H; lra.
Qed.

Lemma accept_all_totals (rs : list speed_result) :
  Forall (fun r => (0 <= r_bytes_received r)%Z /\ (0 <= r_bytes_sent r)%Z) rs ->
  forall (self : coordinator) (received sent : Q),
    lifetime_download self == min2 received Const.MAX_LIFETIME_GB ->
    lifetime_upload self == min2 sent Const.MAX_LIFETIME_GB ->
    lifetime_download (accept_all rs self)
    == min2 (received_total rs received) Const.MAX_LIFETIME_GB /\
    lifetime_upload (accept_all rs self)
    == min2 (sent_total rs sent) Const.MAX_LIFETIME_GB.
Proof.
  induction 1 as [|r rs [Hr Hs] _ IH]; intros self received sent Hd Hu.
  - split; assumption.
  - unfold accept_all, received_total, sent_total in *. cbn [fold_left].
    apply IH.
    + unfold on_result. cbn [fst lifetime_download set_lifetime
                             set_consecutive_failures _parse_result
                             bytes_received].
      apply min2_step; [now apply gigabytes_nonneg | exact Hd].
    + unfold on_result. cbn [fst lifetime_upload set_lifetime
                             set_consecutive_failures _parse_result
                             bytes_sent].
      apply min2_step; [now apply gigabytes_nonneg | exact Hu].
Qed.

(** X17.  Over any series of accepted results the lifetime counters are the
    exact running totals cut at 1,000,000 GB: capping after every result
    gives the same value as capping the sum once, so no traffic is lost
    below the cap and the counter stays at the cap once it is reached. *)
Theorem lifetime_is_capped_sum (rs : list speed_result)
        (self : coordinator) :
  Forall (fun r => (0 <= r_bytes_received r)%Z /\ (0 <= r_bytes_sent r)%Z) rs ->
  lifetime_download self <= Const.MAX_LIFETIME_GB ->
  lifetime_upload self <= Const.MAX_LIFETIME_GB ->
  lifetime_download (accept_all rs self)
  == min2 (received_total rs (lifetime_download self)) Const.MAX_LIFETIME_GB /\
  lifetime_upload (accept_all rs self)
  == min2 (sent_total rs (lifetime_upload self)) Const.MAX_LIFETIME_GB /\
  _consecutive_failures (accept_all rs self)
  = match rs with
    | [] => _consecutive_failures self
    | _ :: _ => 0%Z
    end.
Proof.
  intros Hrs Hd Hu.
  assert (Hcap : forall x, x <= Const.MAX_LIFETIME_GB ->
                           x == min2 x Const.MAX_LIFETIME_GB).
  { intros x Hx. unfold min2.
    destruct (Qlt_le_dec Const.MAX_LIFETIME_GB x); lra. }
  destruct (accept_all_totals rs Hrs self (lifetime_download self)
              (lifetime_upload self) (Hcap _ Hd) (Hcap _ Hu)) as [H1 H2].
  split; [exact H1|]. split; [exact H2|].
  clear. destruct rs as [|r rs]; [reflexivity|].
  unfold accept_all. cbn [fold_left].
  generalize (eq_refl : _consecutive_failures (fst (fst (on_result r self)))
                        = 0%Z).
  generalize (fst (fst (on_result r self))) as s.
  induction rs as [|r' rs IH]; intros s Hs; [exact Hs|].
  cbn [fold_left]. apply IH. reflexivity.
Qed.

Lemma lifetime_is_capped_sum_witness :
  lifetime_download
    (accept_all [sample_result; sample_result] (init None))
  == min2 (received_total [sample_result; sample_result] 0)
          Const.MAX_LIFETIME_GB.
Proof.
  apply (lifetime_is_capped_sum [sample_result; sample_result] (init None)).
  - repeat constructor; discriminate.
  - vm_compute. discriminate.
  - vm_compute. discriminate.
Defined.

End LifetimeTotals.

(* ------------------------------------------------------------------ *)
(** ** The device action *)

Section DeviceAction.

Import Coordinator Entities.

Local Open Scope string_scope.

Lemma find_among_locks (of_device : coordinator -> bool)
      (domain : list (string * Repairs.domain_value)) :
  Repairs.only_locks domain -> find_coordinator of_device domain = None.
Proof.
  induction 1 as [|[key value] rest Hlock _ IH]; [reflexivity|].
  cbn [snd] in Hlock. subst value. exact IH.
Qed.

Lemma setups_only_locks (entries : nat) :
  Repairs.only_locks (Repairs.after_setups entries).
Proof.
  induction entries as [|k IH]; [constructor|].
  cbn [Repairs.after_setups]. unfold Repairs.async_setup_entry.
  destruct (existsb _ _); [exact IH|].
  apply Forall_app. split; [exact IH|]. now repeat constructor.
Qed.

(** X18.  The device action never starts a test: [hass.data[DOMAIN]] holds
    only the lock after any number of entries have been set up (the
    coordinators are in [entry.runtime_data]), so the search for the
    coordinator of the device finds nothing and the action ends in
    [InvalidDeviceAutomationConfig], for every device and every action
    type. *)
Theorem device_action_finds_nothing (action_type device_id : string)
        (of_device : coordinator -> bool) (entries : nat)
        (env : environment) :
  async_call_action_from_config action_type device_id of_device
    (Repairs.after_setups entries) env
  = InvalidDeviceAutomationConfig
      (if String.eqb action_type "run_speed_test"
       then "Could not find LibreSpeed instance for device " ++ device_id
       else "Unsupported action type " ++ action_type).
Proof.
  unfold async_call_action_from_config, ACTION_TYPES. cbn [existsb].
  rewrite (find_among_locks of_device _ (setups_only_locks entries)).
  rewrite orb_false_r.
  destruct (String.eqb action_type "run_speed_test"); reflexivity.
Qed.

End DeviceAction.

(* ------------------------------------------------------------------ *)
(** ** The entries made by the config flow and the options flow *)

Section Flows.

Import ConfigFlow.

Local Open Scope string_scope.

Lemma parsed_selection (int : string -> option Z) (server_selection : string) :
  let '(server_id, custom_server) :=
    _parse_server_selection int server_selection in
  custom_server = None /\
  (forall n, server_id = Some n ->
             (CLI.MIN_SERVER_ID <= n <= CLI.MAX_SERVER_ID)%Z
             /\ int server_selection = Some n).
Proof.
  unfold _parse_server_selection.
  destruct (String.eqb server_selection "automatic");
    [split; [reflexivity | discriminate]|].
  destruct (String.eqb server_selection "custom");
    [split; [reflexivity | discriminate]|].
  destruct (int server_selection) as [server_id|];
    [|split; [reflexivity | discriminate]].
  destruct (Z.ltb_spec server_id CLI.MIN_SERVER_ID) as [Hlow|Hlow];
    cbn [orb]; [split; [reflexivity | discriminate]|].
  destruct (Z.ltb_spec CLI.MAX_SERVER_ID server_id) as [Hhigh|Hhigh];
    (split; [reflexivity|]); [discriminate|].
  intros n [= <-]. split; [lia | reflexivity].
Qed.

Lemma selected_one_server (int : string -> option Z)
      (server_selection : string) (user_input : config)
      (skip_cert_verify : option bool) :
  let '(server_id, custom_server) :=
    _parse_server_selection int server_selection in
  one_server (selected_data server_id custom_server user_input
                            skip_cert_verify).
Proof.
  pose proof (parsed_selection int server_selection) as P.
  destruct (_parse_server_selection int server_selection)
    as [server_id custom_server].
  destruct P as [-> Hid].
  exists server_id, None. repeat split; auto; try discriminate;
    now apply Hid.
Qed.

Lemma custom_one_server (c : ascii) (rest : string) (skip_cert_verify : bool)
      (base_input : config) :
  one_server (_create_custom_server_data (String c rest) skip_cert_verify
                                         base_input).
Proof.
  exists None, (Some (String c rest)).
  repeat split; auto; discriminate.
Qed.

Lemma create_unique_data (configured : list string) (unique_id title : string)
      (d : config) (config_entry : ConfigEntry) :
  created (create_unique configured unique_id title d) = Some config_entry ->
  config_entry = {| data := d; options := empty |}.
Proof.
  unfold create_unique. destruct (existsb _ _); cbn [created]; congruence.
Qed.

Lemma made_one_server (int : string -> option Z) (config_entry : ConfigEntry) :
  made int config_entry ->
  one_server (data config_entry)
  /\ (options config_entry = empty \/ one_server (options config_entry)).
Proof.
  induction 1 as [servers configured user_input e Hmade
                 |netloc configured stored user_input e Hmade
                 |e user_input _ [IHd IHo]
                 |e stored user_input _ [IHd IHo]].
  - destruct user_input as [[selection user_input]|]; [|discriminate].
    unfold async_step_user in Hmade.
    destruct (String.eqb (Directory.get selection "automatic") "custom");
      [discriminate|].
    pose proof (selected_one_server int (Directory.get selection "automatic")
                  user_input None) as S.
    destruct (_parse_server_selection int _) as [server_id custom_server].
    destruct custom_server as [[|c rest]|]; destruct server_id as [n|];
      apply create_unique_data in Hmade; subst e; cbn [data options];
      (split; [exact S | now left]).
  - destruct user_input as [[[|c rest] skip]|]; try discriminate.
    unfold async_step_custom_server in Hmade.
    apply create_unique_data in Hmade. subst e. cbn [data options].
    split; [apply custom_one_server | now left].
  - destruct user_input as [[selection user_input]|];
      [|cbn [async_step_init updated]; now split].
    unfold async_step_init.
    destruct (String.eqb (Directory.get selection "automatic") "custom");
      [cbn [updated]; now split|].
    pose proof (fun skip =>
                  selected_one_server int (Directory.get selection "automatic")
                    user_input skip) as S.
    destruct (_parse_server_selection int _) as [server_id custom_server].
    cbn [updated data options]. split; [exact IHd | right; apply S].
  - destruct user_input as [[[|c rest] skip]|];
      cbn [options_step_custom_server updated data options];
      try (now split).
    split; [exact IHd | right; apply custom_one_server].
Qed.

(** X19.  An entry made by the config flow, and changed by any number of
    options flows, names one server at most: never both a server id and a
    custom server, never an empty custom URL, and a server id only between
    0 and 10000; so the CLI backend never rejects the id of such an entry,
    and the two backends, which disagree on the precedence of the two
    settings, are never given both. *)
Theorem flows_name_one_server (int : string -> option Z)
        (config_entry : ConfigEntry) :
  made int config_entry ->
  let server_id := server_id_of config_entry in
  let custom_server := custom_server_of config_entry in
  (server_id = None \/ custom_server = None) /\
  custom_server <> Some "" /\
  (forall n, server_id = Some n ->
             (CLI.MIN_SERVER_ID <= n <= CLI.MAX_SERVER_ID)%Z) /\
  (forall h skip_cert_verify n,
     server_id = Some n ->
     CLI.prepare h server_id custom_server skip_cert_verify
     = CLI.ready ([CLI.cli_path h; "--json"; "--server"; Native.str_int n]
                  ++ CLI.skip_flag skip_cert_verify)%list None).
Proof.
  intros Hmade. cbv zeta.
  destruct (made_one_server int config_entry Hmade) as [Hd Ho].
  assert (H : exists d, one_server d
                        /\ server_id_of config_entry
                           = Directory.get (CONF_SERVER_ID d) None
                        /\ custom_server_of config_entry
                           = Directory.get (CONF_CUSTOM_SERVER d) None).
  { unfold server_id_of, custom_server_of, get_config_value.
    destruct Ho as [-> | Ho].
    - exists (data config_entry). now repeat split.
    - exists (options config_entry). split; [exact Ho|].
      destruct Ho as (sid & cs & -> & -> & _). now split. }
  destruct H as (d & (sid & cs & Hs & Hc & Hone & Hempty & Hrange) & -> & ->).
  rewrite Hs, Hc. cbn [Directory.get].
  split; [exact Hone|]. split; [exact Hempty|]. split; [exact Hrange|].
  intros h skip n ->. unfold CLI.prepare.
  destruct (Hrange n eq_refl) as [Hlow Hhigh].
  apply Z.ltb_ge in Hlow, Hhigh. now rewrite Hlow, Hhigh.
Qed.

Lemma flows_name_one_server_witness :
  server_id_of
    {| data := selected_data (Some 7%Z) None empty None; options := empty |}
  = Some 7%Z
  /\ custom_server_of
       {| data := selected_data (Some 7%Z) None empty None; options := empty |}
     = None.
Proof.
  destruct (flows_name_one_server sample_int
              {| data := selected_data (Some 7%Z) None empty None;
                 options := empty |}) as ([H|H] & _).
  - apply (made_by_user sample_int [] [] (Some (Some "7", empty))).
    reflexivity.
  - discriminate H.
  - split; [reflexivity | exact H].
Defined.

End Flows.

(* ------------------------------------------------------------------ *)
(** ** What the sensors show *)

Section Sensors.

Import Coordinator Lifecycle Sensor.

Local Open Scope string_scope.







Lemma round_half_even_close (y : Q) :
  - (1 # 2) <= inject_Z (Py.round_half_even y) - y <= 1 # 2.
Proof.
  unfold Py.round_half_even.
  pose proof (Qfloor_le y) as Hlow. pose proof (Qlt_floor y) as Hhigh.
  rewrite inject_Z_plus in Hhigh. change (inject_Z 1) with 1 in Hhigh.
  destruct (Qcompare (y - inject_Z (Qfloor y)) (1 # 2)) eqn:C.
  - apply Qeq_alt in C.
    destruct (Z.even (Qfloor y)); rewrite ?inject_Z_plus;
      change (inject_Z 1) with 1; lra.
  - apply Qlt_alt in C. lra.
  - apply Qgt_alt in C. rewrite inject_Z_plus. change (inject_Z 1) with 1. lra.
Qed.

Lemma round_two_close (x : Q) :
  Qabs (Py.round x 2 - x) <= 1 # 200.
Proof.
  unfold Py.round. change (inject_Z (10 ^ Z.of_nat 2)) with 100.
  pose proof (round_half_even_close (x * 100)) as H.
  apply Qabs_Qle_condition.
  set (r := inject_Z (Py.round_half_even (x * 100))) in *.
  assert (Hdiv : r / 100 == r * (1 # 100)) by reflexivity.
  rewrite Hdiv. lra.
Qed.

(** X21.  The two data sensors never fail on the data of the coordinator:
    they show the bytes of the last test in megabytes, as a number with two
    decimals that is within 0.005 MB of the exact count. *)
Theorem data_sensors_in_megabytes (p : parsed_result)
        (rest : string -> option value) :
  match sensor "data_downloaded", sensor "data_uploaded" with
  | Some down, Some up =>
      exists received sent : Q,
        native_value down (Some p) rest = shows (Some (float received)) /\
        native_value up (Some p) rest = shows (Some (float sent)) /\
        Qabs (received - inject_Z (bytes_received p) / 1000000) <= 1 # 200 /\
        Qabs (sent - inject_Z (bytes_sent p) / 1000000) <= 1 # 200 /\
        (exists hundredths, received = inject_Z hundredths / 100) /\
        (exists hundredths, sent = inject_Z hundredths / 100)
  | _, _ => False
  end.
Proof.
  cbn [sensor SENSOR_TYPES find key String.eqb Ascii.eqb Bool.eqb].
  exists (Py.round (inject_Z (bytes_received p) / 1000000) 2),
         (Py.round (inject_Z (bytes_sent p) / 1000000) 2).
  split; [reflexivity|]. split; [reflexivity|].
  split; [apply round_two_close|]. split; [apply round_two_close|].
  split; eexists; unfold Py.round; reflexivity.
Qed.

End Sensors.

(* ------------------------------------------------------------------ *)
(** ** The button *)

Section Button.

Import Coordinator Lifecycle Entities.

Lemma attempts_first (client : nat -> attempt_outcome) (attempt : nat)
      (rest : list nat) (self : coordinator) (last_error : option Exc.exn) :
  In (client_run_speed_test attempt)
     (snd (attempts client (attempt :: rest) self last_error)).
Proof.
  cbn [attempts]. destruct (client attempt) as [r|e].
  - destruct (on_result r self) as [[s p] effects]. now left.
  - destruct (except_clause e); try (now left);
      destruct (attempts client rest self (Some e)) as [[s ex] effects];
      now left.
Qed.

Lemma first_attempt_started (client : nat -> attempt_outcome) (now : Q)
      (self : coordinator) :
  In (client_run_speed_test 0) (effects_of (_run_speed_test client now self)).
Proof.
  unfold _run_speed_test.
  pose proof (attempts_first client 0 (seq 1 (Const.MAX_RETRIES - 1))
                (set_is_running true self) None) as H.
  change (0%nat :: seq 1 (Const.MAX_RETRIES - 1))
    with (seq 0 Const.MAX_RETRIES) in H.
  destruct (attempts client (seq 0 Const.MAX_RETRIES)
              (set_is_running true self) None) as [[s ex] loop].
  cbn [snd] in H.
  destruct ex as [r|f|last]; unfold effects_of; cbn [snd].
  - right. apply in_or_app. now left.
  - right. apply in_or_app. now left.
  - destruct (after_retries now last s) as [[s' out] more]. cbn [snd].
    right. apply in_or_app. left. apply in_or_app. now left.
Qed.

(** X22.  Pressing the button does not reopen the circuit: the press calls
    [async_refresh], not [async_run_speedtest], so with the failure counter
    at 10 or more the coordinator runs no test, saves nothing and keeps
    its counters and data, where the manual trigger on the same coordinator,
    with the lock free, would start the first attempt. *)
Theorem button_press_on_open_circuit (env : environment)
        (self : coordinator) :
  (Const.CIRCUIT_BREAKER_OPEN_THRESHOLD <= _consecutive_failures self)%Z ->
  snd (async_press env self) = [] /\
  _consecutive_failures (fst (async_press env self))
  = _consecutive_failures self /\
  same_counters self (fst (async_press env self)) /\
  data (fst (async_press env self)) = data self /\
  (lock_locked env = false ->
   In (client_run_speed_test 0) (effects_of (async_run_speedtest env self))).
Proof.
  intros Hopen.
  assert (Hmanual : lock_locked env = false ->
                    In (client_run_speed_test 0)
                       (effects_of (async_run_speedtest env self))).
  { intros Hfree. unfold async_run_speedtest.
    destruct (refresh_state env (after_trigger self)) as (_ & _ & _ & ->).
    unfold _async_update_data, after_trigger.
    apply Z.leb_le in Hopen. rewrite Hopen, Hfree.
    cbn [_consecutive_failures set_consecutive_failures].
    change (Const.CIRCUIT_BREAKER_OPEN_THRESHOLD
            <=? Const.CIRCUIT_BREAKER_OPEN_THRESHOLD - 1)%Z with false.
    apply first_attempt_started. }
  unfold async_press.
  destruct (is_running self); [now repeat split|].
  destruct (refresh_when_open env self Hopen) as (H1 & H2 & H3 & H4).
  unfold effects_of, state_after in H1, H2, H3, H4.
  destruct (async_refresh env self) as [[s o] effects].
  cbn [fst snd] in *. split; [exact H1|]. split; [exact H2|].
  split; [exact H3|]. split; [exact H4 | exact Hmanual].
Qed.

Lemma button_press_on_open_circuit_witness :
  snd (async_press (quiet (fun _ => result sample_result))
                   (set_consecutive_failures 10 (init None))) = [].
Proof.
  apply (button_press_on_open_circuit
           (quiet (fun _ => result sample_result))
           (set_consecutive_failures 10 (init None))).
  vm_compute. discriminate.
Defined.

End Button.
